(** * auto_print_pdfs: a folder watcher that prints new or changed PDF files

    A shallow embedding of [auto_print_pdfs.py] and the properties of its
    PDF sniffer ([is_pdf]), its command builder and invoker ([print_pdf]),
    its option prompts ([get_print_options]) and its polling loop
    ([watch_folder]).

    Modelling choices.
    - Python [str] values are Rocq strings whose characters are the Unicode
      code points below 256: case folding, the digit test, the white-space
      test and the line boundaries are those of Python on these code points
      (so [isdigit()] holds of the superscripts 178, 179 and 185, which
      [int()] refuses, and 133 and 160 are white space). Text with other
      code points is outside the model. String literals of this file are
      ASCII.
    - [int()] and [str()] raise [ValueError] beyond the interpreter's limit
      of 4300 digits.
    - A modification time ([os.path.getmtime]) is only ever compared with
      [<] and stored; it is an integer here, any order-preserving image of
      the number read.
    - The outside world (directory listing, file contents, [stat], the exit
      status of [lp], the lines typed by the user) is a record of oracles;
      every one of them may raise. Writing a line to the terminal is taken
      to succeed, except for the line [print_pdf] writes before its [try],
      whose failure the loop catches: it is an oracle too.
    - Effects are threaded through a small monad: the [printed_files]
      dictionary is state that survives a raised exception, the observable
      actions (log lines, files opened, commands run, sleeps) are written to
      a trace. Log lines are kept structured: the clock prefix and the shell
      quoting of [log] are not rendered. *)

From Stdlib Require Import ZArith String Ascii List Lia Bool DecimalString.
From Stdlib Require Import Init.Byte.
From Stdlib Require DecimalPos.
From stdpp Require Import gmap strings list.

Local Open Scope string_scope.
Local Open Scope Z_scope.
Local Open Scope list_scope.

(** ** Exceptions *)

(** An instance of [Exception], by the name of its class. *)
Inductive exn : Type := Exn (msg : string).

Inductive result (A : Type) : Type :=
| Ok (a : A)
| Raise (e : exn).
Arguments Ok {A} a.
Arguments Raise {A} e.

(** ** Python string primitives *)

Module Py.

(** [c.lower()] on one character: the capital letters 65..90, and 192..222
    but for the multiplication sign 215. *)
Definition lower_char (c : ascii) : ascii :=
  let n := nat_of_ascii c in
  if ((65 <=? n)%nat && (n <=? 90)%nat ||
      (192 <=? n)%nat && (n <=? 214)%nat ||
      (216 <=? n)%nat && (n <=? 222)%nat)%bool
  then ascii_of_nat (n + 32) else c.

(** [s.lower()] *)
Fixpoint lower (s : string) : string :=
  match s with
  | EmptyString => EmptyString
  | String c r => String (lower_char c) (lower r)
  end.

(** [s.endswith(suf)] *)
Definition endswith (s suf : string) : bool :=
  ((String.length suf <=? String.length s)%nat &&
   String.eqb
     (String.substring (String.length s - String.length suf)
        (String.length suf) s) suf)%bool.

(** [s.startswith(pre)] *)
Definition startswith (s pre : string) : bool := String.prefix pre s.

(** The characters [str.strip()] and [str.split()] take for white space:
    tab, LF, VT, FF, CR, the separators 28..31, the space, NEL (133) and the
    no-break space (160). *)
Definition isspace (c : ascii) : bool :=
  let n := nat_of_ascii c in
  ((9 <=? n)%nat && (n <=? 13)%nat || (28 <=? n)%nat && (n <=? 32)%nat ||
   (n =? 133)%nat || (n =? 160)%nat)%bool.

Fixpoint lstrip (s : string) : string :=
  match s with
  | EmptyString => EmptyString
  | String c r => if isspace c then lstrip r else s
  end.

(** [s.rstrip()]: a character is dropped when it is white space and
    everything after it has been dropped too. *)
Fixpoint rstrip (s : string) : string :=
  match s with
  | EmptyString => EmptyString
  | String c r =>
      match rstrip r with
      | EmptyString => if isspace c then EmptyString else String c EmptyString
      | r' => String c r'
      end
  end.

(** [s.strip()] *)
Definition strip (s : string) : string := rstrip (lstrip s).

(** [c.isdecimal()]: the ten digits [int()] reads. *)
Definition is_decimal (c : ascii) : bool :=
  let n := nat_of_ascii c in ((48 <=? n)%nat && (n <=? 57)%nat)%bool.

(** [c.isdigit()]: the ten digits and the superscripts two (178), three
    (179) and one (185). *)
Definition is_digit (c : ascii) : bool :=
  let n := nat_of_ascii c in
  (is_decimal c || (n =? 178)%nat || (n =? 179)%nat || (n =? 185)%nat)%bool.

Fixpoint all_decimal (s : string) : bool :=
  match s with
  | EmptyString => true
  | String c r => (is_decimal c && all_decimal r)%bool
  end.

Fixpoint all_digits (s : string) : bool :=
  match s with
  | EmptyString => true
  | String c r => (is_digit c && all_digits r)%bool
  end.

(** [s.isdigit()]: false on the empty string. *)
Definition isdigit (s : string) : bool :=
  match s with
  | EmptyString => false
  | _ => all_digits s
  end.

Fixpoint int_digits (acc : Z) (s : string) : Z :=
  match s with
  | EmptyString => acc
  | String c r => int_digits (10 * acc + (Z.of_nat (nat_of_ascii c) - 48)) r
  end.

(** The number a string of decimal digits denotes. *)
Definition int (s : string) : Z := int_digits 0 s.

(** The decimal text of an integer. *)
Definition str (n : Z) : string := NilZero.string_of_int (Z.to_int n).

(** [sys.get_int_max_str_digits()], the interpreter's default. *)
Definition max_str_digits : nat := 4300.

(** [int(s)] for a string [s] that passes [s.isdigit()], the only way the
    script calls it: [ValueError] when a character is not a decimal digit
    or there are more than 4300 of them (leading zeros count), the number
    otherwise. *)
Definition int_result (s : string) : result Z :=
  if (all_decimal s && (1 <=? String.length s)%nat &&
      (String.length s <=? max_str_digits)%nat)%bool
  then Ok (int s)
  else Raise (Exn "ValueError").

(** [str(n)]: [ValueError] when [n] has more than 4300 digits (the sign
    does not count), the decimal text otherwise. *)
Definition str_result (n : Z) : result string :=
  if (String.length (str (Z.abs n)) <=? max_str_digits)%nat
  then Ok (str n)
  else Raise (Exn "ValueError").

(** Truth value of a string ([if s:]). *)
Definition truthy (s : string) : bool :=
  match s with
  | EmptyString => false
  | _ => true
  end.

(** [os.path.join(a, b)] for two components (posixpath). *)
Definition path_join (a b : string) : string :=
  if startswith b "/" then b
  else if (negb (truthy a) || endswith a "/")%bool then String.append a b
  else String.append a (String.append "/" b).

End Py.

(** ** The outside world and the effect monad *)

(** What [subprocess.run(cmd, check=True)] can do. *)
Inductive run_outcome : Type :=
| Exit0
| ExitNonzero (code : Z)
| LaunchFailed (e : exn).

(** The oracles one cycle of the loop consults. [log_printing cmd] is what
    writing the line [Printing: cmd] to the terminal does; the line holds
    the file name, and the write can raise (an encoding the terminal does
    not have, a closed pipe). *)
Record world : Type := World {
  listdir : string -> result (list string);
  isfile : string -> bool;
  read_bytes : string -> result (list byte);
  getmtime : string -> result Z;
  run : list string -> run_outcome;
  log_printing : list string -> result unit
}.

Inductive level : Type := INFO | WARNING | ERROR.

Inductive message : Type :=
| MsgWatching (folder : string)
| MsgPressCtrlC
| MsgPrinting (cmd : list string)
| MsgPrintExit (code : Z)
| MsgPrintUnexpected (e : exn)
| MsgScanError (e : exn)
| MsgInvalidCopies
| MsgInvalidDuplex.

Inductive event : Type :=
| EvLog (l : level) (m : message)
| EvOpen (path : string)
| EvRun (cmd : list string)
| EvSleep (secs : Z)
| EvInput (prompt : string)
| EvPrint (line : string).

(** A computation over a state [S] ([printed_files] for the loop, the
    lines still to be typed for the prompts) updates the state, appends to
    the trace, and returns or raises. The state and the trace are kept when
    it raises. *)
Definition M (S A : Type) : Type := S -> S * list event * result A.

Definition ret {S A} (a : A) : M S A := fun s => (s, [], Ok a).

Definition bind {S A B} (c : M S A) (k : A -> M S B) : M S B :=
  fun s =>
    match c s with
    | (s1, t1, Ok a) =>
        match k a s1 with
        | (s2, t2, r) => (s2, t1 ++ t2, r)
        end
    | (s1, t1, Raise e) => (s1, t1, Raise e)
    end.

(** [try: c  except Exception as e: handler(e)] *)
Definition try_except {S A} (c : M S A) (handler : exn -> M S A) : M S A :=
  fun s =>
    match c s with
    | (s1, t1, Ok a) => (s1, t1, Ok a)
    | (s1, t1, Raise e) =>
        match handler e s1 with
        | (s2, t2, r) => (s2, t1 ++ t2, r)
        end
    end.

Definition emit {S} (e : event) : M S unit := fun s => (s, [e], Ok tt).

Definition lift {S A} (r : result A) : M S A := fun s => (s, [], r).

Definition get_state {S} : M S S := fun s => (s, [], Ok s).

Notation "'let*' x ':=' c 'in' k" := (bind c (fun x => k))
  (at level 10, x name, c at level 100, k at level 200).
Notation "'exec' c 'then' k" := (bind c (fun _ => k))
  (at level 10, c at level 100, k at level 200).

(** [for x in xs: body(x)] *)
Fixpoint for_each {S A} (xs : list A) (body : A -> M S unit) : M S unit :=
  match xs with
  | [] => ret tt
  | x :: rest => exec body x then for_each rest body
  end.

Definition state_of {S A} (o : S * list event * result A) : S := fst (fst o).
Definition trace_of {S A} (o : S * list event * result A) : list event :=
  snd (fst o).
Definition result_of {S A} (o : S * list event * result A) : result A := snd o.

(** ** The script *)

Definition PDF_MAGIC : list byte := [x25; x50; x44; x46; x2d].

Fixpoint bytes_eqb (a b : list byte) : bool :=
  match a, b with
  | [], [] => true
  | x :: a', y :: b' => (Byte.eqb x y && bytes_eqb a' b')%bool
  | _, _ => false
  end.

Definition log {S} (m : message) : M S unit := emit (EvLog INFO m).
Definition warn {S} (m : message) : M S unit := emit (EvLog WARNING m).
Definition err {S} (m : message) : M S unit := emit (EvLog ERROR m).
Definition sleep {S} (secs : Z) : M S unit := emit (EvSleep secs).

(** [open(path, "rb")] followed by [f.read(n)]. *)
Definition open_read {S} (w : world) (path : string) (n : nat) :
  M S (list byte) :=
  exec emit (EvOpen path) then
  let* bs := lift (read_bytes w path) in
  ret (take n bs).

Definition is_pdf {S} (w : world) (path : string) : M S bool :=
  if negb (Py.endswith (Py.lower path) ".pdf") then ret false
  else
    try_except
      (let* bs := open_read w path 5 in ret (bytes_eqb bs PDF_MAGIC))
      (fun _ => ret false).

(** The options collected once at start-up, as [watch_folder] passes them
    on. *)
Record options : Type := Options {
  pages : string;
  copies : Z;
  duplex : option string;
  fit : bool;
  media : option string
}.

(** The [cmd] list [print_pdf] builds, when it builds one. *)
Definition print_pdf_cmd (path printer : string) (o : options) : list string :=
  let cmd := ["lp"; "-d"; printer] in
  let cmd :=
    if (negb (copies o =? 0) && negb (copies o =? 1))%bool
    then cmd ++ ["-n"; Py.str (copies o)] else cmd in
  let cmd := if Py.truthy (pages o) then cmd ++ ["-P"; pages o] else cmd in
  let cmd :=
    match duplex o with
    | Some d => if Py.truthy d then cmd ++ ["-o"; String.append "sides=" d] else cmd
    | None => cmd
    end in
  let cmd := if fit o then cmd ++ ["-o"; "fit-to-page"] else cmd in
  let cmd :=
    match media o with
    | Some m => if Py.truthy m then cmd ++ ["-o"; String.append "media=" m] else cmd
    | None => cmd
    end in
  cmd ++ [path].

(** Lines 100 to 111 as they run: [str(copies)] is the one call that can
    raise, and it is made only when the [-n] group is added. *)
Definition print_pdf_argv (path printer : string) (o : options) :
    result (list string) :=
  if (negb (copies o =? 0) && negb (copies o =? 1))%bool then
    match Py.str_result (copies o) with
    | Ok _ => Ok (print_pdf_cmd path printer o)
    | Raise e => Raise e
    end
  else Ok (print_pdf_cmd path printer o).

(** The command is built and logged before the [try]: what raises there
    leaves [print_pdf]. *)
Definition print_pdf {S} (w : world) (path printer : string) (o : options) :
  M S bool :=
  let* cmd := lift (print_pdf_argv path printer o) in
  let* _ := lift (log_printing w cmd) in
  exec log (MsgPrinting cmd) then
  exec emit (EvRun cmd) then
  match run w cmd with
  | Exit0 => ret true
  | ExitNonzero code => exec err (MsgPrintExit code) then ret false
  | LaunchFailed e => exec err (MsgPrintUnexpected e) then ret false
  end.

(** [printed_files[path] = mtime] *)
Definition set_printed (path : string) (mtime : Z) : M (gmap string Z) unit :=
  fun h => (<[path := mtime]> h, [], Ok tt).

(** The body of the [for name in os.listdir(folder)] loop. *)
Definition scan_entry (w : world) (folder printer : string) (o : options)
    (name : string) : M (gmap string Z) unit :=
  let path := Py.path_join folder name in
  if negb (isfile w path) then ret tt
  else
    let* is_p := is_pdf w path in
    if negb is_p then ret tt
    else
      let* mtime := lift (getmtime w path) in
      let* printed_files := get_state in
      if match printed_files !! path with
         | None => true
         | Some stored => stored <? mtime
         end
      then
        let* printed := print_pdf w path printer o in
        if printed then set_printed path mtime else ret tt
      else ret tt.

(** One turn of [while True]. *)
Definition cycle (w : world) (folder printer : string) (o : options) :
  M (gmap string Z) unit :=
  try_except
    (let* names := lift (listdir w folder) in
     exec for_each names (scan_entry w folder printer o) then
     sleep 5)
    (fun e => exec warn (MsgScanError e) then sleep 5).

(** The [while True] loop, run for as many turns as there are worlds: the
    loop has no exit of its own and ends only when the process is
    interrupted. *)
Fixpoint watch_loop (ws : list world) (folder printer : string) (o : options)
    : M (gmap string Z) unit :=
  match ws with
  | [] => ret tt
  | w :: rest =>
      exec cycle w folder printer o then watch_loop rest folder printer o
  end.

Definition watch_folder (ws : list world) (folder printer : string)
    (o : options) : gmap string Z * list event * result unit :=
  (exec log (MsgWatching folder) then
   exec log MsgPressCtrlC then
   watch_loop ws folder printer o) ∅.

(** *** The option prompts

    The state is the list of lines the user will type. *)

(** [input(prompt)]: the next typed line; [EOFError] when there is none. *)
Definition input (prompt : string) : M (list string) string :=
  fun lines =>
    match lines with
    | [] => ([], [EvInput prompt], Raise (Exn "EOFError"))
    | l :: rest => (rest, [EvInput prompt], Ok l)
    end.

Definition print {S} (line : string) : M S unit := emit (EvPrint line).

Definition copies_prompt : string := "Enter number of copies (default 1): ".
Definition duplex_prompt : string :=
  "Choose duplex mode [1-3] or press Enter for default: ".
Definition pages_prompt : string :=
  "Enter page ranges (e.g., 1-3,5,7) or press Enter for all pages: ".
Definition fit_prompt : string := "Fit to page? (Y/N, default N): ".
Definition media_prompt : string :=
  "Enter paper size (e.g., Letter, A4) or press Enter for default: ".

(** The first [while True] of [get_print_options]: one turn per typed
    line; [again] is the warning and the next turn. In
    [copies.isdigit() and int(copies) > 0] the call of [int] is made when
    [isdigit()] holds, and what it raises leaves the function. *)
Fixpoint copies_loop (lines : list string) :
    list string * list event * result Z :=
  match lines with
  | [] => ([], [EvInput copies_prompt], Raise (Exn "EOFError"))
  | l :: rest =>
      let copies := Py.strip l in
      let again :=
        match copies_loop rest with
        | (s, t, r) =>
            (s, EvInput copies_prompt :: EvLog WARNING MsgInvalidCopies :: t, r)
        end in
      if negb (Py.truthy copies) then (rest, [EvInput copies_prompt], Ok 1)
      else if Py.isdigit copies then
        match Py.int_result copies with
        | Raise e => (rest, [EvInput copies_prompt], Raise e)
        | Ok n =>
            if 0 <? n then (rest, [EvInput copies_prompt], Ok n) else again
        end
      else again
  end.

Definition duplex_modes : list string :=
  ["one-sided"; "two-sided-long-edge"; "two-sided-short-edge"].

(** The second [while True]. *)
Fixpoint duplex_loop (lines : list string) :
    list string * list event * result (option string) :=
  match lines with
  | [] => ([], [EvInput duplex_prompt], Raise (Exn "EOFError"))
  | l :: rest =>
      let duplex_choice := Py.strip l in
      let again :=
        match duplex_loop rest with
        | (s, t, r) =>
            (s, EvInput duplex_prompt :: EvLog WARNING MsgInvalidDuplex :: t, r)
        end in
      if negb (Py.truthy duplex_choice)
      then (rest, [EvInput duplex_prompt], Ok None)
      else if Py.isdigit duplex_choice then
        match Py.int_result duplex_choice with
        | Raise e => (rest, [EvInput duplex_prompt], Raise e)
        | Ok n =>
            if ((1 <=? n) && (n <=? Z.of_nat (length duplex_modes)))%bool
            then
              (rest, [EvInput duplex_prompt],
               match duplex_modes !! Z.to_nat (n - 1) with
               | Some mode => Ok (Some mode)
               | None => Raise (Exn "IndexError")
               end)
            else again
        end
      else again
  end.

(** [enumerate(xs, start)] *)
Fixpoint enumerate {A} (start : Z) (xs : list A) : list (Z * A) :=
  match xs with
  | [] => []
  | x :: rest => (start, x) :: enumerate (start + 1) rest
  end.

Definition get_print_options : M (list string) options :=
  let* pages_in := input pages_prompt in
  let pages := Py.strip pages_in in
  let* copies := copies_loop in
  exec print "Duplex options:" then
  exec for_each (enumerate 1 duplex_modes)
         (fun im => print (String.append (Py.str (fst im))
                             (String.append ". " (snd im)))) then
  let* duplex := duplex_loop in
  let* fit_in := input fit_prompt in
  let fit_input := Py.lower (Py.strip fit_in) in
  let fit := String.eqb fit_input "y" in
  let* media_in := input media_prompt in
  let media :=
    if Py.truthy (Py.strip media_in) then Some (Py.strip media_in) else None in
  ret (Options pages copies duplex fit media).

(** *** Start-up: printer discovery, printer choice and the main block

    The start-up code logs lines the loop never logs and can leave through
    [sys.exit]; it has its own events and outcomes, into which those of the
    code above embed. *)

Module PyText.

(** The line boundaries of [str.splitlines()]: LF, VT, FF, CR, the
    separators 28..30 and NEL (133). *)
Definition is_linebreak (c : ascii) : bool :=
  let n := nat_of_ascii c in
  ((10 <=? n)%nat && (n <=? 13)%nat || (28 <=? n)%nat && (n <=? 30)%nat ||
   (n =? 133)%nat)%bool.

(** [s.splitlines()], with the line read so far in [cur]: CR LF is one
    boundary, and a last line is kept only when it is not empty. *)
Fixpoint splitlines_from (cur : string) (s : string) : list string :=
  match s with
  | EmptyString =>
      match cur with
      | EmptyString => []
      | _ => [cur]
      end
  | String c r =>
      if is_linebreak c then
        match r with
        | String c' r' =>
            if (Ascii.eqb c "013" && Ascii.eqb c' "010")%bool
            then cur :: splitlines_from EmptyString r'
            else cur :: splitlines_from EmptyString r
        | EmptyString => [cur]
        end
      else splitlines_from (String.append cur (String c EmptyString)) r
  end.

Definition splitlines (s : string) : list string :=
  splitlines_from EmptyString s.

(** [s.split()], with the word read so far in [cur]: runs of white space
    separate the words and give no empty word. *)
Fixpoint split_from (cur : string) (s : string) : list string :=
  match s with
  | EmptyString =>
      match cur with
      | EmptyString => []
      | _ => [cur]
      end
  | String c r =>
      if Py.isspace c then
        match cur with
        | EmptyString => split_from EmptyString r
        | _ => cur :: split_from EmptyString r
        end
      else split_from (String.append cur (String c EmptyString)) r
  end.

Definition split (s : string) : list string := split_from EmptyString s.

(** [c in s] for a one-character [c]. *)
Fixpoint contains (c : ascii) (s : string) : bool :=
  match s with
  | EmptyString => false
  | String c' r => (Ascii.eqb c' c || contains c r)%bool
  end.

(** [s.split(c, 1)] for a one-character [c], with the part read so far in
    [cur]. *)
Fixpoint split1_from (c : ascii) (cur : string) (s : string) : list string :=
  match s with
  | EmptyString => [cur]
  | String c' r =>
      if Ascii.eqb c' c then [cur; r]
      else split1_from c (String.append cur (String c' EmptyString)) r
  end.

Definition split1 (c : ascii) (s : string) : list string :=
  split1_from c EmptyString s.

End PyText.

(** What a call can do: return, raise an [Exception], or leave through
    [sys.exit(code)], which no [except Exception] catches. *)
Inductive outcome (A : Type) : Type :=
| Returned (a : A)
| Raised (e : exn)
| Exited (code : Z).
Arguments Returned {A} a.
Arguments Raised {A} e.
Arguments Exited {A} code.

Inductive startup_message : Type :=
| MsgListFailed (e : exn)
| MsgNoPrinters
| MsgAvailablePrinters
| MsgInvalidSelection
| MsgStopping.

Inductive startup_event : Type :=
| Core (e : event)
| StartupLog (l : level) (m : startup_message).

(** [subprocess.check_output(cmd, text=True)]: the text written by the
    command, or the exception (command missing, non-zero exit). *)
Record printing_system : Type := PrintingSystem {
  check_output : list string -> result string
}.

Definition P (S A : Type) : Type := S -> S * list startup_event * outcome A.

Definition p_ret {S A} (a : A) : P S A := fun s => (s, [], Returned a).

Definition p_bind {S A B} (c : P S A) (k : A -> P S B) : P S B :=
  fun s =>
    match c s with
    | (s1, t1, Returned a) =>
        match k a s1 with
        | (s2, t2, r) => (s2, t1 ++ t2, r)
        end
    | (s1, t1, Raised e) => (s1, t1, Raised e)
    | (s1, t1, Exited code) => (s1, t1, Exited code)
    end.

(** [try: c  except Exception as e: handler(e)]: an exit passes through. *)
Definition p_try_except {S A} (c : P S A) (handler : exn -> P S A) : P S A :=
  fun s =>
    match c s with
    | (s1, t1, Raised e) =>
        match handler e s1 with
        | (s2, t2, r) => (s2, t1 ++ t2, r)
        end
    | other => other
    end.

Definition p_emit {S} (e : startup_event) : P S unit :=
  fun s => (s, [e], Returned tt).

(** [sys.exit(code)] *)
Definition sys_exit {S A} (code : Z) : P S A := fun s => (s, [], Exited code).

Definition outcome_of_result {A} (r : result A) : outcome A :=
  match r with
  | Ok a => Returned a
  | Raise e => Raised e
  end.

(** A computation of the code above, run at start-up. *)
Definition from_core {S A} (c : M S A) : P S A :=
  fun s =>
    match c s with
    | (s1, t1, r) => (s1, map Core t1, outcome_of_result r)
    end.

Notation "'let+' x ':=' c 'in' k" := (p_bind c (fun x => k))
  (at level 10, x name, c at level 100, k at level 200).
Notation "'exec+' c 'then' k" := (p_bind c (fun _ => k))
  (at level 10, c at level 100, k at level 200).

Fixpoint p_for_each {S A} (xs : list A) (body : A -> P S unit) : P S unit :=
  match xs with
  | [] => p_ret tt
  | x :: rest => exec+ body x then p_for_each rest body
  end.

Definition p_log {S} (m : startup_message) : P S unit :=
  p_emit (StartupLog INFO m).
Definition p_warn {S} (m : startup_message) : P S unit :=
  p_emit (StartupLog WARNING m).
Definition p_err {S} (m : startup_message) : P S unit :=
  p_emit (StartupLog ERROR m).

(** [subprocess.check_output(cmd, text=True)] *)
Definition run_check_output {S} (sys : printing_system) (cmd : list string) :
    P S string :=
  exec+ p_emit (Core (EvRun cmd)) then
  from_core (lift (check_output sys cmd)).

(** [printers] and [default_printer], the two variables [list_printers]
    fills in. *)
Record found : Type := Found {
  printers : list string;
  default_printer : option string
}.

(** The body of [for line in out.splitlines()]. *)
Definition printer_of_line (line : string) : P found unit :=
  fun st =>
    let parts := PyText.split line in
    match parts with
    | p0 :: p1 :: _ =>
        if String.eqb p0 "printer"
        then (Found (printers st ++ [p1]) (default_printer st), [], Returned tt)
        else (st, [], Returned tt)
    | _ => (st, [], Returned tt)
    end.

Definition set_default (name : string) : P found unit :=
  fun st => (Found (printers st) (Some name), [], Returned tt).

Definition list_printers_body (sys : printing_system) : P found unit :=
  exec+ p_try_except
          (let+ out := run_check_output sys ["lpstat"; "-p"] in
           p_for_each (PyText.splitlines out) printer_of_line)
          (fun e => p_err (MsgListFailed e)) then
  p_try_except
    (let+ d_out := run_check_output sys ["lpstat"; "-d"] in
     let d := Py.strip d_out in
     if PyText.contains ":" d then
       match PyText.split1 ":" d !! 1%nat with
       | Some name => set_default (Py.strip name)
       | None => from_core (lift (Raise (Exn "IndexError")))
       end
     else p_ret tt)
    (fun _ => p_ret tt).

(** [list_printers()]: the two variables start as [[]] and [None] and are
    returned at the end. *)
Definition list_printers {S} (sys : printing_system) : P S found :=
  fun s =>
    match list_printers_body sys (Found [] None) with
    | (st, t, Returned _) => (s, t, Returned st)
    | (_, t, Raised e) => (s, t, Raised e)
    | (_, t, Exited code) => (s, t, Exited code)
    end.

(** [p == default_printer] *)
Definition is_default (p : string) (default : option string) : bool :=
  match default with
  | Some d => String.eqb p d
  | None => false
  end.

Definition choose_prompt (printers : list string) : string :=
  String.append "Choose printer [1-"
    (String.append (Py.str (Z.of_nat (length printers))) "]: ").

(** The [while True] of [choose_printer]: one turn per typed line. *)
Fixpoint choose_loop (printers : list string) (lines : list string) :
    list string * list startup_event * outcome string :=
  match lines with
  | [] =>
      ([], [Core (EvInput (choose_prompt printers))], Raised (Exn "EOFError"))
  | l :: rest =>
      let choice := Py.strip l in
      let again :=
        match choose_loop printers rest with
        | (s, t, r) =>
            (s,
             Core (EvInput (choose_prompt printers))
               :: StartupLog WARNING MsgInvalidSelection :: t,
             r)
        end in
      if Py.isdigit choice then
        match Py.int_result choice with
        | Raise e =>
            (rest, [Core (EvInput (choose_prompt printers))], Raised e)
        | Ok n =>
            if ((1 <=? n) && (n <=? Z.of_nat (length printers)))%bool
            then
              (rest, [Core (EvInput (choose_prompt printers))],
               match printers !! Z.to_nat (n - 1) with
               | Some p => Returned p
               | None => Raised (Exn "IndexError")
               end)
            else again
        end
      else again
  end.

Definition choose_printer (printers : list string) (default : option string) :
    P (list string) string :=
  match printers with
  | [] => exec+ p_err MsgNoPrinters then sys_exit 1
  | _ =>
      exec+ p_log MsgAvailablePrinters then
      exec+ p_for_each (enumerate 1 printers)
              (fun ip =>
                 let tag := if is_default (snd ip) default
                            then " (default)" else "" in
                 p_emit (Core (EvPrint
                   (String.append (Py.str (fst ip))
                      (String.append ". " (String.append (snd ip) tag)))))) then
      choose_loop printers
  end.

(** The [__main__] block; [folder] is the directory of the script and [ws]
    the worlds the loop will see. The loop has no exit: after the last
    cycle comes the interrupt, whose handler logs [Stopping...] and leaves
    through [sys.exit(0)]. *)
Definition main (sys : printing_system) (ws : list world) (folder : string) :
    P (list string) unit :=
  let+ pd := list_printers sys in
  let+ printer := choose_printer (printers pd) (default_printer pd) in
  let+ o := from_core get_print_options in
  fun lines =>
    match watch_folder ws folder printer o with
    | (_, t, Ok _) =>
        (lines, map Core t ++ [StartupLog INFO MsgStopping], Exited 0)
    | (_, t, Raise e) => (lines, map Core t, Raised e)
    end.

(** ** Vocabulary of the properties

    What the functions above compute or leave in the trace, read off the
    world, and the concrete worlds of the examples. *)

(** What [is_pdf] answers, read off the world. *)
Definition is_pdf_value (w : world) (path : string) : bool :=
  (Py.endswith (Py.lower path) ".pdf" &&
   match read_bytes w path with
   | Ok bs => bytes_eqb (take 5 bs) PDF_MAGIC
   | Raise _ => false
   end)%bool.

(** What [is_pdf] does on the way. *)
Definition is_pdf_trace (path : string) : list event :=
  if Py.endswith (Py.lower path) ".pdf" then [EvOpen path] else [].

(** [/w] holds one file, with content [bs]. *)
Definition pdf_world (bs : list byte) : world :=
  {| listdir := fun _ => Ok ["a.pdf"];
     isfile := fun _ => true;
     read_bytes := fun _ => Ok bs;
     getmtime := fun _ => Ok 10;
     run := fun _ => Exit0;
     log_printing := fun _ => Ok tt |}.

(** The test on line [if path not in printed_files or ...]. *)
Definition should_print (h : gmap string Z) (path : string) (mtime : Z) : bool :=
  match h !! path with
  | None => true
  | Some stored => stored <? mtime
  end.

(** The event [subprocess.run(cmd)] is a submission of [path] when [path]
    is the last word of [cmd]. *)
Definition is_submission (path : string) (e : event) : bool :=
  match e with
  | EvRun cmd => bool_decide (last cmd = Some path)
  | _ => false
  end.

(** How many times a trace submits [path]. *)
Fixpoint submissions (path : string) (t : list event) : nat :=
  match t with
  | [] => 0
  | e :: r => ((if is_submission path e then 1 else 0) + submissions path r)%nat
  end.

(** What [print_pdf] leaves in the trace after the run, by outcome. *)
Definition print_pdf_errors (r : run_outcome) : list event :=
  match r with
  | Exit0 => []
  | ExitNonzero code => [EvLog ERROR (MsgPrintExit code)]
  | LaunchFailed e => [EvLog ERROR (MsgPrintUnexpected e)]
  end.

Definition succeeded (r : run_outcome) : bool :=
  match r with
  | Exit0 => true
  | _ => false
  end.

(** The trace of one submission of [path]. *)
Definition submit_trace (w : world) (path printer : string) (o : options) :
    list event :=
  [EvOpen path;
   EvLog INFO (MsgPrinting (print_pdf_cmd path printer o));
   EvRun (print_pdf_cmd path printer o)]
    ++ print_pdf_errors (run w (print_pdf_cmd path printer o)).

(** What [print_pdf] does before its [try]: the command is built and its
    line written, or one of the two raises. *)
Definition pre_try (w : world) (path printer : string) (o : options) :
    result unit :=
  match print_pdf_argv path printer o with
  | Raise e => Raise e
  | Ok cmd => log_printing w cmd
  end.

(** [print_pdf] raises, and then before it runs [lp]. *)
Definition print_raises (w : world) (printer : string) (o : options)
    (path : string) : bool :=
  match pre_try w path printer o with
  | Raise _ => true
  | Ok _ => false
  end.

(** The [stat] of an entry raises: a regular file passes the sniffer and
    its modification time cannot be read. *)
Definition stat_fails (w : world) (path : string) : bool :=
  (isfile w path && is_pdf_value w path &&
   match getmtime w path with
   | Raise _ => true
   | Ok _ => false
   end)%bool.

(** The first bytes of a PDF file: [%PDF-1.4]. *)
Definition pdf_bytes : list byte := [x25; x50; x44; x46; x2d; x31; x2e; x34].

Definition plain : options := Options "" 1 None false None.

(** [/w] holds [a.pdf] and [b.pdf], both PDF files last written at [mtime];
    [lp] answers [outcome]. *)
Definition two_pdfs (mtime : Z) (outcome : run_outcome) : world :=
  {| listdir := fun _ => Ok ["a.pdf"; "b.pdf"];
     isfile := fun _ => true;
     read_bytes := fun _ => Ok pdf_bytes;
     getmtime := fun _ => Ok mtime;
     run := fun _ => outcome;
     log_printing := fun _ => Ok tt |}.

(** As [two_pdfs], but [a.pdf] is removed after it has been sniffed and
    before its [stat]. *)
Definition a_vanishes (mtime : Z) (outcome : run_outcome) : world :=
  {| listdir := fun _ => Ok ["a.pdf"; "b.pdf"];
     isfile := fun _ => true;
     read_bytes := fun _ => Ok pdf_bytes;
     getmtime := fun path =>
       if String.eqb path "/w/a.pdf" then Raise (Exn "FileNotFoundError")
       else Ok mtime;
     run := fun _ => outcome;
     log_printing := fun _ => Ok tt |}.

(** As [two_pdfs], but [b.pdf] is the one removed before its [stat]. *)
Definition b_vanishes (mtime : Z) (outcome : run_outcome) : world :=
  {| listdir := fun _ => Ok ["a.pdf"; "b.pdf"];
     isfile := fun _ => true;
     read_bytes := fun _ => Ok pdf_bytes;
     getmtime := fun path =>
       if String.eqb path "/w/b.pdf" then Raise (Exn "FileNotFoundError")
       else Ok mtime;
     run := fun _ => outcome;
     log_printing := fun _ => Ok tt |}.

(** The folder cannot be listed. *)
Definition unavailable : world :=
  {| listdir := fun _ => Raise (Exn "PermissionError");
     isfile := fun _ => false;
     read_bytes := fun _ => Raise (Exn "PermissionError");
     getmtime := fun _ => Raise (Exn "PermissionError");
     run := fun _ => Exit0;
     log_printing := fun _ => Ok tt |}.

(** The loop opens a file only from [is_pdf], after the test on its name. *)
Definition opens_only_pdf_names (e : event) : Prop :=
  match e with
  | EvOpen q => Py.endswith (Py.lower q) ".pdf" = true
  | _ => True
  end.

(** [a.pdf] is a PDF file, [b.txt] is not named like one. *)
Definition pdf_and_text : world :=
  {| listdir := fun _ => Ok ["a.pdf"; "b.txt"];
     isfile := fun _ => true;
     read_bytes := fun _ => Ok pdf_bytes;
     getmtime := fun _ => Ok 10;
     run := fun _ => Exit0;
     log_printing := fun _ => Ok tt |}.

(** [/w] holds the PDF file [a.pdf] only, last written at 10. *)
Definition only_a (outcome : run_outcome) : world :=
  {| listdir := fun _ => Ok ["a.pdf"];
     isfile := fun _ => true;
     read_bytes := fun _ => Ok pdf_bytes;
     getmtime := fun _ => Ok 10;
     run := fun _ => outcome;
     log_printing := fun _ => Ok tt |}.

(** As [two_pdfs 10 Exit0], on a terminal that cannot show the line
    [print_pdf] logs. *)
Definition mute_terminal : world :=
  {| listdir := fun _ => Ok ["a.pdf"; "b.pdf"];
     isfile := fun _ => true;
     read_bytes := fun _ => Ok pdf_bytes;
     getmtime := fun _ => Ok 10;
     run := fun _ => Exit0;
     log_printing := fun _ => Raise (Exn "UnicodeEncodeError") |}.

(** How a prompt loop takes one typed line: it leaves with a value, it
    warns and asks again, or [int()] raises. *)
Inductive verdict (A : Type) : Type :=
| Accepted (a : A)
| Rejected
| Crashed (e : exn).
Arguments Accepted {A} a.
Arguments Rejected {A}.
Arguments Crashed {A} e.

(** One turn of the copies loop, by the line typed. *)
Definition copies_answer (l : string) : verdict Z :=
  let copies := Py.strip l in
  if negb (Py.truthy copies) then Accepted 1
  else if Py.isdigit copies then
    match Py.int_result copies with
    | Raise e => Crashed e
    | Ok n => if 0 <? n then Accepted n else Rejected
    end
  else Rejected.

(** The same for the duplex loop. *)
Definition duplex_answer (l : string) : verdict (option string) :=
  let duplex_choice := Py.strip l in
  if negb (Py.truthy duplex_choice) then Accepted None
  else if Py.isdigit duplex_choice then
    match Py.int_result duplex_choice with
    | Raise e => Crashed e
    | Ok n =>
        if ((1 <=? n) && (n <=? Z.of_nat (length duplex_modes)))%bool
        then Accepted (duplex_modes !! Z.to_nat (n - 1))
        else Rejected
    end
  else Rejected.

(** What the loops leave in the trace for the lines they reject. *)
Definition reprompts (prompt : string) (m : message) (bad : list string) :
    list event :=
  flat_map (fun _ => [EvInput prompt; EvLog WARNING m]) bad ++ [EvInput prompt].

(** The lines printed before the duplex prompt. *)
Definition duplex_menu : list event :=
  [EvPrint "Duplex options:"; EvPrint "1. one-sided";
   EvPrint "2. two-sided-long-edge"; EvPrint "3. two-sided-short-edge"].

Definition is_warning (e : event) : bool :=
  match e with
  | EvLog WARNING _ => true
  | _ => false
  end.

(** Vocabulary of the further properties. *)

Definition is_error (e : event) : bool :=
  match e with
  | EvLog ERROR _ => true
  | _ => false
  end.

Definition is_run (e : event) : bool :=
  match e with
  | EvRun _ => true
  | _ => false
  end.


(** An event that is not a sleep, or a sleep of 5. *)
Definition sleeps_five (e : event) : Prop :=
  match e with
  | EvSleep secs => secs = 5
  | _ => True
  end.

(** The record [t] of [p] was made in world [w]: [p] is a listed regular
    PDF file, [t] the modification time read, and [lp] printed it. *)
Definition recorded_in (folder printer : string) (o : options) (w : world)
    (p : string) (t : Z) : Prop :=
  (exists names name,
     listdir w folder = Ok names /\ name ∈ names /\
     p = Py.path_join folder name) /\
  isfile w p = true /\
  is_pdf_value w p = true /\
  getmtime w p = Ok t /\
  run w (print_pdf_cmd p printer o) = Exit0.

(** The entries a scan gets to: all of them up to and including the first
    one whose [stat] raises. *)
Fixpoint reached (w : world) (folder : string) (names : list string) :
    list string :=
  match names with
  | [] => []
  | n :: rest =>
      if stat_fails w (Py.path_join folder n) then [n]
      else n :: reached w folder rest
  end.

(** Nothing to print for [name]: if it is a regular PDF file whose
    modification time can be read, its record is not older. *)
Definition settled (w : world) (folder : string) (h : gmap string Z)
    (name : string) : Prop :=
  isfile w (Py.path_join folder name) = true ->
  is_pdf_value w (Py.path_join folder name) = true ->
  forall m, getmtime w (Py.path_join folder name) = Ok m ->
            should_print h (Py.path_join folder name) m = false.

Definition p_state_of {S A} (r : S * list startup_event * outcome A) : S :=
  fst (fst r).
Definition p_trace_of {S A} (r : S * list startup_event * outcome A) :
  list startup_event := snd (fst r).
Definition p_outcome_of {S A} (r : S * list startup_event * outcome A) :
  outcome A := snd r.

(** The lines [choose_printer] prints before it asks. *)
Fixpoint printer_menu (default : option string) (start : Z)
    (printers : list string) : list startup_event :=
  match printers with
  | [] => []
  | p :: rest =>
      Core (EvPrint
              (String.append (Py.str start)
                 (String.append ". "
                    (String.append p
                       (if is_default p default then " (default)" else "")))))
        :: printer_menu default (start + 1) rest
  end.

Definition is_input (e : startup_event) : bool :=
  match e with
  | Core (EvInput _) => true
  | _ => false
  end.

Definition is_command (e : startup_event) : bool :=
  match e with
  | Core (EvRun _) => true
  | _ => false
  end.

(** No white space in [s]. *)
Fixpoint is_word (s : string) : bool :=
  match s with
  | EmptyString => true
  | String c r => (negb (Py.isspace c) && is_word r)%bool
  end.

(** A stand-in for the printing system: what [lpstat -p] and [lpstat -d]
    answer. *)
Definition lpstat_answers (p d : result string) : printing_system :=
  {| check_output := fun cmd =>
       if decide (cmd = ["lpstat"; "-p"]) then p else d |}.


(** The line to type at the duplex prompt to get [d]. *)
Definition duplex_line (d : option string) : string :=
  match d with
  | None => ""
  | Some mode =>
      if String.eqb mode "one-sided" then "1"
      else if String.eqb mode "two-sided-long-edge" then "2"
      else "3"
  end.

(** The five lines to type to get the options [o]. *)
Definition lines_for_options (o : options) : list string :=
  [pages o;
   Py.str (copies o);
   duplex_line (duplex o);
   if fit o then "y" else "";
   match media o with
   | Some m => m
   | None => ""
   end].

(** [name] is due in a scan that starts with the records [h]: a regular PDF
    file whose modification time can be read and is not covered by its
    record. *)
Definition due (w : world) (folder : string) (h : gmap string Z)
    (name : string) : bool :=
  (isfile w (Py.path_join folder name) &&
   is_pdf_value w (Py.path_join folder name) &&
   match getmtime w (Py.path_join folder name) with
   | Ok m => should_print h (Py.path_join folder name) m
   | Raise _ => false
   end)%bool.

(** * Properties *)

(** ** Bytes and strings *)

Lemma bytes_eqb_eq (a b : list byte) : bytes_eqb a b = true <-> a = b.
Proof.
  revert b; induction a as [|x a IH]; intros [|y b]; simpl; split;
    try congruence; try discriminate; auto.
  - intros [Hxy Hab]%andb_true_iff.
    apply Byte.byte_dec_bl in Hxy. apply IH in Hab. congruence.
  - intros [= -> ->]. apply andb_true_iff; split.
    + now apply Byte.byte_dec_lb.
    + now apply IH.
Qed.

Lemma bytes_eqb_neq (a b : list byte) : bytes_eqb a b = false <-> a <> b.
Proof.
  rewrite <- bytes_eqb_eq. destruct (bytes_eqb a b); split; congruence.
Qed.

(** [endswith] is the suffix test. *)
Lemma substring_0_all (s : string) : String.substring 0 (String.length s) s = s.
Proof. induction s as [|c s IH]; simpl; [reflexivity | now rewrite IH]. Qed.

Lemma substring_skip (pre s : string) (n : nat) :
  String.substring (String.length pre) n (String.append pre s)
  = String.substring 0 n s.
Proof. induction pre as [|c pre IH]; simpl; [reflexivity | apply IH]. Qed.

Lemma length_append (a b : string) :
  String.length (String.append a b) = (String.length a + String.length b)%nat.
Proof. induction a as [|c a IH]; simpl; [reflexivity | now rewrite IH]. Qed.

Lemma substring_split (s : string) (n : nat) :
  (n <= String.length s)%nat ->
  s = String.append (String.substring 0 n s)
        (String.substring n (String.length s - n) s).
Proof.
  revert n; induction s as [|c s IH]; intros [|n] Hn; simpl in *;
    try reflexivity; try lia.
  - now rewrite substring_0_all.
  - rewrite (IH n) at 1 by lia. reflexivity.
Qed.

Lemma endswith_spec (s suf : string) :
  Py.endswith s suf = true <-> exists pre, s = String.append pre suf.
Proof.
  unfold Py.endswith. rewrite andb_true_iff, Nat.leb_le, String.eqb_eq. split.
  - intros [Hlen Hsub].
    exists (String.substring 0 (String.length s - String.length suf) s).
    pose proof (substring_split s (String.length s - String.length suf)) as H.
    replace (String.length s - (String.length s - String.length suf))%nat
      with (String.length suf) in H by lia.
    rewrite Hsub in H. apply H. lia.
  - intros [pre ->]. rewrite length_append. split; [lia|].
    replace (String.length pre + String.length suf - String.length suf)%nat
      with (String.length pre) by lia.
    rewrite substring_skip. apply substring_0_all.
Qed.

(** ** The PDF sniffer *)

Lemma is_pdf_run {S} (w : world) (path : string) (s : S) :
  is_pdf w path s = (s, is_pdf_trace path, Ok (is_pdf_value w path)).
Proof.
  unfold is_pdf, is_pdf_trace, is_pdf_value.
  destruct (Py.endswith (Py.lower path) ".pdf"); simpl; [|reflexivity].
  unfold try_except, bind, open_read, bind, emit, lift, ret.
  destruct (read_bytes w path); reflexivity.
Qed.

(** C5. For a path ending in [.pdf] (any case), [is_pdf] answers true when
    the first five bytes of the file are [%PDF-], false when they differ,
    when the file is empty and when it cannot be read; it never raises, and
    it leaves the state alone. *)
Theorem is_pdf_sniffs_magic {S} (w : world) (path : string) (s : S) :
  Py.endswith (Py.lower path) ".pdf" = true ->
  (forall bs, read_bytes w path = Ok bs -> take 5 bs = PDF_MAGIC ->
     result_of (is_pdf w path s) = Ok true) /\
  (forall bs, read_bytes w path = Ok bs -> take 5 bs <> PDF_MAGIC ->
     result_of (is_pdf w path s) = Ok false) /\
  (read_bytes w path = Ok [] -> result_of (is_pdf w path s) = Ok false) /\
  (forall e, read_bytes w path = Raise e ->
     result_of (is_pdf w path s) = Ok false) /\
  (forall e, result_of (is_pdf w path s) <> Raise e) /\
  state_of (is_pdf w path s) = s.
Proof.
  intros Hext. rewrite is_pdf_run. unfold result_of, state_of, is_pdf_value.
  rewrite Hext. simpl. repeat split.
  - intros bs -> Hm. f_equal. now apply bytes_eqb_eq.
  - intros bs -> Hm. f_equal. now apply bytes_eqb_neq.
  - intros ->. reflexivity.
  - intros e ->. reflexivity.
  - intros e. destruct (read_bytes w path); discriminate.
Qed.

Lemma is_pdf_sniffs_magic_witness :
  result_of (is_pdf (pdf_world [x25; x50; x44; x46; x2d; x31; x2e; x34])
               "/w/Report.PDF" (∅ : gmap string Z)) = Ok true.
Proof.
  refine (proj1 (is_pdf_sniffs_magic
                   (pdf_world [x25; x50; x44; x46; x2d; x31; x2e; x34])
                   "/w/Report.PDF" ∅ _) _ _ _);
    reflexivity.
Defined.

(** ** The command line *)


(** The scenario of the specification: all five options set. *)
Example print_pdf_cmd_all_options :
  print_pdf_cmd "/w/a.pdf" "Office"
    (Options "1-2" 3 (Some "two-sided-long-edge") true (Some "A4")) =
  ["lp"; "-d"; "Office"; "-n"; "3"; "-P"; "1-2";
   "-o"; "sides=two-sided-long-edge"; "-o"; "fit-to-page";
   "-o"; "media=A4"; "/w/a.pdf"].
Proof. reflexivity. Qed.

Example print_pdf_cmd_defaults :
  print_pdf_cmd "/w/a.pdf" "Office" (Options "" 1 None false None) =
  ["lp"; "-d"; "Office"; "/w/a.pdf"].
Proof. reflexivity. Qed.

(** ** The watch loop: how one entry is processed *)

Lemma should_print_spec (h : gmap string Z) (path : string) (mtime : Z) :
  should_print h path mtime = true <->
  h !! path = None \/ exists stored, h !! path = Some stored /\ stored < mtime.
Proof.
  unfold should_print. destruct (h !! path) as [t|]; split.
  - intros Hlt%Z.ltb_lt. right. eauto.
  - intros [?|(t' & [= <-] & Hlt)]; [discriminate|]. now apply Z.ltb_lt.
  - auto.
  - auto.
Qed.

Lemma submissions_app (path : string) (t1 t2 : list event) :
  submissions path (t1 ++ t2) = (submissions path t1 + submissions path t2)%nat.
Proof. induction t1 as [|e t1 IH]; simpl; [reflexivity | rewrite IH; lia]. Qed.

Lemma print_pdf_cmd_last (path printer : string) (o : options) :
  last (print_pdf_cmd path printer o) = Some path.
Proof. unfold print_pdf_cmd. apply last_snoc. Qed.

Lemma is_submission_cmd (p path printer : string) (o : options) :
  is_submission p (EvRun (print_pdf_cmd path printer o)) = bool_decide (path = p).
Proof.
  simpl. rewrite print_pdf_cmd_last.
  apply bool_decide_ext. split; congruence.
Qed.

Lemma print_pdf_argv_ok (path printer : string) (o : options)
    (cmd : list string) :
  print_pdf_argv path printer o = Ok cmd -> cmd = print_pdf_cmd path printer o.
Proof.
  unfold print_pdf_argv.
  destruct (negb (copies o =? 0) && negb (copies o =? 1))%bool;
    [destruct (Py.str_result (copies o))|]; congruence.
Qed.

(** [print_pdf], case by case: it raises before the [try], or it runs [lp]
    and returns. *)
Lemma print_pdf_run {S} (w : world) (path printer : string) (o : options) (s : S) :
  print_pdf w path printer o s =
    match pre_try w path printer o with
    | Raise e => (s, [], Raise e)
    | Ok _ =>
        (s,
         [EvLog INFO (MsgPrinting (print_pdf_cmd path printer o));
          EvRun (print_pdf_cmd path printer o)]
           ++ print_pdf_errors (run w (print_pdf_cmd path printer o)),
         Ok (succeeded (run w (print_pdf_cmd path printer o))))
    end.
Proof.
  unfold print_pdf, pre_try, bind, lift, log, err, emit, ret.
  destruct (print_pdf_argv path printer o) as [cmd|e] eqn:Hcmd; [|reflexivity].
  apply print_pdf_argv_ok in Hcmd. subst cmd.
  destruct (log_printing w (print_pdf_cmd path printer o)) as [[]|e];
    [|reflexivity].
  destruct (run w (print_pdf_cmd path printer o)); reflexivity.
Qed.

(** [scan_entry], case by case. *)
Lemma scan_entry_run (w : world) (folder printer : string) (o : options)
    (name : string) (h : gmap string Z) :
  scan_entry w folder printer o name h =
    let path := Py.path_join folder name in
    if negb (isfile w path) then (h, [], Ok tt)
    else if negb (is_pdf_value w path) then (h, is_pdf_trace path, Ok tt)
    else
      match getmtime w path with
      | Raise e => (h, [EvOpen path], Raise e)
      | Ok mtime =>
          if should_print h path mtime then
            match pre_try w path printer o with
            | Raise e => (h, [EvOpen path], Raise e)
            | Ok _ =>
                (if succeeded (run w (print_pdf_cmd path printer o))
                 then <[path := mtime]> h else h,
                 submit_trace w path printer o, Ok tt)
            end
          else (h, [EvOpen path], Ok tt)
      end.
Proof.
  unfold scan_entry. cbv zeta.
  destruct (isfile w (Py.path_join folder name)); simpl; [|reflexivity].
  unfold bind at 1. rewrite is_pdf_run.
  unfold is_pdf_value, is_pdf_trace.
  destruct (Py.endswith (Py.lower (Py.path_join folder name)) ".pdf");
    simpl; [|reflexivity].
  destruct (read_bytes w (Py.path_join folder name)) as [bs|e];
    simpl; [|reflexivity].
  destruct (bytes_eqb (take 5 bs) PDF_MAGIC); simpl; [|reflexivity].
  unfold bind, lift, get_state, should_print, submit_trace.
  destruct (getmtime w (Py.path_join folder name)) as [m|e]; [|reflexivity].
  destruct (h !! Py.path_join folder name) as [t|].
  - destruct (t <? m); [|reflexivity].
    rewrite print_pdf_run.
    destruct (pre_try w (Py.path_join folder name) printer o); [|reflexivity].
    destruct (run w (print_pdf_cmd (Py.path_join folder name) printer o));
      reflexivity.
  - rewrite print_pdf_run.
    destruct (pre_try w (Py.path_join folder name) printer o); [|reflexivity].
    destruct (run w (print_pdf_cmd (Py.path_join folder name) printer o));
      reflexivity.
Qed.

Lemma for_each_cons {S A} (x : A) (xs : list A) (body : A -> M S unit) (s : S) :
  for_each (x :: xs) body s =
    match body x s with
    | (s1, t1, Ok _) =>
        match for_each xs body s1 with
        | (s2, t2, r) => (s2, t1 ++ t2, r)
        end
    | (s1, t1, Raise e) => (s1, t1, Raise e)
    end.
Proof. reflexivity. Qed.


(** [cycle], case by case: a listing that raises, a scan that completes,
    a scan that raises. *)
Lemma cycle_run (w : world) (folder printer : string) (o : options)
    (h : gmap string Z) :
  cycle w folder printer o h =
    match listdir w folder with
    | Raise e => (h, [EvLog WARNING (MsgScanError e); EvSleep 5], Ok tt)
    | Ok names =>
        match for_each names (scan_entry w folder printer o) h with
        | (h1, t1, Ok _) => (h1, t1 ++ [EvSleep 5], Ok tt)
        | (h1, t1, Raise e) =>
            (h1, t1 ++ [EvLog WARNING (MsgScanError e); EvSleep 5], Ok tt)
        end
    end.
Proof.
  unfold cycle, try_except, bind, lift, warn, sleep, emit.
  destruct (listdir w folder) as [names|e]; [|reflexivity].
  destruct (for_each names (scan_entry w folder printer o) h)
    as [[h1 t1] [[]|e]]; reflexivity.
Qed.

(** ** Invariants of a scan *)

Section Scan.

Variables (folder printer : string) (o : options).

Local Abbreviation path_of name := (Py.path_join folder name).

(** An entry either leaves [printed_files] alone or records a time for one
    path that had none or a smaller one. *)
Lemma scan_entry_update (w : world) (name : string) (h : gmap string Z) :
  state_of (scan_entry w folder printer o name h) = h \/
  exists mtime,
    state_of (scan_entry w folder printer o name h)
      = <[path_of name := mtime]> h /\
    getmtime w (path_of name) = Ok mtime /\
    run w (print_pdf_cmd (path_of name) printer o) = Exit0 /\
    (h !! path_of name = None \/
     exists stored, h !! path_of name = Some stored /\ stored < mtime).
Proof.
  rewrite scan_entry_run. cbv zeta.
  destruct (isfile w (path_of name)); simpl; auto.
  destruct (is_pdf_value w (path_of name)); simpl; auto.
  destruct (getmtime w (path_of name)) as [m|e]; simpl; auto.
  destruct (should_print h (path_of name) m) eqn:Hsp; simpl; auto.
  destruct (pre_try w (path_of name) printer o); simpl; auto.
  destruct (run w (print_pdf_cmd (path_of name) printer o)) eqn:Hrun;
    simpl; auto.
  right. exists m. repeat split. now apply should_print_spec.
Qed.

Lemma scan_entry_mono (w : world) (name : string) (h : gmap string Z)
    (p : string) (t : Z) :
  h !! p = Some t ->
  exists t', state_of (scan_entry w folder printer o name h) !! p = Some t'
             /\ t <= t'.
Proof.
  intros Hp.
  destruct (scan_entry_update w name h) as [->|(m & -> & _ & _ & Hold)].
  - exists t. split; [assumption | lia].
  - destruct (decide (path_of name = p)) as [<-|Hne].
    + rewrite lookup_insert_eq. exists m. split; [reflexivity|].
      destruct Hold as [Hnone|(s & Hs & Hlt)]; [congruence|].
      assert (s = t) by congruence. lia.
    + rewrite lookup_insert_ne by assumption. exists t. split; [assumption|lia].
Qed.

Lemma submissions_submit_trace (w : world) (p path : string) :
  submissions p (submit_trace w path printer o) =
    if bool_decide (path = p) then 1%nat else 0%nat.
Proof.
  unfold submit_trace. rewrite submissions_app.
  cbn [submissions app]. rewrite is_submission_cmd. simpl.
  destruct (run w (print_pdf_cmd path printer o)); simpl;
    destruct (bool_decide (path = p)); reflexivity.
Qed.

Lemma submissions_is_pdf_trace (p path : string) :
  submissions p (is_pdf_trace path) = 0%nat.
Proof. unfold is_pdf_trace. destruct (Py.endswith _ _); reflexivity. Qed.

(** An entry with another path neither submits [p] nor touches its
    record. *)
Lemma scan_entry_other (w : world) (name : string) (h : gmap string Z)
    (p : string) :
  path_of name <> p ->
  submissions p (trace_of (scan_entry w folder printer o name h)) = 0%nat /\
  state_of (scan_entry w folder printer o name h) !! p = h !! p.
Proof.
  intros Hne. rewrite scan_entry_run. cbv zeta.
  destruct (isfile w (path_of name)); simpl; auto.
  destruct (is_pdf_value w (path_of name)); simpl;
    [|split; [apply submissions_is_pdf_trace | reflexivity]].
  destruct (getmtime w (path_of name)) as [m|e]; simpl; auto.
  destruct (should_print h (path_of name) m); [|simpl; auto].
  destruct (pre_try w (path_of name) printer o); [|simpl; auto].
  unfold trace_of, state_of; cbn [fst snd]. split.
  - rewrite submissions_submit_trace. now rewrite bool_decide_eq_false_2.
  - destruct (succeeded _); [now rewrite lookup_insert_ne | reflexivity].
Qed.

(** Seen from a path [p], an entry either does not submit [p] and keeps its
    record, or it is the entry of [p], submits it once, and records the time
    seen when [lp] succeeds. *)
Lemma scan_entry_cases (w : world) (name : string) (h : gmap string Z)
    (p : string) :
  (submissions p (trace_of (scan_entry w folder printer o name h)) = 0%nat /\
   state_of (scan_entry w folder printer o name h) !! p = h !! p /\
   (path_of name = p -> isfile w p = true -> is_pdf_value w p = true ->
    forall m, getmtime w p = Ok m ->
      should_print h p m = false \/ print_raises w printer o p = true)) \/
  (submissions p (trace_of (scan_entry w folder printer o name h)) = 1%nat /\
   path_of name = p /\
   result_of (scan_entry w folder printer o name h) = Ok tt /\
   exists m, getmtime w p = Ok m /\ should_print h p m = true /\
     state_of (scan_entry w folder printer o name h) =
       (if succeeded (run w (print_pdf_cmd p printer o))
        then <[p := m]> h else h)).
Proof.
  destruct (decide (path_of name = p)) as [Heq|Hne].
  2: { left. destruct (scan_entry_other w name h p Hne) as [H1 H2].
       repeat split; [assumption | assumption | congruence]. }
  rewrite scan_entry_run. cbv zeta. rewrite Heq.
  unfold trace_of, state_of, result_of.
  destruct (isfile w p); cbn [negb fst snd];
    [|left; repeat split; intros; discriminate].
  destruct (is_pdf_value w p); cbn [negb fst snd].
  2: { left. rewrite submissions_is_pdf_trace.
       repeat split; intros; discriminate. }
  destruct (getmtime w p) as [m|e]; cbn [fst snd].
  2: { left. repeat split; intros; discriminate. }
  destruct (should_print h p m) eqn:Hsp; cbn [fst snd].
  - unfold print_raises.
    destruct (pre_try w p printer o) as [[]|e]; cbn [fst snd].
    + right.
      rewrite submissions_submit_trace, bool_decide_eq_true_2 by reflexivity.
      repeat split. exists m. auto.
    + left. repeat split. intros _ _ _ m' _. now right.
  - left. repeat split. intros _ _ _ m' [= <-]. now left.
Qed.

(** A path whose record is not older than the time [stat] reports is not
    submitted, and its record stays. *)
Lemma scan_entry_stale (w : world) (name : string) (h : gmap string Z)
    (p : string) (t : Z) :
  h !! p = Some t ->
  (forall m, getmtime w p = Ok m -> m <= t) ->
  submissions p (trace_of (scan_entry w folder printer o name h)) = 0%nat /\
  state_of (scan_entry w folder printer o name h) !! p = Some t.
Proof.
  intros Hp Hm.
  destruct (scan_entry_cases w name h p)
    as [(H0 & Hk & _)|(_ & _ & _ & m & Hg & Hsp & _)].
  - split; [assumption | congruence].
  - exfalso. specialize (Hm m Hg). unfold should_print in Hsp.
    rewrite Hp in Hsp. apply Z.ltb_lt in Hsp. lia.
Qed.

(** While [lp] fails for [p], its record stays as it is. *)
Lemma scan_entry_failed (w : world) (name : string) (h : gmap string Z)
    (p : string) :
  succeeded (run w (print_pdf_cmd p printer o)) = false ->
  state_of (scan_entry w folder printer o name h) !! p = h !! p.
Proof.
  intros Hf.
  destruct (scan_entry_cases w name h p)
    as [(_ & Hk & _)|(_ & _ & _ & m & _ & _ & ->)];
    [assumption | now rewrite Hf].
Qed.

Lemma scan_mono (w : world) (names : list string) (h : gmap string Z)
    (p : string) (t : Z) :
  h !! p = Some t ->
  exists t',
    state_of (for_each names (scan_entry w folder printer o) h) !! p = Some t'
    /\ t <= t'.
Proof.
  revert h t; induction names as [|name names IH]; intros h t Hp.
  - exists t. split; [assumption | lia].
  - rewrite for_each_cons.
    destruct (scan_entry_mono w name h p t Hp) as (t1 & H1 & Hle1).
    destruct (scan_entry w folder printer o name h) as [[h1 tr1] [[]|e]];
      unfold state_of in H1; simpl in H1.
    + destruct (IH h1 t1 H1) as (t2 & H2 & Hle2).
      destruct (for_each names _ h1) as [[h2 tr2] r].
      exists t2. split; [exact H2 | lia].
    + exists t1. split; [exact H1 | lia].
Qed.

Lemma scan_other (w : world) (names : list string) (h : gmap string Z)
    (p : string) :
  p ∉ map (Py.path_join folder) names ->
  submissions p (trace_of (for_each names (scan_entry w folder printer o) h))
    = 0%nat /\
  state_of (for_each names (scan_entry w folder printer o) h) !! p = h !! p.
Proof.
  revert h; induction names as [|name names IH]; intros h Hnot.
  - split; reflexivity.
  - rewrite for_each_cons.
    simpl in Hnot. apply not_elem_of_cons in Hnot as [Hne Hnot].
    destruct (scan_entry_other w name h p (not_eq_sym Hne)) as [H1 H2].
    destruct (scan_entry w folder printer o name h) as [[h1 tr1] [[]|e]];
      unfold state_of, trace_of in *; simpl in *; [|auto].
    destruct (IH h1 Hnot) as [H3 H4].
    destruct (for_each names _ h1) as [[h2 tr2] r]; simpl in *.
    rewrite submissions_app, H1, H3, H4, H2. auto.
Qed.

Lemma scan_stale (w : world) (names : list string) (h : gmap string Z)
    (p : string) (t : Z) :
  h !! p = Some t ->
  (forall m, getmtime w p = Ok m -> m <= t) ->
  submissions p (trace_of (for_each names (scan_entry w folder printer o) h))
    = 0%nat /\
  state_of (for_each names (scan_entry w folder printer o) h) !! p = Some t.
Proof.
  revert h; induction names as [|name names IH]; intros h Hp Hm.
  - auto.
  - rewrite for_each_cons.
    destruct (scan_entry_stale w name h p t Hp Hm) as [H1 Ht1].
    destruct (scan_entry w folder printer o name h) as [[h1 tr1] [[]|e]];
      unfold state_of, trace_of in *; cbn [fst snd] in *; [|auto].
    destruct (IH h1 Ht1 Hm) as [H2 Ht2].
    destruct (for_each names _ h1) as [[h2 tr2] r]; cbn [fst snd] in *.
    rewrite submissions_app, H1, H2. auto.
Qed.

Lemma scan_failed (w : world) (names : list string) (h : gmap string Z)
    (p : string) :
  succeeded (run w (print_pdf_cmd p printer o)) = false ->
  state_of (for_each names (scan_entry w folder printer o) h) !! p = h !! p.
Proof.
  intros Hf. revert h; induction names as [|name names IH]; intros h.
  - reflexivity.
  - rewrite for_each_cons.
    pose proof (scan_entry_failed w name h p Hf) as H1.
    destruct (scan_entry w folder printer o name h) as [[h1 tr1] [[]|e]];
      unfold state_of in *; cbn [fst snd] in *; [|assumption].
    specialize (IH h1).
    destruct (for_each names _ h1) as [[h2 tr2] r]; cbn [fst snd] in *.
    congruence.
Qed.

Lemma should_print_ext (h h' : gmap string Z) (p : string) (m : Z) :
  h' !! p = h !! p -> should_print h' p m = should_print h p m.
Proof. unfold should_print. now intros ->. Qed.

(** An entry whose [stat] does not raise, and for which [print_pdf] would
    not raise, does not raise. *)
Lemma scan_entry_ok (w : world) (name : string) (h : gmap string Z) :
  stat_fails w (path_of name) = false /\
  print_raises w printer o (path_of name) = false ->
  result_of (scan_entry w folder printer o name h) = Ok tt.
Proof.
  unfold stat_fails, print_raises. intros [Hstat Hprint]. revert Hstat.
  rewrite scan_entry_run. cbv zeta.
  destruct (isfile w (path_of name)); simpl; auto.
  destruct (is_pdf_value w (path_of name)); simpl; auto.
  destruct (getmtime w (path_of name)) as [m|e]; simpl; [|discriminate].
  destruct (should_print h (path_of name) m); [|reflexivity].
  destruct (pre_try w (path_of name) printer o); [reflexivity|discriminate].
Qed.


(** A scan that submits [p] found it in need of printing when the scan
    began; a successful submission leaves a record at least as recent as
    the time seen. *)
Lemma scan_submitted (w : world) (names : list string) (h : gmap string Z)
    (p : string) (m : Z) :
  getmtime w p = Ok m ->
  (0 < submissions p
         (trace_of (for_each names (scan_entry w folder printer o) h)))%nat ->
  should_print h p m = true /\
  (succeeded (run w (print_pdf_cmd p printer o)) = true ->
   exists t,
     state_of (for_each names (scan_entry w folder printer o) h) !! p = Some t
     /\ m <= t).
Proof.
  intros Hg. revert h; induction names as [|name names IH]; intros h.
  - simpl. lia.
  - rewrite for_each_cons. intros Hsub.
    destruct (scan_entry_cases w name h p)
      as [(H0 & Hk & _)|(_ & _ & Hr & m' & Hg' & Hsp & Hst)].
    + destruct (scan_entry w folder printer o name h) as [[h1 tr1] [[]|e]];
        unfold state_of, trace_of in *; cbn [fst snd] in *; [|lia].
      specialize (IH h1).
      destruct (for_each names _ h1) as [[h2 tr2] r]; cbn [fst snd] in *.
      rewrite submissions_app, H0 in Hsub.
      destruct (IH Hsub) as [Hsp Hrec].
      split; [|assumption].
      now rewrite <- (should_print_ext h h1 p m Hk).
    + assert (m' = m) by congruence. subst m'.
      split; [assumption|]. intros Hok. rewrite Hok in Hst.
      pose proof (scan_mono w names (<[p := m]> h) p m
                    (lookup_insert_eq h p m)) as (t & Ht & Hle).
      destruct (scan_entry w folder printer o name h) as [[h1 tr1] r1];
        unfold state_of, result_of in *; cbn [fst snd] in *. subst h1 r1.
      destruct (for_each names _ (<[p := m]> h)) as [[h2 tr2] r];
        cbn [fst snd] in *.
      eauto.
Qed.

(** A scan that reaches the entry of [p] while [p] needs printing submits
    it; when [lp] succeeds it does so once and records the time seen. *)
Lemma scan_head_submits (w : world) (name : string) (rest : list string)
    (h : gmap string Z) (m : Z) :
  isfile w (path_of name) = true ->
  is_pdf_value w (path_of name) = true ->
  getmtime w (path_of name) = Ok m ->
  print_raises w printer o (path_of name) = false ->
  should_print h (path_of name) m = true ->
  (1 <= submissions (path_of name)
          (trace_of (for_each (name :: rest)
                       (scan_entry w folder printer o) h)))%nat /\
  (succeeded (run w (print_pdf_cmd (path_of name) printer o)) = true ->
   submissions (path_of name)
     (trace_of (for_each (name :: rest) (scan_entry w folder printer o) h))
     = 1%nat /\
   state_of (for_each (name :: rest) (scan_entry w folder printer o) h)
     !! path_of name = Some m).
Proof.
  intros Hf Hp Hg Hpr Hsp. rewrite for_each_cons.
  destruct (scan_entry_cases w name h (path_of name))
    as [(_ & _ & Hno)|(H1 & _ & Hr & m' & Hg' & _ & Hst)].
  { destruct (Hno eq_refl Hf Hp m Hg); congruence. }
  assert (m' = m) by congruence. subst m'.
  destruct (scan_entry w folder printer o name h) as [[h1 tr1] r1];
    unfold state_of, trace_of, result_of in *; cbn [fst snd] in *. subst r1.
  destruct (succeeded (run w (print_pdf_cmd (path_of name) printer o))).
  - subst h1.
    assert (Hle : forall m0, getmtime w (path_of name) = Ok m0 -> m0 <= m).
    { intros m0 Hm0. assert (m0 = m) by congruence. lia. }
    destruct (scan_stale w rest (<[path_of name := m]> h) (path_of name) m
                (lookup_insert_eq h _ m) Hle) as [H0 Hrec].
    destruct (for_each rest _ (<[path_of name := m]> h)) as [[h2 tr2] r];
      unfold state_of, trace_of in *; cbn [fst snd] in *.
    rewrite submissions_app, H1, H0. split; [lia|]. auto.
  - destruct (for_each rest _ h1) as [[h2 tr2] r]; cbn [fst snd].
    rewrite submissions_app, H1. split; [lia | discriminate].
Qed.

Lemma scan_reaches (w : world) (pre : list string) (name : string)
    (post : list string) (h : gmap string Z) (m : Z) :
  Forall (fun n => stat_fails w (path_of n) = false /\
                   print_raises w printer o (path_of n) = false) pre ->
  isfile w (path_of name) = true ->
  is_pdf_value w (path_of name) = true ->
  getmtime w (path_of name) = Ok m ->
  print_raises w printer o (path_of name) = false ->
  should_print h (path_of name) m = true ->
  (1 <= submissions (path_of name)
          (trace_of (for_each (pre ++ name :: post)
                       (scan_entry w folder printer o) h)))%nat /\
  (succeeded (run w (print_pdf_cmd (path_of name) printer o)) = true ->
   submissions (path_of name)
     (trace_of (for_each (pre ++ name :: post)
                  (scan_entry w folder printer o) h)) = 1%nat /\
   state_of (for_each (pre ++ name :: post) (scan_entry w folder printer o) h)
     !! path_of name = Some m).
Proof.
  intros Hpre Hf Hp Hg Hpr. revert h.
  induction pre as [|n pre IH]; intros h Hsp.
  - now apply scan_head_submits.
  - apply Forall_cons in Hpre as [Hn Hpre].
    destruct (decide (path_of n = path_of name)) as [Heq|Hne].
    + rewrite <- app_comm_cons.
      pose proof (scan_head_submits w n (pre ++ name :: post) h m) as Hhead.
      rewrite Heq in Hhead. now apply Hhead.
    + rewrite <- app_comm_cons, for_each_cons.
      destruct (scan_entry_other w n h (path_of name) Hne) as [H0 Hk].
      pose proof (scan_entry_ok w n h Hn) as Hr.
      destruct (scan_entry w folder printer o n h) as [[h1 tr1] r1];
        unfold state_of, trace_of, result_of in *; cbn [fst snd] in *.
      subst r1.
      rewrite <- (should_print_ext h h1 _ m Hk) in Hsp.
      destruct (IH Hpre h1 Hsp) as [Hge Hone].
      destruct (for_each (pre ++ name :: post) _ h1) as [[h2 tr2] r];
        cbn [fst snd] in *.
      rewrite submissions_app, H0. simpl. auto.
Qed.

End Scan.

(** ** From one scan to the loop *)

Section Loop.

Variables (folder printer : string) (o : options).

Local Abbreviation path_of name := (Py.path_join folder name).
Local Abbreviation scan w names := (for_each names (scan_entry w folder printer o)).

Lemma submissions_cycle_tail (p : string) (t : list event) (tail : list event) :
  (forall e, e ∈ tail -> is_submission p e = false) ->
  submissions p (t ++ tail) = submissions p t.
Proof.
  intros Htail. rewrite submissions_app.
  assert (submissions p tail = 0%nat) as ->; [|lia].
  induction tail as [|e tail IH]; [reflexivity|].
  simpl. rewrite (Htail e) by apply list_elem_of_here.
  apply IH. intros e' He'. apply Htail. now apply list_elem_of_further.
Qed.

(** A cycle whose listing succeeds has the records and the submissions of
    its scan. *)
Lemma cycle_of_scan (w : world) (names : list string) (h : gmap string Z) :
  listdir w folder = Ok names ->
  state_of (cycle w folder printer o h) = state_of (scan w names h) /\
  forall p, submissions p (trace_of (cycle w folder printer o h))
            = submissions p (trace_of (scan w names h)).
Proof.
  intros Hl. rewrite cycle_run, Hl.
  destruct (scan w names h) as [[h1 t1] [[]|e]];
    unfold state_of, trace_of; cbn [fst snd]; split; try reflexivity;
    intros p; apply submissions_cycle_tail;
    intros ev Hev; repeat (apply elem_of_cons in Hev as [->|Hev]);
    try reflexivity; now apply elem_of_nil in Hev.
Qed.

(** A cycle never raises. *)
Lemma cycle_result (w : world) (h : gmap string Z) :
  result_of (cycle w folder printer o h) = Ok tt.
Proof.
  rewrite cycle_run. destruct (listdir w folder) as [names|e]; [|reflexivity].
  destruct (scan w names h) as [[h1 t1] [[]|e]]; reflexivity.
Qed.

Lemma cycle_mono (w : world) (h : gmap string Z) (p : string) (t : Z) :
  h !! p = Some t ->
  exists t', state_of (cycle w folder printer o h) !! p = Some t' /\ t <= t'.
Proof.
  intros Hp. destruct (listdir w folder) as [names|e] eqn:Hl.
  - destruct (cycle_of_scan w names h Hl) as [-> _]. now apply scan_mono.
  - rewrite cycle_run, Hl. exists t. split; [assumption | lia].
Qed.

Lemma cycle_stale (w : world) (h : gmap string Z) (p : string) (t : Z) :
  h !! p = Some t ->
  (forall m, getmtime w p = Ok m -> m <= t) ->
  submissions p (trace_of (cycle w folder printer o h)) = 0%nat /\
  state_of (cycle w folder printer o h) !! p = Some t.
Proof.
  intros Hp Hm. destruct (listdir w folder) as [names|e] eqn:Hl.
  - destruct (cycle_of_scan w names h Hl) as [-> ->]. now apply scan_stale.
  - rewrite cycle_run, Hl. auto.
Qed.

Lemma cycle_failed (w : world) (h : gmap string Z) (p : string) :
  succeeded (run w (print_pdf_cmd p printer o)) = false ->
  state_of (cycle w folder printer o h) !! p = h !! p.
Proof.
  intros Hf. destruct (listdir w folder) as [names|e] eqn:Hl.
  - destruct (cycle_of_scan w names h Hl) as [-> _]. now apply scan_failed.
  - rewrite cycle_run, Hl. reflexivity.
Qed.

Lemma cycle_submitted (w : world) (h : gmap string Z) (p : string) (m : Z) :
  getmtime w p = Ok m ->
  (0 < submissions p (trace_of (cycle w folder printer o h)))%nat ->
  should_print h p m = true /\
  (succeeded (run w (print_pdf_cmd p printer o)) = true ->
   exists t, state_of (cycle w folder printer o h) !! p = Some t /\ m <= t).
Proof.
  intros Hg. destruct (listdir w folder) as [names|e] eqn:Hl.
  - destruct (cycle_of_scan w names h Hl) as [-> ->]. now apply scan_submitted.
  - rewrite cycle_run, Hl. simpl. lia.
Qed.

Lemma cycle_reaches (w : world) (pre : list string) (name : string)
    (post : list string) (h : gmap string Z) (m : Z) :
  listdir w folder = Ok (pre ++ name :: post) ->
  Forall (fun n => stat_fails w (path_of n) = false /\
                   print_raises w printer o (path_of n) = false) pre ->
  isfile w (path_of name) = true ->
  is_pdf_value w (path_of name) = true ->
  getmtime w (path_of name) = Ok m ->
  print_raises w printer o (path_of name) = false ->
  should_print h (path_of name) m = true ->
  (1 <= submissions (path_of name)
          (trace_of (cycle w folder printer o h)))%nat /\
  (succeeded (run w (print_pdf_cmd (path_of name) printer o)) = true ->
   submissions (path_of name) (trace_of (cycle w folder printer o h)) = 1%nat /\
   state_of (cycle w folder printer o h) !! path_of name = Some m).
Proof.
  intros Hl Hpre Hf Hp Hg Hpr Hsp.
  destruct (cycle_of_scan w _ h Hl) as [-> ->].
  now apply scan_reaches.
Qed.

Lemma watch_loop_cons (w : world) (ws : list world) (h : gmap string Z) :
  watch_loop (w :: ws) folder printer o h =
    (state_of (watch_loop ws folder printer o
                 (state_of (cycle w folder printer o h))),
     trace_of (cycle w folder printer o h) ++
       trace_of (watch_loop ws folder printer o
                   (state_of (cycle w folder printer o h))),
     result_of (watch_loop ws folder printer o
                  (state_of (cycle w folder printer o h)))).
Proof.
  simpl. unfold bind. pose proof (cycle_result w h) as Hr.
  destruct (cycle w folder printer o h) as [[h1 t1] r1];
    unfold result_of, state_of, trace_of in *; cbn [fst snd] in *. subst r1.
  destruct (watch_loop ws folder printer o h1) as [[h2 t2] r2]. reflexivity.
Qed.

(** The loop never raises. *)
Lemma watch_loop_result (ws : list world) (h : gmap string Z) :
  result_of (watch_loop ws folder printer o h) = Ok tt.
Proof.
  revert h; induction ws as [|w ws IH]; intros h; [reflexivity|].
  rewrite watch_loop_cons. apply IH.
Qed.

Lemma watch_loop_app (ws1 ws2 : list world) (h : gmap string Z) :
  state_of (watch_loop (ws1 ++ ws2) folder printer o h) =
    state_of (watch_loop ws2 folder printer o
                (state_of (watch_loop ws1 folder printer o h))) /\
  trace_of (watch_loop (ws1 ++ ws2) folder printer o h) =
    trace_of (watch_loop ws1 folder printer o h) ++
    trace_of (watch_loop ws2 folder printer o
                (state_of (watch_loop ws1 folder printer o h))).
Proof.
  revert h; induction ws1 as [|w ws1 IH]; intros h.
  - split; reflexivity.
  - rewrite <- app_comm_cons, !watch_loop_cons.
    destruct (IH (state_of (cycle w folder printer o h))) as [IH1 IH2].
    unfold state_of, trace_of in *; cbn [fst snd] in *.
    rewrite IH1, IH2, app_assoc. split; reflexivity.
Qed.

Lemma watch_loop_mono (ws : list world) (h : gmap string Z) (p : string) (t : Z) :
  h !! p = Some t ->
  exists t', state_of (watch_loop ws folder printer o h) !! p = Some t'
             /\ t <= t'.
Proof.
  revert h t; induction ws as [|w ws IH]; intros h t Hp.
  - exists t. split; [assumption | lia].
  - rewrite watch_loop_cons.
    change (state_of (?a, ?b, ?c)) with a.
    destruct (cycle_mono w h p t Hp) as (t1 & H1 & Hle1).
    destruct (IH _ t1 H1) as (t2 & H2 & Hle2).
    exists t2. split; [assumption | lia].
Qed.

End Loop.

(** ** The submit decision *)

Lemma is_pdf_passes {S} (w : world) (path : string) (s : S) :
  result_of (is_pdf w path s) = Ok true <-> is_pdf_value w path = true.
Proof.
  rewrite is_pdf_run. unfold result_of; cbn [snd].
  split; [now intros [= ->] | now intros ->].
Qed.

(** C1, as the code has it. In a cycle whose listing succeeds and whose scan
    is not cut short before the file (for no earlier entry does the [stat]
    raise, or would [print_pdf] raise before it runs [lp]), a regular file
    that passes the sniffer, has modification time [m], and for which
    [print_pdf] does not raise before it runs [lp], is submitted in that
    cycle if and only if its path has no record in [printed_files] or the
    recorded time is strictly less than [m]. *)
Theorem cycle_submits_iff (w : world) (folder printer : string) (o : options)
    (pre : list string) (name : string) (post : list string)
    (h : gmap string Z) (m : Z) :
  listdir w folder = Ok (pre ++ name :: post) ->
  Forall (fun n => stat_fails w (Py.path_join folder n) = false /\
                   print_raises w printer o (Py.path_join folder n) = false)
    pre ->
  isfile w (Py.path_join folder name) = true ->
  result_of (is_pdf w (Py.path_join folder name) h) = Ok true ->
  getmtime w (Py.path_join folder name) = Ok m ->
  print_raises w printer o (Py.path_join folder name) = false ->
  (0 < submissions (Py.path_join folder name)
         (trace_of (cycle w folder printer o h)))%nat <->
  (h !! Py.path_join folder name = None \/
   exists stored, h !! Py.path_join folder name = Some stored /\ stored < m).
Proof.
  intros Hl Hpre Hf Hp%is_pdf_passes Hg Hpr.
  rewrite <- should_print_spec. split.
  - intros Hsub. now apply (cycle_submitted folder printer o w h _ m Hg).
  - intros Hsp.
    destruct (cycle_reaches folder printer o w pre name post h m
                Hl Hpre Hf Hp Hg Hpr Hsp) as [Hge _].
    lia.
Qed.

Lemma cycle_submits_iff_witness :
  (0 < submissions "/w/b.pdf"
         (trace_of (cycle (two_pdfs 10 Exit0) "/w" "Office" plain
                      {["/w/b.pdf" := 7%Z]})))%nat <->
  (({["/w/b.pdf" := 7]} : gmap string Z) !! "/w/b.pdf" = None \/
   exists stored,
     ({["/w/b.pdf" := 7]} : gmap string Z) !! "/w/b.pdf" = Some stored /\
     stored < 10).
Proof.
  apply (cycle_submits_iff (two_pdfs 10 Exit0) "/w" "Office" plain
           ["a.pdf"] "b.pdf" [] {["/w/b.pdf" := 7]} 10).
  - reflexivity.
  - repeat constructor.
  - reflexivity.
  - reflexivity.
  - reflexivity.
  - reflexivity.
Defined.

(** C1 as stated fails when the scan is cut short: [b.pdf] is a regular file,
    passes the sniffer, has modification time 10 and no record, and is not
    submitted in the cycle, because the [stat] of [a.pdf] raised first. *)
Lemma cycle_cut_short_skips_file :
  listdir (a_vanishes 10 Exit0) "/w" = Ok ["a.pdf"; "b.pdf"] /\
  isfile (a_vanishes 10 Exit0) "/w/b.pdf" = true /\
  result_of (is_pdf (a_vanishes 10 Exit0) "/w/b.pdf" (∅ : gmap string Z))
    = Ok true /\
  getmtime (a_vanishes 10 Exit0) "/w/b.pdf" = Ok 10 /\
  (∅ : gmap string Z) !! "/w/b.pdf" = None /\
  submissions "/w/b.pdf"
    (trace_of (cycle (a_vanishes 10 Exit0) "/w" "Office" plain ∅)) = 0%nat.
Proof. repeat split; vm_compute; reflexivity. Qed.

(** ** Idempotence *)

Lemma printed_file_resubmission_free (folder printer : string) (o : options)
    (w1 w2 : world) (mid : list world) (h0 : gmap string Z)
    (p : string) (m : Z) :
  getmtime w1 p = Ok m ->
  getmtime w2 p = Ok m ->
  (0 < submissions p (trace_of (cycle w1 folder printer o h0)))%nat ->
  run w1 (print_pdf_cmd p printer o) = Exit0 ->
  submissions p
    (trace_of
       (cycle w2 folder printer o
          (state_of
             (watch_loop mid folder printer o
                (state_of (cycle w1 folder printer o h0))))))
  = 0%nat.
Proof.
  intros Hg1 Hg2 Hsub Hrun.
  destruct (cycle_submitted folder printer o w1 h0 p m Hg1 Hsub) as [_ Hrec].
  destruct Hrec as (t & Ht & Hle); [now rewrite Hrun|].
  destruct (watch_loop_mono folder printer o mid _ p t Ht) as (t' & Ht' & Hle').
  apply (cycle_stale folder printer o w2 _ p t' Ht').
  intros m' Hm'. assert (m' = m) by congruence. lia.
Qed.

(** C3. If a file is submitted in one cycle and [lp] succeeds, then in any
    later cycle in which the file has the same modification time it is not
    submitted again, whatever the cycles in between did. *)
Theorem printed_file_not_resubmitted (w1 w2 : world) (mid : list world)
    (folder printer : string) (o : options) (h0 : gmap string Z)
    (p : string) (m : Z) :
  getmtime w1 p = Ok m ->
  getmtime w2 p = Ok m ->
  (0 < submissions p (trace_of (cycle w1 folder printer o h0)))%nat ->
  run w1 (print_pdf_cmd p printer o) = Exit0 ->
  submissions p
    (trace_of
       (cycle w2 folder printer o
          (state_of
             (watch_loop mid folder printer o
                (state_of (cycle w1 folder printer o h0))))))
  = 0%nat.
Proof. apply printed_file_resubmission_free. Qed.

Lemma printed_file_not_resubmitted_witness :
  submissions "/w/a.pdf"
    (trace_of
       (cycle (two_pdfs 10 Exit0) "/w" "Office" plain
          (state_of
             (watch_loop [two_pdfs 10 (ExitNonzero 1)] "/w" "Office" plain
                (state_of (cycle (two_pdfs 10 Exit0) "/w" "Office" plain ∅))))))
  = 0%nat.
Proof.
  apply (printed_file_not_resubmitted (two_pdfs 10 Exit0) (two_pdfs 10 Exit0)
           [two_pdfs 10 (ExitNonzero 1)] "/w" "Office" plain ∅ "/w/a.pdf" 10).
  - reflexivity.
  - reflexivity.
  - vm_compute. lia.
  - reflexivity.
Defined.

(** ** Success, failure and retry *)

(** C2, as the code has it. When an entry is due with observed modification
    time [m] and [print_pdf] does not raise before it runs [lp], a
    successful [lp] sets [printed_files[path] = m] and a failed one leaves
    [printed_files] exactly as it was. After a cycle in which the submission
    of a file failed, the next cycle submits the file again provided its
    scan reaches the file (the listing succeeds, and for no earlier entry
    does the [stat] raise or would [print_pdf] raise before it runs [lp]),
    finds the same modification time, and [print_pdf] does not raise for the
    file before it runs [lp]. *)
Theorem failed_submission_is_retried (folder printer : string) (o : options)
    (name : string) (m : Z) :
  (forall (w : world) (h : gmap string Z),
     isfile w (Py.path_join folder name) = true ->
     result_of (is_pdf w (Py.path_join folder name) h) = Ok true ->
     getmtime w (Py.path_join folder name) = Ok m ->
     should_print h (Py.path_join folder name) m = true ->
     print_raises w printer o (Py.path_join folder name) = false ->
     (run w (print_pdf_cmd (Py.path_join folder name) printer o) = Exit0 ->
      state_of (scan_entry w folder printer o name h)
        = <[Py.path_join folder name := m]> h) /\
     (run w (print_pdf_cmd (Py.path_join folder name) printer o) <> Exit0 ->
      state_of (scan_entry w folder printer o name h) = h)) /\
  (forall (w1 w2 : world) (h0 : gmap string Z) (pre post : list string),
     getmtime w1 (Py.path_join folder name) = Ok m ->
     (0 < submissions (Py.path_join folder name)
            (trace_of (cycle w1 folder printer o h0)))%nat ->
     run w1 (print_pdf_cmd (Py.path_join folder name) printer o) <> Exit0 ->
     listdir w2 folder = Ok (pre ++ name :: post) ->
     Forall (fun n => stat_fails w2 (Py.path_join folder n) = false /\
                      print_raises w2 printer o (Py.path_join folder n) = false)
       pre ->
     isfile w2 (Py.path_join folder name) = true ->
     result_of (is_pdf w2 (Py.path_join folder name) h0) = Ok true ->
     getmtime w2 (Py.path_join folder name) = Ok m ->
     print_raises w2 printer o (Py.path_join folder name) = false ->
     (0 < submissions (Py.path_join folder name)
            (trace_of (cycle w2 folder printer o
                         (state_of (cycle w1 folder printer o h0)))))%nat).
Proof.
  split.
  - intros w h Hf Hp%is_pdf_passes Hg Hsp Hpr.
    destruct (scan_entry_cases folder printer o w name h
                (Py.path_join folder name))
      as [(_ & _ & Hno)|(_ & _ & _ & m' & Hg' & _ & ->)].
    { destruct (Hno eq_refl Hf Hp m Hg); congruence. }
    assert (m' = m) by congruence. subst m'.
    split.
    + now intros ->.
    + intros Hne.
      destruct (run w (print_pdf_cmd (Py.path_join folder name) printer o));
        [congruence | reflexivity | reflexivity].
  - intros w1 w2 h0 pre post Hg1 Hsub Hrun Hl Hpre Hf Hp%is_pdf_passes Hg2 Hpr.
    assert (Hfail : succeeded
                      (run w1 (print_pdf_cmd (Py.path_join folder name)
                                 printer o)) = false).
    { destruct (run w1 _); [congruence | reflexivity | reflexivity]. }
    destruct (cycle_submitted folder printer o w1 h0 _ m Hg1 Hsub) as [Hsp _].
    pose proof (cycle_failed folder printer o w1 h0 _ Hfail) as Hkeep.
    rewrite <- (should_print_ext _ _ _ m Hkeep) in Hsp.
    destruct (cycle_reaches folder printer o w2 pre name post _ m
                Hl Hpre Hf Hp Hg2 Hpr Hsp) as [Hge _].
    lia.
Qed.

Lemma failed_submission_is_retried_witness :
  state_of (scan_entry (two_pdfs 10 Exit0) "/w" "Office" plain "a.pdf" ∅)
    = <["/w/a.pdf" := 10]> ∅ /\
  state_of (scan_entry (two_pdfs 10 (ExitNonzero 1)) "/w" "Office" plain
              "a.pdf" ∅) = ∅ /\
  (0 < submissions "/w/a.pdf"
         (trace_of (cycle (two_pdfs 10 Exit0) "/w" "Office" plain
                      (state_of (cycle (two_pdfs 10 (ExitNonzero 1))
                                   "/w" "Office" plain ∅)))))%nat.
Proof.
  pose proof (failed_submission_is_retried "/w" "Office" plain "a.pdf" 10)
    as [Hentry Hretry].
  split; [|split].
  - apply (Hentry (two_pdfs 10 Exit0) ∅); reflexivity.
  - apply (Hentry (two_pdfs 10 (ExitNonzero 1)) ∅);
      [reflexivity | reflexivity | reflexivity | reflexivity | reflexivity
      | discriminate].
  - apply (Hretry (two_pdfs 10 (ExitNonzero 1)) (two_pdfs 10 Exit0) ∅
             [] ["b.pdf"]).
    + reflexivity.
    + vm_compute. lia.
    + discriminate.
    + reflexivity.
    + constructor.
    + reflexivity.
    + reflexivity.
    + reflexivity.
    + reflexivity.
Defined.

(** C2 as stated fails when the next cycle is cut short: the submission of
    [b.pdf] fails in the first cycle, its modification time is still 10 in
    the second, and the second cycle does not submit it, because the [stat]
    of [a.pdf] raised first. *)
Lemma retry_skipped_by_cut_short_cycle :
  submissions "/w/b.pdf"
    (trace_of (cycle (two_pdfs 10 (ExitNonzero 1)) "/w" "Office" plain ∅))
    = 1%nat /\
  getmtime (two_pdfs 10 (ExitNonzero 1)) "/w/b.pdf" = Ok 10 /\
  getmtime (a_vanishes 10 Exit0) "/w/b.pdf" = Ok 10 /\
  state_of (cycle (two_pdfs 10 (ExitNonzero 1)) "/w" "Office" plain ∅)
    !! "/w/b.pdf" = None /\
  submissions "/w/b.pdf"
    (trace_of (cycle (a_vanishes 10 Exit0) "/w" "Office" plain
                 (state_of (cycle (two_pdfs 10 (ExitNonzero 1))
                              "/w" "Office" plain ∅)))) = 0%nat.
Proof. repeat split; vm_compute; reflexivity. Qed.

(** ** Change detection *)

(** C4, as the code has it. A file with record [M] that is found with a
    modification time [M' > M] is submitted in the first cycle whose scan
    reaches it (the listing succeeds, and for no earlier entry does the
    [stat] raise or would [print_pdf] raise before it runs [lp]), provided
    [print_pdf] does not raise for the file before it runs [lp]. If that
    submission succeeds it is the only one: the record becomes [M'] and no
    later cycle that finds [M'] submits the file. If it fails, the record
    stays [M] (and by C2 the file is submitted again). *)
Theorem changed_file_resubmitted (w : world) (folder printer : string)
    (o : options) (pre : list string) (name : string) (post : list string)
    (h : gmap string Z) (M M' : Z) :
  h !! Py.path_join folder name = Some M ->
  M < M' ->
  listdir w folder = Ok (pre ++ name :: post) ->
  Forall (fun n => stat_fails w (Py.path_join folder n) = false /\
                   print_raises w printer o (Py.path_join folder n) = false)
    pre ->
  isfile w (Py.path_join folder name) = true ->
  result_of (is_pdf w (Py.path_join folder name) h) = Ok true ->
  getmtime w (Py.path_join folder name) = Ok M' ->
  print_raises w printer o (Py.path_join folder name) = false ->
  (1 <= submissions (Py.path_join folder name)
          (trace_of (cycle w folder printer o h)))%nat /\
  (run w (print_pdf_cmd (Py.path_join folder name) printer o) = Exit0 ->
   submissions (Py.path_join folder name)
     (trace_of (cycle w folder printer o h)) = 1%nat /\
   state_of (cycle w folder printer o h) !! Py.path_join folder name
     = Some M' /\
   forall (mid : list world) (w' : world),
     getmtime w' (Py.path_join folder name) = Ok M' ->
     submissions (Py.path_join folder name)
       (trace_of
          (cycle w' folder printer o
             (state_of (watch_loop mid folder printer o
                          (state_of (cycle w folder printer o h))))))
     = 0%nat) /\
  (run w (print_pdf_cmd (Py.path_join folder name) printer o) <> Exit0 ->
   state_of (cycle w folder printer o h) !! Py.path_join folder name
     = Some M).
Proof.
  intros Hrec Hlt Hl Hpre Hf Hp%is_pdf_passes Hg Hpr.
  assert (Hsp : should_print h (Py.path_join folder name) M' = true).
  { apply should_print_spec. right. eauto. }
  destruct (cycle_reaches folder printer o w pre name post h M'
              Hl Hpre Hf Hp Hg Hpr Hsp) as [Hge Hone].
  split; [assumption|]. split.
  - intros Hrun. destruct Hone as [H1 Hst]; [now rewrite Hrun|].
    split; [assumption|]. split; [assumption|].
    intros mid w' Hg'.
    apply (printed_file_resubmission_free folder printer o w w' mid h _ M');
      assumption.
  - intros Hrun. rewrite <- Hrec. apply cycle_failed.
    destruct (run w _); [congruence | reflexivity | reflexivity].
Qed.

Lemma changed_file_resubmitted_witness :
  (1 <= submissions "/w/a.pdf"
          (trace_of (cycle (two_pdfs 10 Exit0) "/w" "Office" plain
                       {["/w/a.pdf" := 7%Z]})))%nat /\
  state_of (cycle (two_pdfs 10 Exit0) "/w" "Office" plain
              {["/w/a.pdf" := 7]}) !! "/w/a.pdf" = Some 10.
Proof.
  pose proof (changed_file_resubmitted (two_pdfs 10 Exit0) "/w" "Office" plain
                [] "a.pdf" ["b.pdf"] {["/w/a.pdf" := 7]} 7 10) as H.
  destruct H as (Hge & Hok & _).
  - reflexivity.
  - lia.
  - reflexivity.
  - constructor.
  - reflexivity.
  - reflexivity.
  - reflexivity.
  - reflexivity.
  - split; [exact Hge|]. apply Hok. reflexivity.
Defined.

(** C4 as stated fails when [lp] fails: [a.pdf], recorded at 7 and found
    at 10, is submitted in the first cycle and again in the second, twice
    in all, and its record is still 7. *)
Lemma changed_file_submitted_twice :
  submissions "/w/a.pdf"
    (trace_of (cycle (two_pdfs 10 (ExitNonzero 1)) "/w" "Office" plain
                 {["/w/a.pdf" := 7]})) = 1%nat /\
  submissions "/w/a.pdf"
    (trace_of (cycle (two_pdfs 10 (ExitNonzero 1)) "/w" "Office" plain
                 (state_of (cycle (two_pdfs 10 (ExitNonzero 1)) "/w" "Office"
                              plain {["/w/a.pdf" := 7]})))) = 1%nat /\
  submissions "/w/a.pdf"
    (trace_of (watch_loop [two_pdfs 10 (ExitNonzero 1);
                           two_pdfs 10 (ExitNonzero 1)] "/w" "Office" plain
                 {["/w/a.pdf" := 7]})) = 2%nat /\
  state_of (watch_loop [two_pdfs 10 (ExitNonzero 1);
                        two_pdfs 10 (ExitNonzero 1)] "/w" "Office" plain
              {["/w/a.pdf" := 7]}) !! "/w/a.pdf" = Some 7.
Proof. repeat split; vm_compute; reflexivity. Qed.

(** ** Scan errors *)




(** ** Monotonicity of the records *)

(** C10. Every change an entry makes to [printed_files] is the insertion of
    a time for a path that had none or a strictly smaller one; and whatever
    the loop does, a recorded path stays recorded, with a time that is not
    smaller. *)
Theorem printed_files_never_decrease (folder printer : string) (o : options) :
  (forall (w : world) (name : string) (h : gmap string Z),
     state_of (scan_entry w folder printer o name h) = h \/
     exists mtime,
       state_of (scan_entry w folder printer o name h)
         = <[Py.path_join folder name := mtime]> h /\
       (h !! Py.path_join folder name = None \/
        exists stored,
          h !! Py.path_join folder name = Some stored /\ stored < mtime)) /\
  (forall (ws : list world) (h : gmap string Z) (p : string) (t : Z),
     h !! p = Some t ->
     exists t',
       state_of (watch_loop ws folder printer o h) !! p = Some t' /\ t <= t').
Proof.
  split.
  - intros w name h.
    destruct (scan_entry_update folder printer o w name h)
      as [?|(m & ? & _ & _ & ?)]; [left | right]; eauto.
  - intros ws h p t. apply watch_loop_mono.
Qed.

Lemma printed_files_never_decrease_witness :
  exists t',
    state_of (watch_loop [two_pdfs 10 Exit0; two_pdfs 5 Exit0; unavailable]
                "/w" "Office" plain {["/w/a.pdf" := 7]}) !! "/w/a.pdf"
      = Some t' /\ 7 <= t'.
Proof.
  apply (proj2 (printed_files_never_decrease "/w" "Office" plain)
           [two_pdfs 10 Exit0; two_pdfs 5 Exit0; unavailable]
           {["/w/a.pdf" := 7]} "/w/a.pdf" 7).
  reflexivity.
Defined.

(** ** Files that are not named [.pdf] *)

Lemma is_pdf_value_name (w : world) (path : string) :
  is_pdf_value w path = true -> Py.endswith (Py.lower path) ".pdf" = true.
Proof. unfold is_pdf_value. now intros [? _]%andb_true_iff. Qed.

Lemma scan_entry_opens (w : world) (folder printer : string) (o : options)
    (name : string) (h : gmap string Z) :
  Forall opens_only_pdf_names (trace_of (scan_entry w folder printer o name h)).
Proof.
  rewrite scan_entry_run. cbv zeta. unfold trace_of.
  destruct (isfile w (Py.path_join folder name)); cbn [negb fst snd];
    [|constructor].
  destruct (is_pdf_value w (Py.path_join folder name)) eqn:Hv;
    cbn [negb fst snd].
  - apply is_pdf_value_name in Hv.
    destruct (getmtime w (Py.path_join folder name)) as [m|e]; cbn [fst snd];
      [|repeat constructor; assumption].
    destruct (should_print h (Py.path_join folder name) m); cbn [fst snd];
      [|repeat constructor; assumption].
    destruct (pre_try w _ printer o); cbn [fst snd];
      [|repeat constructor; assumption].
    unfold submit_trace.
    destruct (run w _); repeat constructor; assumption.
  - unfold is_pdf_trace.
    destruct (Py.endswith (Py.lower (Py.path_join folder name)) ".pdf") eqn:He;
      repeat constructor; assumption.
Qed.

Lemma scan_opens (w : world) (folder printer : string) (o : options)
    (names : list string) (h : gmap string Z) :
  Forall opens_only_pdf_names
    (trace_of (for_each names (scan_entry w folder printer o) h)).
Proof.
  revert h; induction names as [|name names IH]; intros h; [constructor|].
  rewrite for_each_cons.
  pose proof (scan_entry_opens w folder printer o name h) as H1.
  destruct (scan_entry w folder printer o name h) as [[h1 t1] [[]|e]];
    unfold trace_of in *; cbn [fst snd] in *; [|assumption].
  specialize (IH h1).
  destruct (for_each names _ h1) as [[h2 t2] r]; cbn [fst snd] in *.
  apply Forall_app; auto.
Qed.

Lemma cycle_opens (w : world) (folder printer : string) (o : options)
    (h : gmap string Z) :
  Forall opens_only_pdf_names (trace_of (cycle w folder printer o h)).
Proof.
  rewrite cycle_run.
  destruct (listdir w folder) as [names|e]; [|repeat constructor].
  pose proof (scan_opens w folder printer o names h) as H1.
  destruct (for_each names _ h) as [[h1 t1] [[]|e]];
    unfold trace_of in *; cbn [fst snd] in *;
    apply Forall_app; split; try assumption; repeat constructor.
Qed.

Lemma watch_loop_opens (ws : list world) (folder printer : string)
    (o : options) (h : gmap string Z) :
  Forall opens_only_pdf_names (trace_of (watch_loop ws folder printer o h)).
Proof.
  revert h; induction ws as [|w ws IH]; intros h; [constructor|].
  rewrite watch_loop_cons. unfold trace_of at 1; cbn [fst snd].
  apply Forall_app; split; [apply cycle_opens | apply IH].
Qed.

(** C6. For a path that does not end in [.pdf] (in any case), [is_pdf]
    answers false whatever the world holds, without any effect: nothing is
    opened. The loop, which opens files through [is_pdf] only, never opens
    such a path either. *)
Theorem other_names_are_never_opened (path : string) :
  Py.endswith (Py.lower path) ".pdf" = false ->
  (forall (S : Type) (w : world) (s : S),
     is_pdf w path s = (s, [], Ok false)) /\
  (forall (ws : list world) (folder printer : string) (o : options)
          (h : gmap string Z),
     EvOpen path ∉ trace_of (watch_loop ws folder printer o h)).
Proof.
  intros Hext. split.
  - intros S w s. rewrite is_pdf_run.
    unfold is_pdf_trace, is_pdf_value. now rewrite Hext.
  - intros ws folder printer o h Hin.
    pose proof (watch_loop_opens ws folder printer o h) as Hall.
    rewrite Forall_forall in Hall. specialize (Hall _ Hin).
    simpl in Hall. congruence.
Qed.

Lemma other_names_are_never_opened_witness :
  is_pdf pdf_and_text "/w/b.txt" (∅ : gmap string Z) = (∅, [], Ok false) /\
  EvOpen "/w/b.txt" ∉
    trace_of (watch_loop [pdf_and_text] "/w" "Office" plain ∅).
Proof.
  pose proof (other_names_are_never_opened "/w/b.txt" eq_refl) as [H1 H2].
  split; [apply H1 | apply H2].
Defined.

(** The scenario of the specification: one cycle over [a.pdf] and [b.txt]
    runs [lp] once, for [a.pdf], and opens [a.pdf] only. *)
Example one_cycle_pdf_and_text :
  cycle pdf_and_text "/w" "Office" plain ∅ =
    ({["/w/a.pdf" := 10]},
     [EvOpen "/w/a.pdf";
      EvLog INFO (MsgPrinting ["lp"; "-d"; "Office"; "/w/a.pdf"]);
      EvRun ["lp"; "-d"; "Office"; "/w/a.pdf"];
      EvSleep 5],
     Ok tt).
Proof. vm_compute. reflexivity. Qed.

(** The scenario of the specification: [lp] fails twice, then succeeds; the
    modification time does not change. Three submissions, and a record only
    after the third. *)
Example fails_twice_then_succeeds :
  let failing := only_a (ExitNonzero 1) in
  let working := only_a Exit0 in
  state_of (watch_loop [failing] "/w" "Office" plain ∅) !! "/w/a.pdf" = None /\
  state_of (watch_loop [failing; failing] "/w" "Office" plain ∅)
    !! "/w/a.pdf" = None /\
  state_of (watch_loop [failing; failing; working] "/w" "Office" plain ∅)
    !! "/w/a.pdf" = Some 10 /\
  submissions "/w/a.pdf"
    (trace_of (watch_loop [failing; failing; working] "/w" "Office" plain ∅))
    = 3%nat.
Proof. repeat split; vm_compute; reflexivity. Qed.

(** ** The option prompts *)

Lemma duplex_modes_lookup (n : Z) :
  1 <= n <= Z.of_nat (length duplex_modes) ->
  exists mode, duplex_modes !! Z.to_nat (n - 1) = Some mode /\
               mode ∈ duplex_modes.
Proof.
  simpl. intros Hn.
  assert (Hcases : n = 1 \/ n = 2 \/ n = 3) by lia.
  clear Hn. destruct Hcases as [-> | [-> | ->]];
    eexists; (split; [reflexivity|]); set_solver.
Qed.

(** What [int()] returns, it returns for a non-empty string of at most 4300
    decimal digits; what it raises is [ValueError]. *)
Lemma int_result_ok (s : string) (n : Z) :
  Py.int_result s = Ok n ->
  Py.all_decimal s = true /\
  (1 <= String.length s <= Py.max_str_digits)%nat /\
  n = Py.int s.
Proof.
  unfold Py.int_result.
  destruct (Py.all_decimal s); cbn [andb]; [|discriminate].
  destruct (1 <=? String.length s)%nat eqn:H1; cbn [andb]; [|discriminate].
  destruct (String.length s <=? Py.max_str_digits)%nat eqn:H2; [|discriminate].
  intros [= <-]. apply Nat.leb_le in H1. apply Nat.leb_le in H2. auto.
Qed.


(** One turn of the copies loop. *)
Lemma copies_loop_cons (l : string) (rest : list string) :
  copies_loop (l :: rest) =
    match copies_answer l with
    | Accepted c => (rest, [EvInput copies_prompt], Ok c)
    | Crashed e => (rest, [EvInput copies_prompt], Raise e)
    | Rejected =>
        match copies_loop rest with
        | (s, t, r) =>
            (s, EvInput copies_prompt :: EvLog WARNING MsgInvalidCopies :: t, r)
        end
    end.
Proof.
  cbn [copies_loop]. unfold copies_answer. cbv zeta.
  destruct (negb (Py.truthy (Py.strip l))); [reflexivity|].
  destruct (Py.isdigit (Py.strip l)); [|reflexivity].
  destruct (Py.int_result (Py.strip l)) as [n|e]; [|reflexivity].
  destruct (0 <? n); reflexivity.
Qed.

(** One turn of the duplex loop. *)
Lemma duplex_loop_cons (l : string) (rest : list string) :
  duplex_loop (l :: rest) =
    match duplex_answer l with
    | Accepted d => (rest, [EvInput duplex_prompt], Ok d)
    | Crashed e => (rest, [EvInput duplex_prompt], Raise e)
    | Rejected =>
        match duplex_loop rest with
        | (s, t, r) =>
            (s, EvInput duplex_prompt :: EvLog WARNING MsgInvalidDuplex :: t, r)
        end
    end.
Proof.
  cbn [duplex_loop]. unfold duplex_answer. cbv zeta.
  destruct (negb (Py.truthy (Py.strip l))); [reflexivity|].
  destruct (Py.isdigit (Py.strip l)); [|reflexivity].
  destruct (Py.int_result (Py.strip l)) as [n|e]; [|reflexivity].
  destruct (1 <=? n) eqn:Hlo; cbn [andb]; [|reflexivity].
  destruct (n <=? Z.of_nat (length duplex_modes)) eqn:Hhi; [|reflexivity].
  apply Z.leb_le in Hlo. apply Z.leb_le in Hhi.
  destruct (duplex_modes_lookup n (conj Hlo Hhi)) as (mode & -> & _).
  reflexivity.
Qed.

Lemma copies_loop_inv (lines rest : list string) (t : list event) (c : Z) :
  copies_loop lines = (rest, t, Ok c) ->
  exists bad good,
    lines = bad ++ good :: rest /\
    Forall (fun l => copies_answer l = Rejected) bad /\
    copies_answer good = Accepted c /\
    t = reprompts copies_prompt MsgInvalidCopies bad.
Proof.
  revert t; induction lines as [|l lines IH]; intros t.
  - discriminate.
  - rewrite copies_loop_cons.
    destruct (copies_answer l) as [c'| |e] eqn:Hl.
    + intros [= <- <- <-]. exists [], l. repeat split; [constructor | assumption].
    + destruct (copies_loop lines) as [[s t'] r] eqn:Hloop.
      intros [= Hs Ht Hr]. subst s t r.
      destruct (IH t' eq_refl) as (bad & good & -> & Hbad & Hgood & ->).
      exists (l :: bad), good. repeat split; try assumption.
      constructor; assumption.
    + discriminate.
Qed.

Lemma duplex_loop_inv (lines rest : list string) (t : list event)
    (d : option string) :
  duplex_loop lines = (rest, t, Ok d) ->
  exists bad good,
    lines = bad ++ good :: rest /\
    Forall (fun l => duplex_answer l = Rejected) bad /\
    duplex_answer good = Accepted d /\
    t = reprompts duplex_prompt MsgInvalidDuplex bad.
Proof.
  revert t; induction lines as [|l lines IH]; intros t.
  - discriminate.
  - rewrite duplex_loop_cons.
    destruct (duplex_answer l) as [d'| |e] eqn:Hl.
    + intros [= <- <- <-]. exists [], l. repeat split; [constructor | assumption].
    + destruct (duplex_loop lines) as [[s t'] r] eqn:Hloop.
      intros [= Hs Ht Hr]. subst s t r.
      destruct (IH t' eq_refl) as (bad & good & -> & Hbad & Hgood & ->).
      exists (l :: bad), good. repeat split; try assumption.
      constructor; assumption.
    + discriminate.
Qed.

(** An accepted count is positive: 1 for a blank line, and otherwise the
    number a string of at most 4300 decimal digits denotes. *)
Lemma copies_answer_positive (l : string) (c : Z) :
  copies_answer l = Accepted c ->
  0 < c /\ (Py.strip l = "" -> c = 1) /\
  (Py.strip l <> "" ->
   Py.isdigit (Py.strip l) = true /\ Py.all_decimal (Py.strip l) = true /\
   (String.length (Py.strip l) <= Py.max_str_digits)%nat /\
   c = Py.int (Py.strip l)).
Proof.
  unfold copies_answer.
  destruct (Py.strip l) as [|a s] eqn:Hs; cbn [Py.truthy negb]; cbv iota.
  - intros [= <-]. split; [lia|]. split; [reflexivity | congruence].
  - destruct (Py.isdigit (String a s)) eqn:Hd; [|discriminate].
    destruct (Py.int_result (String a s)) as [n|e] eqn:Hint; [|discriminate].
    destruct (0 <? n) eqn:Hpos; [|discriminate].
    apply Z.ltb_lt in Hpos. intros [= <-].
    apply int_result_ok in Hint as (Hall & [_ Hlen] & Hn).
    split; [assumption|]. split; [discriminate|]. auto.
Qed.

Lemma duplex_answer_mode (l : string) (d : option string) :
  duplex_answer l = Accepted d ->
  (Py.strip l = "" -> d = None) /\
  (d = None \/ exists mode, mode ∈ duplex_modes /\ d = Some mode).
Proof.
  unfold duplex_answer.
  destruct (Py.strip l) as [|a s] eqn:Hs; cbn [Py.truthy negb]; cbv iota.
  - intros [= <-]. auto.
  - destruct (Py.isdigit (String a s)); [|discriminate].
    destruct (Py.int_result (String a s)) as [n|e]; [|discriminate].
    destruct (1 <=? n) eqn:Hlo; cbn [andb]; [|discriminate].
    destruct (n <=? Z.of_nat (length duplex_modes)) eqn:Hhi; [|discriminate].
    apply Z.leb_le in Hlo. apply Z.leb_le in Hhi.
    destruct (duplex_modes_lookup n (conj Hlo Hhi)) as (mode & Hmode & Hin).
    rewrite Hmode. intros [= <-]. split; [discriminate|]. eauto.
Qed.



Lemma duplex_menu_items {S} (s : S) :
  for_each (enumerate 1 duplex_modes)
    (fun im => print (String.append (Py.str (fst im))
                        (String.append ". " (snd im)))) s
  = (s, tl duplex_menu, Ok tt).
Proof. reflexivity. Qed.

(** [get_print_options] returns exactly on inputs of this shape: a line for
    the pages, rejected lines and an accepted line for the copies, the same
    for the duplex mode, one line for fit and one for the media. *)
Lemma get_print_options_inv (lines rest : list string) (t : list event)
    (opts : options) :
  get_print_options lines = (rest, t, Ok opts) ->
  exists pg badc goodc badd goodd ft md,
    lines = pg :: badc ++ goodc :: badd ++ goodd :: ft :: md :: rest /\
    Forall (fun l => copies_answer l = Rejected) badc /\
    copies_answer goodc = Accepted (copies opts) /\
    Forall (fun l => duplex_answer l = Rejected) badd /\
    duplex_answer goodd = Accepted (duplex opts) /\
    pages opts = Py.strip pg /\
    fit opts = String.eqb (Py.lower (Py.strip ft)) "y" /\
    media opts = (if Py.truthy (Py.strip md) then Some (Py.strip md) else None) /\
    t = [EvInput pages_prompt]
        ++ reprompts copies_prompt MsgInvalidCopies badc
        ++ duplex_menu
        ++ reprompts duplex_prompt MsgInvalidDuplex badd
        ++ [EvInput fit_prompt; EvInput media_prompt].
Proof.
  unfold get_print_options.
  destruct lines as [|pg l1]; [discriminate|].
  unfold bind at 1. cbn [input].
  unfold bind at 1.
  destruct (copies_loop l1) as [[l2 t2] [c|e]] eqn:Hc; [|discriminate].
  unfold bind at 1. cbn [print emit].
  unfold bind at 1. rewrite duplex_menu_items.
  unfold bind at 1.
  destruct (duplex_loop l2) as [[l3 t3] [d|e]] eqn:Hd; [|discriminate].
  unfold bind at 1.
  destruct l3 as [|ft l4]; [discriminate|]. cbn [input].
  unfold bind at 1.
  destruct l4 as [|md l5]; [discriminate|]. cbn [input ret].
  intros [= <- <- <-]. cbn [pages copies duplex fit media].
  apply copies_loop_inv in Hc as (badc & goodc & -> & Hbc & Hgc & ->).
  apply duplex_loop_inv in Hd as (badd & goodd & -> & Hbd & Hgd & ->).
  exists pg, badc, goodc, badd, goodd, ft, md.
  repeat split; assumption.
Qed.

Lemma copies_loop_accepts (bad : list string) (good : string)
    (rest : list string) (c : Z) :
  Forall (fun l => copies_answer l = Rejected) bad ->
  copies_answer good = Accepted c ->
  copies_loop (bad ++ good :: rest) =
    (rest, reprompts copies_prompt MsgInvalidCopies bad, Ok c).
Proof.
  intros Hbad Hgood. induction Hbad as [|l bad Hl Hbad IH].
  - rewrite app_nil_l, copies_loop_cons, Hgood. reflexivity.
  - rewrite <- app_comm_cons, copies_loop_cons, Hl, IH. reflexivity.
Qed.

Lemma duplex_loop_accepts (bad : list string) (good : string)
    (rest : list string) (d : option string) :
  Forall (fun l => duplex_answer l = Rejected) bad ->
  duplex_answer good = Accepted d ->
  duplex_loop (bad ++ good :: rest) =
    (rest, reprompts duplex_prompt MsgInvalidDuplex bad, Ok d).
Proof.
  intros Hbad Hgood. induction Hbad as [|l bad Hl Hbad IH].
  - rewrite app_nil_l, duplex_loop_cons, Hgood. reflexivity.
  - rewrite <- app_comm_cons, duplex_loop_cons, Hl, IH. reflexivity.
Qed.

(** After rejected lines, a line on which [int()] raises ends the loop with
    that exception: no warning for it, no new prompt. *)
Lemma copies_loop_crashes (bad : list string) (l : string)
    (rest : list string) (e : exn) :
  Forall (fun l => copies_answer l = Rejected) bad ->
  copies_answer l = Crashed e ->
  copies_loop (bad ++ l :: rest) =
    (rest, reprompts copies_prompt MsgInvalidCopies bad, Raise e).
Proof.
  intros Hbad Hl. induction Hbad as [|b bad Hb Hbad IH].
  - rewrite app_nil_l, copies_loop_cons, Hl. reflexivity.
  - rewrite <- app_comm_cons, copies_loop_cons, Hb, IH. reflexivity.
Qed.

Lemma duplex_loop_crashes (bad : list string) (l : string)
    (rest : list string) (e : exn) :
  Forall (fun l => duplex_answer l = Rejected) bad ->
  duplex_answer l = Crashed e ->
  duplex_loop (bad ++ l :: rest) =
    (rest, reprompts duplex_prompt MsgInvalidDuplex bad, Raise e).
Proof.
  intros Hbad Hl. induction Hbad as [|b bad Hb Hbad IH].
  - rewrite app_nil_l, duplex_loop_cons, Hl. reflexivity.
  - rewrite <- app_comm_cons, duplex_loop_cons, Hb, IH. reflexivity.
Qed.

(** On lines of that shape [get_print_options] returns, with these
    options. *)
Lemma get_print_options_accepts (pg : string) (badc : list string)
    (goodc : string) (badd : list string) (goodd ft md : string)
    (rest : list string) (c : Z) (d : option string) :
  Forall (fun l => copies_answer l = Rejected) badc ->
  copies_answer goodc = Accepted c ->
  Forall (fun l => duplex_answer l = Rejected) badd ->
  duplex_answer goodd = Accepted d ->
  get_print_options
    (pg :: badc ++ goodc :: badd ++ goodd :: ft :: md :: rest) =
  (rest,
   [EvInput pages_prompt]
     ++ reprompts copies_prompt MsgInvalidCopies badc
     ++ duplex_menu
     ++ reprompts duplex_prompt MsgInvalidDuplex badd
     ++ [EvInput fit_prompt; EvInput media_prompt],
   Ok (Options (Py.strip pg) c d
         (String.eqb (Py.lower (Py.strip ft)) "y")
         (if Py.truthy (Py.strip md) then Some (Py.strip md) else None))).
Proof.
  intros Hbc Hgc Hbd Hgd.
  unfold get_print_options.
  unfold bind at 1. cbn [input].
  unfold bind at 1.
  rewrite (copies_loop_accepts badc goodc _ c Hbc Hgc).
  unfold bind at 1. cbn [print emit].
  unfold bind at 1. rewrite duplex_menu_items.
  unfold bind at 1.
  rewrite (duplex_loop_accepts badd goodd _ d Hbd Hgd).
  reflexivity.
Qed.

(** A line at the copies prompt on which [int()] raises ends
    [get_print_options] with that exception. *)
Lemma get_print_options_copies_crash (pg : string) (badc : list string)
    (l : string) (rest : list string) (e : exn) :
  Forall (fun l => copies_answer l = Rejected) badc ->
  copies_answer l = Crashed e ->
  get_print_options (pg :: badc ++ l :: rest) =
    (rest,
     [EvInput pages_prompt] ++ reprompts copies_prompt MsgInvalidCopies badc,
     Raise e).
Proof.
  intros Hbc Hl. unfold get_print_options.
  unfold bind at 1. cbn [input].
  unfold bind at 1.
  rewrite (copies_loop_crashes badc l rest e Hbc Hl).
  reflexivity.
Qed.

(** The same at the duplex prompt. *)
Lemma get_print_options_duplex_crash (pg : string) (badc : list string)
    (goodc : string) (badd : list string) (l : string) (rest : list string)
    (c : Z) (e : exn) :
  Forall (fun l => copies_answer l = Rejected) badc ->
  copies_answer goodc = Accepted c ->
  Forall (fun l => duplex_answer l = Rejected) badd ->
  duplex_answer l = Crashed e ->
  get_print_options (pg :: badc ++ goodc :: badd ++ l :: rest) =
    (rest,
     [EvInput pages_prompt]
       ++ reprompts copies_prompt MsgInvalidCopies badc
       ++ duplex_menu
       ++ reprompts duplex_prompt MsgInvalidDuplex badd,
     Raise e).
Proof.
  intros Hbc Hgc Hbd Hl. unfold get_print_options.
  unfold bind at 1. cbn [input].
  unfold bind at 1.
  rewrite (copies_loop_accepts badc goodc _ c Hbc Hgc).
  unfold bind at 1. cbn [print emit].
  unfold bind at 1. rewrite duplex_menu_items.
  unfold bind at 1.
  rewrite (duplex_loop_crashes badd l rest e Hbd Hl).
  reflexivity.
Qed.

(** When [get_print_options] returns: the lines typed are one for the pages;
    for the copies, any number of rejected lines, each answered by a
    warning and a new prompt, then an accepted one, blank (giving 1) or a
    string of decimal digits with a positive value; for the duplex mode the
    same, the accepted line being blank (no mode) or the number of one of
    the three modes; one line for fit, which is never rejected: fit is set
    exactly when the line, stripped and lower-cased, is [y]; and one line
    for the media. The options returned are those of the accepted lines. *)
Lemma get_print_options_returns_iff (lines rest : list string)
    (t : list event) (opts : options) :
  get_print_options lines = (rest, t, Ok opts) <->
  exists pg badc goodc badd goodd ft md,
    lines = pg :: badc ++ goodc :: badd ++ goodd :: ft :: md :: rest /\
    pages opts = Py.strip pg /\
    (* copies *)
    Forall (fun l => copies_answer l = Rejected) badc /\
    copies_answer goodc = Accepted (copies opts) /\
    0 < copies opts /\
    (Py.strip goodc = "" -> copies opts = 1) /\
    (Py.strip goodc <> "" ->
     Py.all_decimal (Py.strip goodc) = true /\
     copies opts = Py.int (Py.strip goodc)) /\
    (* duplex *)
    Forall (fun l => duplex_answer l = Rejected) badd /\
    duplex_answer goodd = Accepted (duplex opts) /\
    (Py.strip goodd = "" -> duplex opts = None) /\
    (duplex opts = None \/
     exists mode, mode ∈ duplex_modes /\ duplex opts = Some mode) /\
    (* fit: any line is taken *)
    fit opts = String.eqb (Py.lower (Py.strip ft)) "y" /\
    media opts =
      (if Py.truthy (Py.strip md) then Some (Py.strip md) else None) /\
    (* one warning and one new prompt for each rejected line, none for fit *)
    t = [EvInput pages_prompt]
        ++ reprompts copies_prompt MsgInvalidCopies badc
        ++ duplex_menu
        ++ reprompts duplex_prompt MsgInvalidDuplex badd
        ++ [EvInput fit_prompt; EvInput media_prompt].
Proof.
  split.
  - intros Hrun.
    apply get_print_options_inv in Hrun
      as (pg & badc & goodc & badd & goodd & ft & md &
          -> & Hbc & Hgc & Hbd & Hgd & Hpg & Hfit & Hmd & ->).
    destruct (copies_answer_positive goodc _ Hgc) as (Hpos & Hblank & Hdig).
    destruct (duplex_answer_mode goodd _ Hgd) as (Hdblank & Hmode).
    exists pg, badc, goodc, badd, goodd, ft, md.
    repeat split; try assumption; now apply Hdig.
  - intros (pg & badc & goodc & badd & goodd & ft & md &
            -> & Hpg & Hbc & Hgc & _ & _ & _ & Hbd & Hgd & _ & _ &
            Hfit & Hmd & ->).
    rewrite (get_print_options_accepts pg badc goodc badd goodd ft md rest
               _ _ Hbc Hgc Hbd Hgd).
    destruct opts as [p c d f m]; simpl in *. now subst.
Qed.

(** The scenario of the specification: a rejected line at each loop, then
    accepted ones. *)
Example get_print_options_reprompts :
  get_print_options ["1-2"; "x"; " 3 "; "9"; "2"; "Y"; "A4"] =
    ([],
     [EvInput pages_prompt;
      EvInput copies_prompt; EvLog WARNING MsgInvalidCopies;
      EvInput copies_prompt;
      EvPrint "Duplex options:"; EvPrint "1. one-sided";
      EvPrint "2. two-sided-long-edge"; EvPrint "3. two-sided-short-edge";
      EvInput duplex_prompt; EvLog WARNING MsgInvalidDuplex;
      EvInput duplex_prompt;
      EvInput fit_prompt; EvInput media_prompt],
     Ok (Options "1-2" 3 (Some "two-sided-long-edge") true (Some "A4"))).
Proof. vm_compute. reflexivity. Qed.

(** Fit is not validated, by design: the line [maybe] is neither Y nor N
    nor blank, and it is taken as N without a warning or a new prompt. *)
Example fit_answer_is_not_validated :
  get_print_options [""; ""; ""; "maybe"; ""] =
    ([],
     [EvInput pages_prompt; EvInput copies_prompt;
      EvPrint "Duplex options:"; EvPrint "1. one-sided";
      EvPrint "2. two-sided-long-edge"; EvPrint "3. two-sided-short-edge";
      EvInput duplex_prompt; EvInput fit_prompt; EvInput media_prompt],
     Ok (Options "" 1 None false None)) /\
  existsb is_warning (trace_of (get_print_options [""; ""; ""; "maybe"; ""]))
    = false /\
  Py.lower (Py.strip "maybe") <> "y" /\
  Py.lower (Py.strip "maybe") <> "n" /\
  Py.lower (Py.strip "maybe") <> "".
Proof.
  split; [vm_compute; reflexivity|].
  split; [vm_compute; reflexivity|].
  repeat split; vm_compute; discriminate.
Qed.

(** C9. The validation of the copies and of the duplex line misses a case.
    A line that, stripped, passes [isdigit()] and that [int()] does not
    read (a superscript digit, or more than 4300 digits) is neither
    accepted nor answered by a warning and a new prompt: [ValueError]
    leaves [get_print_options], with the lines after it unread. At the
    copies prompt this holds after any number of rejected lines; at the
    duplex prompt, after an accepted copies line and any number of rejected
    lines. *)
Theorem digit_line_int_refuses_raises (pg : string) (badc : list string)
    (l : string) (rest : list string) :
  Forall (fun l => copies_answer l = Rejected) badc ->
  Py.isdigit (Py.strip l) = true ->
  Py.int_result (Py.strip l) = Raise (Exn "ValueError") ->
  get_print_options (pg :: badc ++ l :: rest) =
    (rest,
     [EvInput pages_prompt] ++ reprompts copies_prompt MsgInvalidCopies badc,
     Raise (Exn "ValueError")) /\
  (forall goodc c badd,
     copies_answer goodc = Accepted c ->
     Forall (fun l => duplex_answer l = Rejected) badd ->
     get_print_options (pg :: badc ++ goodc :: badd ++ l :: rest) =
       (rest,
        [EvInput pages_prompt]
          ++ reprompts copies_prompt MsgInvalidCopies badc
          ++ duplex_menu
          ++ reprompts duplex_prompt MsgInvalidDuplex badd,
        Raise (Exn "ValueError"))).
Proof.
  intros Hbc Hdig Hint.
  assert (Htruthy : negb (Py.truthy (Py.strip l)) = false).
  { destruct (Py.strip l); [discriminate | reflexivity]. }
  split.
  - apply get_print_options_copies_crash; [assumption|].
    unfold copies_answer. cbv zeta. now rewrite Htruthy, Hdig, Hint.
  - intros goodc c badd Hgc Hbd.
    apply (get_print_options_duplex_crash pg badc goodc badd l rest c);
      try assumption.
    unfold duplex_answer. cbv zeta. now rewrite Htruthy, Hdig, Hint.
Qed.

(** The line is the superscript two, typed after a rejected line. *)
Lemma digit_line_int_refuses_raises_witness :
  get_print_options ["1-2"; "x"; String "178" ""; "3"; "2"; "y"; "A4"] =
    (["3"; "2"; "y"; "A4"],
     [EvInput pages_prompt;
      EvInput copies_prompt; EvLog WARNING MsgInvalidCopies;
      EvInput copies_prompt],
     Raise (Exn "ValueError")).
Proof.
  apply (proj1 (digit_line_int_refuses_raises
                  "1-2" ["x"] (String "178" "") ["3"; "2"; "y"; "A4"]
                  ltac:(repeat constructor) eq_refl eq_refl)).
Defined.

(** * Further properties *)

(** ** The print invoker *)

(** The command cannot be built exactly when [-n] is due and [str()]
    refuses the count. *)
Lemma print_pdf_argv_raises (path printer : string) (o : options) (e : exn) :
  print_pdf_argv path printer o = Raise e <->
  copies o <> 0 /\ copies o <> 1 /\ Py.str_result (copies o) = Raise e.
Proof.
  unfold print_pdf_argv.
  destruct (Z.eqb_spec (copies o) 0) as [H0|H0];
    destruct (Z.eqb_spec (copies o) 1) as [H1|H1]; cbn [negb andb];
    try (split; [discriminate | intros (? & ? & _); congruence]).
  destruct (Py.str_result (copies o)) as [c|e'].
  - split; [discriminate | intros (_ & _ & ?); discriminate].
  - split; [intros [= <-]; auto | intros (_ & _ & [= <-]); reflexivity].
Qed.

(** X1. [print_pdf] either raises before its [try], because [str(copies)]
    is beyond the digit limit or the line it logs cannot be written, and
    then it has run no command and logged nothing; or it runs exactly one
    command, the one [print_pdf_cmd] builds, and reports its outcome: it
    returns true exactly when [lp] exits with status 0 and logs one error
    line exactly when it returns false. Either way the state is left
    alone. *)
Theorem print_pdf_reports_outcome {S} (w : world) (path printer : string)
    (o : options) (s : S) :
  state_of (print_pdf w path printer o s) = s /\
  (forall e,
     print_pdf_argv path printer o = Raise e \/
     print_pdf_argv path printer o = Ok (print_pdf_cmd path printer o) /\
     log_printing w (print_pdf_cmd path printer o) = Raise e ->
     print_pdf w path printer o s = (s, [], Raise e)) /\
  (print_pdf_argv path printer o = Ok (print_pdf_cmd path printer o) ->
   log_printing w (print_pdf_cmd path printer o) = Ok tt ->
   (result_of (print_pdf w path printer o s) = Ok true <->
    run w (print_pdf_cmd path printer o) = Exit0) /\
   (result_of (print_pdf w path printer o s) = Ok false <->
    run w (print_pdf_cmd path printer o) <> Exit0) /\
   List.filter is_run (trace_of (print_pdf w path printer o s))
     = [EvRun (print_pdf_cmd path printer o)] /\
   length (List.filter is_error (trace_of (print_pdf w path printer o s)))
     = (if succeeded (run w (print_pdf_cmd path printer o)) then 0 else 1)%nat).
Proof.
  rewrite print_pdf_run. unfold pre_try.
  split; [|split].
  - destruct (print_pdf_argv path printer o) as [cmd|e]; [|reflexivity].
    destruct (log_printing w cmd); reflexivity.
  - intros e [-> | [-> ->]]; reflexivity.
  - intros -> ->. unfold state_of, result_of, trace_of; cbn [fst snd].
    destruct (run w (print_pdf_cmd path printer o)); simpl;
      repeat split; try congruence; try discriminate.
Qed.

Lemma print_pdf_reports_outcome_witness :
  result_of (print_pdf (only_a Exit0) "/w/a.pdf" "Office" plain
               (∅ : gmap string Z)) = Ok true /\
  print_pdf mute_terminal "/w/a.pdf" "Office" plain (∅ : gmap string Z)
    = (∅, [], Raise (Exn "UnicodeEncodeError")).
Proof.
  pose proof (print_pdf_reports_outcome (only_a Exit0) "/w/a.pdf" "Office"
                plain (∅ : gmap string Z)) as (_ & _ & Hruns).
  pose proof (print_pdf_reports_outcome mute_terminal "/w/a.pdf" "Office"
                plain (∅ : gmap string Z)) as (_ & Hraises & _).
  split.
  - apply (proj1 (Hruns eq_refl eq_refl)). reflexivity.
  - apply Hraises. right. split; reflexivity.
Defined.

(** ** What the loop submits *)

Section Submitted.

Variables (folder printer : string) (o : options).

Local Abbreviation path_of name := (Py.path_join folder name).

(** An entry that submits [p] is the entry of [p], a regular file that
    passes the sniffer. *)
Lemma scan_entry_submits_pdf (w : world) (name : string) (h : gmap string Z)
    (p : string) :
  (0 < submissions p (trace_of (scan_entry w folder printer o name h)))%nat ->
  path_of name = p /\ isfile w p = true /\ is_pdf_value w p = true.
Proof.
  destruct (decide (path_of name = p)) as [Heq|Hne].
  2: { destruct (scan_entry_other folder printer o w name h p Hne) as [H0 _].
       lia. }
  rewrite scan_entry_run. cbv zeta. rewrite Heq. unfold trace_of.
  destruct (isfile w p); cbn [negb fst snd]; [|simpl; lia].
  destruct (is_pdf_value w p); cbn [negb fst snd];
    [|rewrite submissions_is_pdf_trace; lia].
  auto.
Qed.

Lemma scan_submits_listed_pdf (w : world) (names : list string)
    (h : gmap string Z) (p : string) :
  (0 < submissions p
         (trace_of (for_each names (scan_entry w folder printer o) h)))%nat ->
  exists name, name ∈ names /\ path_of name = p /\
               isfile w p = true /\ is_pdf_value w p = true.
Proof.
  revert h; induction names as [|n names IH]; intros h.
  - simpl. lia.
  - rewrite for_each_cons. intros Hsub.
    destruct (Nat.eq_dec
                (submissions p (trace_of (scan_entry w folder printer o n h)))
                0%nat) as [Hz|Hnz].
    + destruct (scan_entry w folder printer o n h) as [[h1 t1] [[]|e]];
        unfold trace_of in *; cbn [fst snd] in *; [|lia].
      specialize (IH h1).
      destruct (for_each names _ h1) as [[h2 t2] r]; cbn [fst snd] in *.
      rewrite submissions_app, Hz in Hsub.
      destruct (IH Hsub) as (name & Hin & Hrest).
      exists name. split; [now apply list_elem_of_further | assumption].
    + destruct (scan_entry_submits_pdf w n h p) as (Heq & Hf & Hp); [lia|].
      exists n. split; [apply list_elem_of_here | auto].
Qed.

End Submitted.

(** X2. Whatever a cycle submits is a listed, regular file that passes the
    sniffer and whose modification time was read, and it was in need of
    printing when the cycle began. Directories, files of other kinds and
    paths outside the listing are never submitted. *)
Theorem cycle_submits_only_listed_pdfs (w : world) (folder printer : string)
    (o : options) (h : gmap string Z) (p : string) :
  (0 < submissions p (trace_of (cycle w folder printer o h)))%nat ->
  exists names name m,
    listdir w folder = Ok names /\ name ∈ names /\
    p = Py.path_join folder name /\
    isfile w p = true /\
    result_of (is_pdf w p h) = Ok true /\
    getmtime w p = Ok m /\
    (h !! p = None \/ exists stored, h !! p = Some stored /\ stored < m).
Proof.
  intros Hsub.
  destruct (listdir w folder) as [names|e] eqn:Hl.
  2: { rewrite cycle_run, Hl in Hsub. simpl in Hsub. lia. }
  destruct (cycle_of_scan folder printer o w names h Hl) as [_ Hsame].
  rewrite Hsame in Hsub.
  destruct (scan_submits_listed_pdf folder printer o w names h p Hsub)
    as (name & Hin & Heq & Hf & Hp).
  destruct (getmtime w p) as [m|e] eqn:Hg.
  - exists names, name, m. repeat split; auto.
    + now apply is_pdf_passes.
    + apply should_print_spec.
      now apply (scan_submitted folder printer o w names h p m Hg).
  - exfalso. revert Hsub. clear -Hg.
    revert h; induction names as [|n names IH]; intros h; [simpl; lia|].
    rewrite for_each_cons.
    destruct (scan_entry_cases folder printer o w n h p)
      as [(H0 & _ & _)|(_ & _ & _ & m & Hg' & _)]; [|congruence].
    destruct (scan_entry w folder printer o n h) as [[h1 t1] [[]|e']];
      unfold trace_of in *; cbn [fst snd] in *; [|lia].
    specialize (IH h1).
    destruct (for_each names _ h1) as [[h2 t2] r]; cbn [fst snd] in *.
    rewrite submissions_app, H0. exact IH.
Qed.

Lemma cycle_submits_only_listed_pdfs_witness :
  exists names name m,
    listdir pdf_and_text "/w" = Ok names /\ name ∈ names /\
    "/w/a.pdf" = Py.path_join "/w" name /\
    isfile pdf_and_text "/w/a.pdf" = true /\
    result_of (is_pdf pdf_and_text "/w/a.pdf" (∅ : gmap string Z)) = Ok true /\
    getmtime pdf_and_text "/w/a.pdf" = Ok m /\
    ((∅ : gmap string Z) !! "/w/a.pdf" = None \/
     exists stored, (∅ : gmap string Z) !! "/w/a.pdf" = Some stored /\
                    stored < m).
Proof.
  apply (cycle_submits_only_listed_pdfs pdf_and_text "/w" "Office" plain ∅
           "/w/a.pdf").
  vm_compute. lia.
Defined.

(** ** The pace of the loop *)





(** ** At most one submission per file and cycle *)

Lemma append_inj_r (a x y : string) :
  String.append a x = String.append a y -> x = y.
Proof. induction a as [|c a IH]; simpl; [auto | intros [= H]; auto]. Qed.

(** Names as [os.listdir] gives them (no leading slash) are joined to
    different paths. *)
Lemma path_join_inj (folder a b : string) :
  Py.startswith a "/" = false ->
  Py.startswith b "/" = false ->
  Py.path_join folder a = Py.path_join folder b -> a = b.
Proof.
  unfold Py.path_join. intros -> ->.
  destruct (negb (Py.truthy folder) || Py.endswith folder "/")%bool.
  - apply append_inj_r.
  - intros H. apply append_inj_r in H. exact (append_inj_r _ _ _ H).
Qed.

Lemma joined_paths_distinct (folder : string) (names : list string) :
  NoDup names ->
  Forall (fun n => Py.startswith n "/" = false) names ->
  NoDup (map (Py.path_join folder) names).
Proof.
  induction 1 as [|n names Hnot Hnd IH]; intros Hall; [constructor|].
  apply Forall_cons in Hall as [Hn Hall]. simpl. constructor; [|auto].
  intros Hin. apply list_elem_of_fmap in Hin as (n' & Heq & Hin').
  rewrite Forall_forall in Hall.
  apply path_join_inj in Heq; [congruence | assumption | auto].
Qed.

Lemma scan_submits_at_most_once (w : world) (folder printer : string)
    (o : options) (names : list string) (h : gmap string Z) (p : string) :
  NoDup (map (Py.path_join folder) names) ->
  (submissions p (trace_of (for_each names (scan_entry w folder printer o) h))
   <= 1)%nat.
Proof.
  revert h; induction names as [|n names IH]; intros h Hnd; [simpl; lia|].
  simpl in Hnd. apply NoDup_cons in Hnd as [Hnot Hnd].
  rewrite for_each_cons.
  destruct (scan_entry_cases folder printer o w n h p)
    as [(H0 & _ & _)|(H1 & Heq & _ & _)].
  - destruct (scan_entry w folder printer o n h) as [[h1 t1] [[]|e]];
      unfold trace_of in *; cbn [fst snd] in *; [|lia].
    specialize (IH h1 Hnd).
    destruct (for_each names _ h1) as [[h2 t2] r]; cbn [fst snd] in *.
    rewrite submissions_app. lia.
  - rewrite Heq in Hnot.
    destruct (scan_entry w folder printer o n h) as [[h1 t1] [[]|e]];
      unfold trace_of in *; cbn [fst snd] in *; [|lia].
    destruct (scan_other folder printer o w names h1 p Hnot) as [Hrest _].
    destruct (for_each names _ h1) as [[h2 t2] r];
      unfold trace_of in *; cbn [fst snd] in *.
    rewrite submissions_app. lia.
Qed.

(** X4. In a cycle whose listing holds each name once (names as
    [os.listdir] gives them, without a leading slash), no file is submitted
    more than once, whether [lp] succeeds or fails. *)
Theorem cycle_submits_at_most_once (w : world) (folder printer : string)
    (o : options) (names : list string) (h : gmap string Z) (p : string) :
  listdir w folder = Ok names ->
  NoDup names ->
  Forall (fun n => Py.startswith n "/" = false) names ->
  (submissions p (trace_of (cycle w folder printer o h)) <= 1)%nat.
Proof.
  intros Hl Hnd Hall.
  destruct (cycle_of_scan folder printer o w names h Hl) as [_ ->].
  apply scan_submits_at_most_once. now apply joined_paths_distinct.
Qed.

Lemma cycle_submits_at_most_once_witness :
  (submissions "/w/a.pdf"
     (trace_of (cycle (two_pdfs 10 (ExitNonzero 1)) "/w" "Office" plain ∅))
   <= 1)%nat.
Proof.
  apply (cycle_submits_at_most_once (two_pdfs 10 (ExitNonzero 1)) "/w"
           "Office" plain ["a.pdf"; "b.pdf"] ∅ "/w/a.pdf").
  - reflexivity.
  - apply (bool_decide_unpack _). vm_compute. exact I.
  - repeat constructor.
Defined.

(** ** Where the records come from *)

Section Provenance.

Variables (folder printer : string) (o : options).

Local Abbreviation path_of name := (Py.path_join folder name).

Lemma scan_entry_provenance (w : world) (name : string) (h : gmap string Z)
    (p : string) (t : Z) :
  state_of (scan_entry w folder printer o name h) !! p = Some t ->
  h !! p = Some t \/
  (p = path_of name /\ isfile w p = true /\ is_pdf_value w p = true /\
   getmtime w p = Ok t /\ run w (print_pdf_cmd p printer o) = Exit0).
Proof.
  rewrite scan_entry_run. cbv zeta. unfold state_of.
  destruct (isfile w (path_of name)) eqn:Hf; cbn [negb fst snd]; auto.
  destruct (is_pdf_value w (path_of name)) eqn:Hp; cbn [negb fst snd]; auto.
  destruct (getmtime w (path_of name)) as [m|e] eqn:Hg; cbn [fst snd]; auto.
  destruct (should_print h (path_of name) m); cbn [fst snd]; auto.
  destruct (pre_try w (path_of name) printer o); cbn [fst snd]; auto.
  destruct (run w (print_pdf_cmd (path_of name) printer o)) eqn:Hrun;
    cbn [succeeded]; auto.
  destruct (decide (path_of name = p)) as [<-|Hne].
  - rewrite lookup_insert_eq. intros [= <-]. right. auto.
  - rewrite lookup_insert_ne by assumption. auto.
Qed.

Lemma scan_provenance (w : world) (names : list string) (h : gmap string Z)
    (p : string) (t : Z) :
  state_of (for_each names (scan_entry w folder printer o) h) !! p = Some t ->
  h !! p = Some t \/
  (exists name, name ∈ names /\ p = path_of name) /\
  isfile w p = true /\ is_pdf_value w p = true /\
  getmtime w p = Ok t /\ run w (print_pdf_cmd p printer o) = Exit0.
Proof.
  revert h; induction names as [|n names IH]; intros h; [auto|].
  rewrite for_each_cons.
  pose proof (scan_entry_provenance w n h p t) as H1.
  destruct (scan_entry w folder printer o n h) as [[h1 t1] [[]|e]];
    unfold state_of in *; cbn [fst snd] in *.
  - specialize (IH h1).
    destruct (for_each names _ h1) as [[h2 t2] r]; cbn [fst snd] in *.
    intros Hp. destruct (IH Hp) as [Hold|((name & Hin & Heq) & Hrest)].
    + destruct (H1 Hold) as [?|(Heq & Hrest)]; [auto|].
      right. split; [|assumption].
      exists n. split; [apply list_elem_of_here | assumption].
    + right. split; [|assumption].
      exists name. split; [now apply list_elem_of_further | assumption].
  - intros Hp. destruct (H1 Hp) as [?|(Heq & Hrest)]; [auto|].
    right. split; [|assumption].
    exists n. split; [apply list_elem_of_here | assumption].
Qed.

Lemma cycle_provenance (w : world) (h : gmap string Z) (p : string) (t : Z) :
  state_of (cycle w folder printer o h) !! p = Some t ->
  h !! p = Some t \/ recorded_in folder printer o w p t.
Proof.
  destruct (listdir w folder) as [names|e] eqn:Hl.
  - destruct (cycle_of_scan folder printer o w names h Hl) as [-> _].
    intros Hp.
    destruct (scan_provenance w names h p t Hp)
      as [?|((name & Hin & Heq) & Hrest)]; [auto|].
    right. split; [|assumption]. eauto.
  - rewrite cycle_run, Hl. auto.
Qed.

Lemma watch_loop_provenance (ws : list world) (h : gmap string Z)
    (p : string) (t : Z) :
  state_of (watch_loop ws folder printer o h) !! p = Some t ->
  h !! p = Some t \/ exists w, w ∈ ws /\ recorded_in folder printer o w p t.
Proof.
  revert h; induction ws as [|w ws IH]; intros h; [auto|].
  rewrite watch_loop_cons.
  change (state_of (?a, ?b, ?c)) with a.
  intros Hp. destruct (IH _ Hp) as [Hold|(w' & Hin & Hrec)].
  - destruct (cycle_provenance w h p t Hold) as [?|Hrec]; [auto|].
    right. exists w. split; [apply list_elem_of_here | assumption].
  - right. exists w'. split; [now apply list_elem_of_further | assumption].
Qed.

End Provenance.

Lemma watch_folder_state (ws : list world) (folder printer : string)
    (o : options) :
  state_of (watch_folder ws folder printer o)
    = state_of (watch_loop ws folder printer o ∅) /\
  trace_of (watch_folder ws folder printer o)
    = [EvLog INFO (MsgWatching folder); EvLog INFO MsgPressCtrlC]
        ++ trace_of (watch_loop ws folder printer o ∅) /\
  result_of (watch_folder ws folder printer o) = Ok tt.
Proof.
  unfold watch_folder, bind, log, emit.
  pose proof (watch_loop_result folder printer o ws ∅) as Hr.
  destruct (watch_loop ws folder printer o ∅) as [[h t] r];
    unfold result_of, state_of, trace_of in *; cbn [fst snd] in *.
  subst r. auto.
Qed.

(** X5. Every record [watch_folder] ends with comes from a cycle it ran: the
    path is a listed regular file of that cycle that passed the sniffer (so
    its name ends in [.pdf]), the recorded time is the modification time
    read in that cycle, and [lp] exited with status 0 for it in that cycle.
    Nothing is recorded for a file that was never printed. *)
Theorem watch_folder_records_printed_files (ws : list world)
    (folder printer : string) (o : options) (p : string) (t : Z) :
  state_of (watch_folder ws folder printer o) !! p = Some t ->
  exists w names name,
    w ∈ ws /\
    listdir w folder = Ok names /\ name ∈ names /\
    p = Py.path_join folder name /\
    isfile w p = true /\
    result_of (is_pdf w p (∅ : gmap string Z)) = Ok true /\
    Py.endswith (Py.lower p) ".pdf" = true /\
    getmtime w p = Ok t /\
    run w (print_pdf_cmd p printer o) = Exit0.
Proof.
  destruct (watch_folder_state ws folder printer o) as [-> _].
  intros Hp.
  destruct (watch_loop_provenance folder printer o ws ∅ p t Hp)
    as [Hempty|(w & Hin & ((names & name & Hl & Hn & Heq) & Hf & Hv & Hg & Hr))].
  { rewrite lookup_empty in Hempty. discriminate. }
  exists w, names, name. repeat split; try assumption.
  - now apply is_pdf_passes.
  - now apply is_pdf_value_name in Hv.
Qed.

Lemma watch_folder_records_printed_files_witness :
  exists w names name,
    w ∈ [only_a (ExitNonzero 1); only_a Exit0] /\
    listdir w "/w" = Ok names /\ name ∈ names /\
    "/w/a.pdf" = Py.path_join "/w" name /\
    isfile w "/w/a.pdf" = true /\
    result_of (is_pdf w "/w/a.pdf" (∅ : gmap string Z)) = Ok true /\
    Py.endswith (Py.lower "/w/a.pdf") ".pdf" = true /\
    getmtime w "/w/a.pdf" = Ok 10 /\
    run w (print_pdf_cmd "/w/a.pdf" "Office" plain) = Exit0.
Proof.
  apply (watch_folder_records_printed_files
           [only_a (ExitNonzero 1); only_a Exit0] "/w" "Office" plain
           "/w/a.pdf" 10).
  vm_compute. reflexivity.
Defined.

(** ** A second pass over an unchanged folder *)

Section Quiet.

Variables (folder printer : string) (o : options).

Local Abbreviation path_of name := (Py.path_join folder name).

Lemma settled_mono (w : world) (h h' : gmap string Z) (name : string) :
  (forall p t, h !! p = Some t -> exists t', h' !! p = Some t' /\ t <= t') ->
  settled w folder h name -> settled w folder h' name.
Proof.
  intros Hmono Hs Hf Hp m Hg. specialize (Hs Hf Hp m Hg).
  unfold should_print in *.
  destruct (h !! path_of name) as [t|] eqn:Hh; [|discriminate].
  destruct (Hmono _ _ Hh) as (t' & -> & Hle).
  apply Z.ltb_ge in Hs. apply Z.ltb_ge. lia.
Qed.

(** An entry that raises has changed no record and run no command. *)
Lemma scan_entry_raised (w : world) (name : string) (h : gmap string Z)
    (e : exn) :
  result_of (scan_entry w folder printer o name h) = Raise e ->
  state_of (scan_entry w folder printer o name h) = h /\
  List.filter is_run (trace_of (scan_entry w folder printer o name h)) = [].
Proof.
  rewrite scan_entry_run. cbv zeta. unfold state_of, trace_of, result_of.
  destruct (isfile w (path_of name)); cbn [negb fst snd]; [|discriminate].
  destruct (is_pdf_value w (path_of name)); cbn [negb fst snd];
    [|discriminate].
  destruct (getmtime w (path_of name)) as [m|e']; cbn [fst snd]; [|auto].
  destruct (should_print h (path_of name) m); cbn [fst snd]; [|discriminate].
  destruct (pre_try w (path_of name) printer o); cbn [fst snd];
    [discriminate | auto].
Qed.

(** When [lp] works, an entry that does not raise leaves nothing to print
    for its file. *)
Lemma scan_entry_settles (w : world) (name : string) (h : gmap string Z) :
  (forall cmd, run w cmd = Exit0) ->
  result_of (scan_entry w folder printer o name h) = Ok tt ->
  stat_fails w (path_of name) = false /\
  settled w folder (state_of (scan_entry w folder printer o name h)) name.
Proof.
  intros Hrun. rewrite scan_entry_run. cbv zeta.
  unfold stat_fails, settled, state_of, result_of.
  destruct (isfile w (path_of name)); cbn [negb fst snd andb];
    [|split; [reflexivity | discriminate]].
  destruct (is_pdf_value w (path_of name)); cbn [negb fst snd andb];
    [|split; [reflexivity | discriminate]].
  destruct (getmtime w (path_of name)) as [m|e]; cbn [fst snd];
    [|discriminate].
  destruct (should_print h (path_of name) m) eqn:Hsp; cbn [fst snd].
  - destruct (pre_try w (path_of name) printer o); cbn [fst snd];
      [|discriminate].
    intros _. split; [reflexivity|]. intros _ _ m' [= <-].
    rewrite Hrun. cbn [succeeded]. unfold should_print.
    rewrite lookup_insert_eq. apply Z.ltb_irrefl.
  - intros _. split; [reflexivity|]. now intros _ _ m' [= <-].
Qed.

(** An entry with nothing to print, whose [stat] does not raise, runs no
    command, changes no record and does not raise. *)
Lemma scan_entry_quiet (w : world) (name : string) (h : gmap string Z) :
  stat_fails w (path_of name) = false ->
  settled w folder h name ->
  state_of (scan_entry w folder printer o name h) = h /\
  List.filter is_run (trace_of (scan_entry w folder printer o name h)) = [] /\
  result_of (scan_entry w folder printer o name h) = Ok tt.
Proof.
  rewrite scan_entry_run. cbv zeta.
  unfold stat_fails, settled, state_of, trace_of, result_of.
  destruct (isfile w (path_of name)); cbn [negb fst snd andb]; [|auto].
  destruct (is_pdf_value w (path_of name)); cbn [negb fst snd andb].
  2: { intros _ _. unfold is_pdf_trace. destruct (Py.endswith _ _); auto. }
  destruct (getmtime w (path_of name)) as [m|e]; cbn [fst snd];
    [|discriminate].
  intros _ Hn. rewrite (Hn eq_refl eq_refl m eq_refl). cbn [fst snd]. auto.
Qed.

(** When [lp] works, a second scan from the records the first one left runs
    no command and changes no record. *)
Lemma scan_twice_quiet (w : world) (names : list string) (h : gmap string Z) :
  (forall cmd, run w cmd = Exit0) ->
  forall h2,
    (forall p t,
       state_of (for_each names (scan_entry w folder printer o) h) !! p
         = Some t ->
       exists t', h2 !! p = Some t' /\ t <= t') ->
    (result_of (for_each names (scan_entry w folder printer o) h) <> Ok tt ->
     h2 = state_of (for_each names (scan_entry w folder printer o) h)) ->
    state_of (for_each names (scan_entry w folder printer o) h2) = h2 /\
    List.filter is_run
      (trace_of (for_each names (scan_entry w folder printer o) h2)) = [].
Proof.
  intros Hrun. revert h; induction names as [|n names IH]; intros h h2;
    [auto|].
  rewrite !for_each_cons.
  destruct (scan_entry w folder printer o n h) as [[ha ta] [[]|e]] eqn:Hfirst.
  - (* the entry went through: its file is settled from here on *)
    pose proof (scan_entry_settles w n h Hrun) as Hs.
    rewrite Hfirst in Hs. unfold result_of, state_of in Hs; cbn [fst snd] in Hs.
    destruct (Hs eq_refl) as [Hsf Hset]. clear Hs.
    pose proof (scan_mono folder printer o w names ha) as Hmono.
    specialize (IH ha h2).
    destruct (for_each names (scan_entry w folder printer o) ha)
      as [[hb tb] rb] eqn:Hrest.
    unfold state_of, trace_of, result_of in *; cbn [fst snd] in *.
    intros Habove Hstop.
    assert (Hset2 : settled w folder h2 n).
    { apply (settled_mono w ha h2 n); [|assumption].
      intros p t Hp. destruct (Hmono p t Hp) as (t1 & Ht1 & Hle1).
      destruct (Habove p t1 Ht1) as (t2 & Ht2 & Hle2).
      exists t2. split; [assumption | lia]. }
    destruct (scan_entry_quiet w n h2 Hsf Hset2) as (Hst & Hno & Hr).
    destruct (scan_entry w folder printer o n h2) as [[hc tc] rc];
      unfold state_of, trace_of, result_of in *; cbn [fst snd] in *.
    subst hc rc.
    destruct (IH Habove Hstop) as [Hst2 Hno2].
    destruct (for_each names (scan_entry w folder printer o) h2)
      as [[hd td] rd]; cbn [fst snd] in *.
    split; [assumption|]. now rewrite List.filter_app, Hno, Hno2.
  - (* the entry raised: the second scan starts from the same records and
       stops at the same entry *)
    pose proof (scan_entry_raised w n h e) as Hraised.
    rewrite Hfirst in Hraised.
    unfold state_of, trace_of, result_of in *; cbn [fst snd] in *.
    destruct (Hraised eq_refl) as [-> Hno].
    intros _ Hstop. rewrite (Hstop ltac:(discriminate)), Hfirst.
    cbn [fst snd]. auto.
Qed.

End Quiet.

(** X6. When [lp] works, a cycle leaves nothing to do: a second cycle over
    the same, unchanged world runs no command at all and leaves every
    record as it is, also when the scan is cut short by an error. *)
Theorem unchanged_folder_second_pass_is_quiet (w : world)
    (folder printer : string) (o : options) (h : gmap string Z) :
  (forall cmd, run w cmd = Exit0) ->
  List.filter is_run
    (trace_of (cycle w folder printer o
                 (state_of (cycle w folder printer o h)))) = [] /\
  state_of (cycle w folder printer o (state_of (cycle w folder printer o h)))
    = state_of (cycle w folder printer o h).
Proof.
  intros Hrun. rewrite !cycle_run.
  destruct (listdir w folder) as [names|e]; [|auto].
  pose proof (scan_twice_quiet folder printer o w names h Hrun) as Hs.
  destruct (for_each names (scan_entry w folder printer o) h)
    as [[h1 t1] r1]; unfold state_of, result_of in Hs; cbn [fst snd] in Hs.
  assert (Hh1 : state_of (match r1 with
                          | Ok _ => (h1, t1 ++ [EvSleep 5], Ok tt)
                          | Raise e =>
                              (h1, t1 ++ [EvLog WARNING (MsgScanError e);
                                          EvSleep 5], Ok tt)
                          end) = h1) by (destruct r1; reflexivity).
  rewrite Hh1.
  destruct (Hs h1) as [Hst Hno]; [intros p t Hp; exists t; auto with lia | auto |].
  destruct (for_each names (scan_entry w folder printer o) h1)
    as [[h2 t2] [[]|e]]; unfold state_of, trace_of in *; cbn [fst snd] in *;
    (split; [|assumption]); now rewrite List.filter_app, Hno.
Qed.

Lemma unchanged_folder_second_pass_is_quiet_witness :
  List.filter is_run
    (trace_of (cycle (b_vanishes 10 Exit0) "/w" "Office" plain
                 (state_of (cycle (b_vanishes 10 Exit0) "/w" "Office"
                              plain ∅)))) = [] /\
  state_of (cycle (b_vanishes 10 Exit0) "/w" "Office" plain
              (state_of (cycle (b_vanishes 10 Exit0) "/w" "Office" plain ∅)))
    = state_of (cycle (b_vanishes 10 Exit0) "/w" "Office" plain ∅).
Proof.
  apply (unchanged_folder_second_pass_is_quiet (b_vanishes 10 Exit0) "/w"
           "Office" plain ∅).
  reflexivity.
Defined.

(** ** After a restart *)

(** X7. [watch_folder] starts from an empty history and logs its two
    banner lines first; so in its first cycle every regular PDF file the scan
    reaches (for no earlier entry does the [stat] raise, or would
    [print_pdf] raise before it runs [lp]) and for which [print_pdf] does
    not raise before it runs [lp] is submitted, whatever its modification
    time: files printed by an earlier run of the script are printed
    again. *)
Theorem watch_folder_prints_everything_first (w : world) (ws : list world)
    (folder printer : string) (o : options)
    (pre : list string) (name : string) (post : list string) (m : Z) :
  listdir w folder = Ok (pre ++ name :: post) ->
  Forall (fun n => stat_fails w (Py.path_join folder n) = false /\
                   print_raises w printer o (Py.path_join folder n) = false)
    pre ->
  isfile w (Py.path_join folder name) = true ->
  result_of (is_pdf w (Py.path_join folder name) (∅ : gmap string Z))
    = Ok true ->
  getmtime w (Py.path_join folder name) = Ok m ->
  print_raises w printer o (Py.path_join folder name) = false ->
  exists t,
    trace_of (watch_folder (w :: ws) folder printer o) =
      [EvLog INFO (MsgWatching folder); EvLog INFO MsgPressCtrlC]
        ++ trace_of (cycle w folder printer o ∅) ++ t /\
    (1 <= submissions (Py.path_join folder name)
            (trace_of (cycle w folder printer o ∅)))%nat.
Proof.
  intros Hl Hpre Hf Hp%is_pdf_passes Hg Hpr.
  destruct (watch_folder_state (w :: ws) folder printer o) as (_ & -> & _).
  rewrite watch_loop_cons. unfold trace_of at 1; cbn [fst snd].
  eexists. split; [reflexivity|].
  apply (cycle_reaches folder printer o w pre name post ∅ m); auto.
Qed.

Lemma watch_folder_prints_everything_first_witness :
  exists t,
    trace_of (watch_folder [two_pdfs 10 Exit0] "/w" "Office" plain) =
      [EvLog INFO (MsgWatching "/w"); EvLog INFO MsgPressCtrlC]
        ++ trace_of (cycle (two_pdfs 10 Exit0) "/w" "Office" plain ∅) ++ t /\
    (1 <= submissions "/w/b.pdf"
            (trace_of (cycle (two_pdfs 10 Exit0) "/w" "Office" plain ∅)))%nat.
Proof.
  apply (watch_folder_prints_everything_first (two_pdfs 10 Exit0) [] "/w"
           "Office" plain ["a.pdf"] "b.pdf" [] 10).
  - reflexivity.
  - repeat constructor.
  - reflexivity.
  - reflexivity.
  - reflexivity.
  - reflexivity.
Defined.

(** ** The prompts: end of input, and the command they lead to *)






(** X9. For options that [get_print_options] returned, the truth tests of
    [print_pdf] never drop a value: the copy count is not 0, a duplex mode
    or a media is never the empty string. The command therefore has [-n]
    exactly when the count is not 1, [sides=] exactly when a mode was
    chosen, [media=] exactly when a paper size was typed, [-P] exactly when
    page ranges were typed. *)
Theorem prompted_options_reach_the_command (lines rest : list string)
    (t : list event) (opts : options) (path printer : string) :
  get_print_options lines = (rest, t, Ok opts) ->
  copies opts <> 0 /\ duplex opts <> Some "" /\ media opts <> Some "" /\
  print_pdf_cmd path printer opts =
    ["lp"; "-d"; printer]
      ++ (if copies opts =? 1 then [] else ["-n"; Py.str (copies opts)])
      ++ (if String.eqb (pages opts) "" then [] else ["-P"; pages opts])
      ++ match duplex opts with
         | Some d => ["-o"; String.append "sides=" d]
         | None => []
         end
      ++ (if fit opts then ["-o"; "fit-to-page"] else [])
      ++ match media opts with
         | Some m => ["-o"; String.append "media=" m]
         | None => []
         end
      ++ [path].
Proof.
  intros Hrun.
  apply get_print_options_inv in Hrun
    as (pg & badc & goodc & badd & goodd & ft & md &
        _ & _ & Hgc & _ & Hgd & _ & _ & Hmd & _).
  destruct (copies_answer_positive goodc _ Hgc) as (Hpos & _ & _).
  destruct (duplex_answer_mode goodd _ Hgd) as (_ & Hmode).
  assert (Hd : duplex opts <> Some "").
  { destruct Hmode as [->|(mode & Hin & ->)]; [discriminate|].
    intros [= ->]. unfold duplex_modes in Hin.
    repeat (apply elem_of_cons in Hin as [Hin|Hin]; [discriminate|]).
    now apply elem_of_nil in Hin. }
  assert (Hm : media opts <> Some "").
  { rewrite Hmd. destruct (Py.strip md); simpl; discriminate. }
  repeat split; try assumption; [lia|].
  destruct opts as [pg' c d f m]; cbn [copies duplex media pages fit] in *.
  unfold print_pdf_cmd; cbn [copies duplex media pages fit].
  assert (Hc0 : (c =? 0) = false) by (apply Z.eqb_neq; lia).
  rewrite Hc0. cbn [negb andb].
  destruct (c =? 1); cbn [negb];
    destruct pg' as [|? ?]; cbn [Py.truthy String.eqb];
    destruct d as [[|? ?]|]; try congruence; cbn [Py.truthy];
    destruct f; destruct m as [[|? ?]|]; try congruence; cbn [Py.truthy];
    reflexivity.
Qed.

Lemma prompted_options_reach_the_command_witness :
  print_pdf_cmd "/w/a.pdf" "Office"
    (Options "1-2" 3 (Some "two-sided-long-edge") true (Some "A4")) =
  ["lp"; "-d"; "Office"; "-n"; "3"; "-P"; "1-2";
   "-o"; "sides=two-sided-long-edge"; "-o"; "fit-to-page";
   "-o"; "media=A4"; "/w/a.pdf"].
Proof.
  refine (proj2 (proj2 (proj2
    (prompted_options_reach_the_command
       ["1-2"; "x"; " 3 "; "9"; "2"; "Y"; "A4"] []
       _ (Options "1-2" 3 (Some "two-sided-long-edge") true (Some "A4"))
       "/w/a.pdf" "Office" _)))).
  vm_compute. reflexivity.
Defined.

(** ** Choosing the printer *)

Lemma printer_menu_run {S} (default : option string) (printers : list string)
    (start : Z) (s : S) :
  p_for_each (enumerate start printers)
    (fun ip =>
       let tag := if is_default (snd ip) default then " (default)" else "" in
       p_emit (Core (EvPrint
         (String.append (Py.str (fst ip))
            (String.append ". " (String.append (snd ip) tag)))))) s
  = (s, printer_menu default start printers, Returned tt).
Proof.
  revert start; induction printers as [|p printers IH]; intros start;
    [reflexivity|].
  cbn [enumerate p_for_each printer_menu]. unfold p_bind at 1.
  cbn [p_emit fst snd]. now rewrite IH.
Qed.


Lemma choose_printer_run (p0 : string) (printers : list string)
    (default : option string) (lines : list string) :
  choose_printer (p0 :: printers) default lines =
    (p_state_of (choose_loop (p0 :: printers) lines),
     StartupLog INFO MsgAvailablePrinters
       :: printer_menu default 1 (p0 :: printers)
       ++ p_trace_of (choose_loop (p0 :: printers) lines),
     p_outcome_of (choose_loop (p0 :: printers) lines)).
Proof.
  unfold choose_printer. unfold p_bind at 1. cbn [p_log p_emit].
  unfold p_bind at 1. rewrite printer_menu_run.
  destruct (choose_loop (p0 :: printers) lines) as [[s t] r]. reflexivity.
Qed.



(** The four endings, one input each. *)
Example choose_printer_four_endings :
  p_outcome_of (choose_printer ["HP"; "Brother"] None ["7"; "2"; "x"])
    = Returned "Brother" /\
  p_outcome_of (choose_printer ["HP"; "Brother"] None ["7"; "x"])
    = Raised (Exn "EOFError") /\
  choose_loop ["HP"; "Brother"] ["7"; String "178" ""; "2"]
    = (["2"],
       [Core (EvInput (choose_prompt ["HP"; "Brother"]));
        StartupLog WARNING MsgInvalidSelection;
        Core (EvInput (choose_prompt ["HP"; "Brother"]))],
       Raised (Exn "ValueError")) /\
  p_outcome_of (choose_printer [] None ["1"]) = Exited 1.
Proof. repeat split; vm_compute; reflexivity. Qed.

(** X11. The default printer is shown in the menu and nothing more: it has
    no part in what [choose_printer] returns or in the lines it consumes,
    and a blank line does not select it. A blank line is rejected like any
    other invalid answer, so the result is that of the lines after it. *)
Theorem default_printer_is_only_shown (printers : list string)
    (default default' : option string) (l : string) (lines : list string) :
  (p_outcome_of (choose_printer printers default lines)
     = p_outcome_of (choose_printer printers default' lines) /\
   p_state_of (choose_printer printers default lines)
     = p_state_of (choose_printer printers default' lines)) /\
  (Py.strip l = "" -> printers <> [] ->
   p_outcome_of (choose_printer printers default (l :: lines))
     = p_outcome_of (choose_printer printers default lines) /\
   p_state_of (choose_printer printers default (l :: lines))
     = p_state_of (choose_printer printers default lines) /\
   In (StartupLog WARNING MsgInvalidSelection)
      (p_trace_of (choose_printer printers default (l :: lines)))).
Proof.
  destruct printers as [|p0 printers]; [split; [auto | congruence]|].
  rewrite !choose_printer_run. split; [auto|].
  intros Hblank _. cbn [choose_loop]. cbv zeta. rewrite Hblank.
  cbn [Py.isdigit andb].
  destruct (choose_loop (p0 :: printers) lines) as [[s t] r].
  unfold p_outcome_of, p_state_of, p_trace_of; cbn [fst snd].
  repeat split. right. apply in_or_app. right. right. left. reflexivity.
Qed.

Lemma default_printer_is_only_shown_witness :
  p_outcome_of (choose_printer ["HP"; "Brother"] (Some "HP") [" "; "2"])
    = Returned "Brother" /\
  p_outcome_of (choose_printer ["HP"; "Brother"] (Some "HP") ["2"])
    = Returned "Brother".
Proof.
  pose proof (proj2 (default_printer_is_only_shown ["HP"; "Brother"]
                       (Some "HP") None " " ["2"])) as H.
  destruct H as (Hout & _ & _).
  - reflexivity.
  - discriminate.
  - split; [rewrite Hout|]; reflexivity.
Defined.

(** ** Finding the printers *)

Lemma is_word_snoc (s : string) (c : ascii) :
  is_word s = true -> Py.isspace c = false ->
  is_word (String.append s (String c EmptyString)) = true.
Proof.
  intros Hs Hc. induction s as [|a s IH]; simpl in *.
  - now rewrite Hc.
  - apply andb_true_iff in Hs as [Ha Hs]. rewrite Ha. now apply IH.
Qed.

Lemma append_nonempty (s : string) (c : ascii) :
  String.append s (String c EmptyString) <> "".
Proof. destruct s; discriminate. Qed.

(** [split()] gives words: not empty, no white space inside. *)
Lemma split_from_words (cur s : string) :
  is_word cur = true ->
  Forall (fun x => x <> "" /\ is_word x = true) (PyText.split_from cur s).
Proof.
  revert cur; induction s as [|c r IH]; intros cur Hcur;
    cbn [PyText.split_from].
  - destruct cur; [constructor|].
    constructor; [split; [discriminate | assumption] | constructor].
  - destruct (Py.isspace c) eqn:Hc.
    + destruct cur as [|a cur'].
      * now apply IH.
      * constructor; [split; [discriminate | assumption] | now apply IH].
    + apply IH. now apply is_word_snoc.
Qed.

Lemma split1_from_two (c : ascii) (cur s : string) :
  PyText.contains c s = true ->
  exists a b, PyText.split1_from c cur s = [a; b].
Proof.
  revert cur; induction s as [|c' r IH]; intros cur; simpl; [discriminate|].
  destruct (Ascii.eqb c' c); simpl; eauto.
Qed.

(** The [for line in out.splitlines()] loop logs nothing, does not fail,
    keeps the default, and adds only second words of lines whose first word
    is [printer]. *)
Lemma printer_lines_run (lines : list string) (st : found) :
  exists st',
    p_for_each lines printer_of_line st = (st', [], Returned tt) /\
    default_printer st' = default_printer st /\
    forall p, p ∈ printers st' ->
      p ∈ printers st \/
      exists line rest,
        line ∈ lines /\ PyText.split line = "printer" :: p :: rest.
Proof.
  revert st; induction lines as [|line lines IH]; intros st.
  - exists st. auto.
  - cbn [p_for_each]. unfold p_bind at 1.
    assert (Hline : exists st1,
              printer_of_line line st = (st1, [], Returned tt) /\
              default_printer st1 = default_printer st /\
              forall p, p ∈ printers st1 ->
                p ∈ printers st \/
                exists rest, PyText.split line = "printer" :: p :: rest).
    { unfold printer_of_line. cbv zeta.
      destruct (PyText.split line) as [|p0 [|p1 rest]]; [eauto | eauto |].
      destruct (String.eqb_spec p0 "printer") as [->|Hne]; [|eauto].
      eexists. split; [reflexivity|]. split; [reflexivity|].
      cbn [printers]. intros p [Hin|Hin]%elem_of_app; [auto|].
      apply list_elem_of_singleton in Hin as ->. eauto. }
    destruct Hline as (st1 & -> & Hd1 & Hp1).
    destruct (IH st1) as (st2 & -> & Hd2 & Hp2).
    exists st2. split; [reflexivity|]. split; [congruence|].
    intros p Hin. destruct (Hp2 p Hin) as [Hin1|(l & rest & Hl & Hs)].
    + destruct (Hp1 p Hin1) as [?|(rest & Hs)]; [auto|].
      right. exists line, rest. split; [apply list_elem_of_here | assumption].
    + right. exists l, rest.
      split; [now apply list_elem_of_further | assumption].
Qed.

Lemma run_check_output_run {S} (sys : printing_system) (cmd : list string)
    (s : S) :
  run_check_output sys cmd s
    = (s, [Core (EvRun cmd)], outcome_of_result (check_output sys cmd)).
Proof.
  unfold run_check_output, p_bind, p_emit, from_core, lift.
  destruct (check_output sys cmd); reflexivity.
Qed.

(** [list_printers], by the two answers of [lpstat]. *)
Lemma list_printers_run {S} (sys : printing_system) (s : S) :
  exists f,
    list_printers sys s =
      (s,
       Core (EvRun ["lpstat"; "-p"])
         :: match check_output sys ["lpstat"; "-p"] with
            | Ok _ => []
            | Raise e => [StartupLog ERROR (MsgListFailed e)]
            end
         ++ [Core (EvRun ["lpstat"; "-d"])],
       Returned f) /\
    (forall e, check_output sys ["lpstat"; "-p"] = Raise e -> printers f = []) /\
    (forall p, p ∈ printers f ->
       exists out line rest,
         check_output sys ["lpstat"; "-p"] = Ok out /\
         line ∈ PyText.splitlines out /\
         PyText.split line = "printer" :: p :: rest) /\
    default_printer f =
      match check_output sys ["lpstat"; "-d"] with
      | Ok out =>
          if PyText.contains ":" (Py.strip out)
          then option_map Py.strip (PyText.split1 ":" (Py.strip out) !! 1%nat)
          else None
      | Raise _ => None
      end.
Proof.
  unfold list_printers, list_printers_body.
  unfold p_bind at 1. unfold p_try_except at 1. unfold p_bind at 1.
  rewrite run_check_output_run.
  assert (Hsecond : forall st : found, exists st',
    p_try_except
      (let+ d_out := run_check_output sys ["lpstat"; "-d"] in
       if PyText.contains ":" (Py.strip d_out)
       then match PyText.split1 ":" (Py.strip d_out) !! 1%nat with
            | Some name => set_default (Py.strip name)
            | None => from_core (lift (Raise (Exn "IndexError")))
            end
       else p_ret tt)
      (fun _ => p_ret tt) st
    = (st', [Core (EvRun ["lpstat"; "-d"])], Returned tt) /\
    printers st' = printers st /\
    default_printer st' =
      match check_output sys ["lpstat"; "-d"] with
      | Ok out =>
          if PyText.contains ":" (Py.strip out)
          then option_map Py.strip (PyText.split1 ":" (Py.strip out) !! 1%nat)
          else default_printer st
      | Raise _ => default_printer st
      end).
  { intros st. unfold p_try_except, p_bind. rewrite run_check_output_run.
    destruct (check_output sys ["lpstat"; "-d"]) as [out|e];
      cbn [outcome_of_result].
    2: { exists st. auto. }
    destruct (PyText.contains ":" (Py.strip out)) eqn:Hc.
    2: { exists st. auto. }
    destruct (split1_from_two ":" EmptyString (Py.strip out) Hc)
      as (a & b & Hsplit).
    unfold PyText.split1. rewrite Hsplit. cbn [lookup list_lookup].
    eexists. split; [reflexivity|]. auto. }
  destruct (check_output sys ["lpstat"; "-p"]) as [out|e];
    cbn [outcome_of_result].
  - destruct (printer_lines_run (PyText.splitlines out) (Found [] None))
      as (st1 & -> & Hd1 & Hp1).
    destruct (Hsecond st1) as (st2 & -> & Hp2 & Hd2).
    exists st2. split; [reflexivity|]. split; [discriminate|]. split.
    + intros p Hin. rewrite Hp2 in Hin.
      destruct (Hp1 p Hin) as [Hnil|(line & rest & Hl & Hs)].
      * cbn [printers] in Hnil. now apply elem_of_nil in Hnil.
      * exists out, line, rest. auto.
    + rewrite Hd2, Hd1. cbn [default_printer].
      destruct (check_output sys ["lpstat"; "-d"]) as [d|?]; [|reflexivity].
      destruct (PyText.contains ":" (Py.strip d)); reflexivity.
  - unfold p_err, p_emit.
    destruct (Hsecond (Found [] None)) as (st2 & -> & Hp2 & Hd2).
    exists st2. split; [reflexivity|]. split; [auto|]. split.
    + intros p Hin. rewrite Hp2 in Hin. cbn [printers] in Hin.
      now apply elem_of_nil in Hin.
    + rewrite Hd2. cbn [default_printer].
      destruct (check_output sys ["lpstat"; "-d"]) as [d|?]; [|reflexivity].
      destruct (PyText.contains ":" (Py.strip d)); reflexivity.
Qed.

(** X12. [list_printers] always returns: it runs both [lpstat -p] and
    [lpstat -d], whatever the first one did. When [lpstat -p] fails the
    list is empty and one error line is logged; when [lpstat -d] fails, or
    its answer has no colon, there is no default and nothing is logged for
    it; a default is found exactly when the answer has a colon. *)
Theorem list_printers_always_returns {S} (sys : printing_system) (s : S) :
  exists t f,
    list_printers sys s = (s, t, Returned f) /\
    List.filter is_command t
      = [Core (EvRun ["lpstat"; "-p"]); Core (EvRun ["lpstat"; "-d"])] /\
    (forall e, check_output sys ["lpstat"; "-p"] = Raise e ->
       printers f = [] /\
       t = [Core (EvRun ["lpstat"; "-p"]);
            StartupLog ERROR (MsgListFailed e);
            Core (EvRun ["lpstat"; "-d"])]) /\
    (forall out, check_output sys ["lpstat"; "-p"] = Ok out ->
       t = [Core (EvRun ["lpstat"; "-p"]); Core (EvRun ["lpstat"; "-d"])]) /\
    (forall e, check_output sys ["lpstat"; "-d"] = Raise e ->
       default_printer f = None) /\
    (forall out, check_output sys ["lpstat"; "-d"] = Ok out ->
       (PyText.contains ":" (Py.strip out) = true <->
        exists name, default_printer f = Some name)).
Proof.
  destruct (list_printers_run sys s) as (f & Hrun & Hfail & _ & Hd).
  eexists. exists f. split; [exact Hrun|].
  split; [destruct (check_output sys ["lpstat"; "-p"]); reflexivity|].
  split; [intros e He; split; [eauto | now rewrite He]|].
  split; [intros out Ho; now rewrite Ho|].
  split; [intros e He; now rewrite Hd, He|].
  intros out Ho. rewrite Hd, Ho.
  destruct (PyText.contains ":" (Py.strip out)) eqn:Hc.
  - destruct (split1_from_two ":" EmptyString (Py.strip out) Hc)
      as (a & b & Hsplit).
    unfold PyText.split1. rewrite Hsplit. simpl. split; eauto.
  - split; [discriminate | intros [? ?]; discriminate].
Qed.

Lemma list_printers_always_returns_witness :
  exists t f,
    list_printers (lpstat_answers (Raise (Exn "FileNotFoundError"))
                     (Ok "system default destination: HP")) tt
      = (tt, t, Returned f) /\
    printers f = [] /\ default_printer f = Some "HP".
Proof.
  destruct (list_printers_always_returns
              (lpstat_answers (Raise (Exn "FileNotFoundError"))
                 (Ok "system default destination: HP")) tt)
    as (t & f & Hrun & _ & Hp & _).
  exists t, f. split; [exact Hrun|].
  split; [apply (Hp (Exn "FileNotFoundError")); reflexivity|].
  revert Hrun. vm_compute. now intros [= <- <-].
Defined.

(** X13. Every printer name [list_printers] returns is the second word of a
    line of the [lpstat -p] answer whose first word is [printer]; it is not
    empty and holds no white space. *)
Theorem listed_printers_are_words {S} (sys : printing_system) (s s' : S)
    (t : list startup_event) (f : found) (p : string) :
  list_printers sys s = (s', t, Returned f) ->
  p ∈ printers f ->
  p <> "" /\ is_word p = true /\
  exists out line rest,
    check_output sys ["lpstat"; "-p"] = Ok out /\
    line ∈ PyText.splitlines out /\
    PyText.split line = "printer" :: p :: rest.
Proof.
  intros Hrun Hin.
  destruct (list_printers_run sys s) as (f' & Hrun' & _ & Hwords & _).
  rewrite Hrun in Hrun'. injection Hrun' as _ _ <-.
  destruct (Hwords p Hin) as (out & line & rest & Ho & Hl & Hs).
  assert (Hw : Forall (fun x => x <> "" /\ is_word x = true)
                 (PyText.split line)).
  { apply split_from_words. reflexivity. }
  rewrite Hs in Hw. apply Forall_cons in Hw as [_ Hw].
  apply Forall_cons in Hw as [[Hne Hword] _].
  repeat split; try assumption. eauto.
Qed.

Lemma listed_printers_are_words_witness :
  "Brother" <> "" /\ is_word "Brother" = true /\
  exists out line rest,
    check_output
      (lpstat_answers (Ok "printer HP is idle.
scheduler is running
printer  Brother  disabled") (Raise (Exn "none")))
      ["lpstat"; "-p"] = Ok out /\
    line ∈ PyText.splitlines out /\
    PyText.split line = "printer" :: "Brother" :: rest.
Proof.
  apply (listed_printers_are_words
           (lpstat_answers (Ok "printer HP is idle.
scheduler is running
printer  Brother  disabled") (Raise (Exn "none")))
           tt tt
           [Core (EvRun ["lpstat"; "-p"]); Core (EvRun ["lpstat"; "-d"])]
           (Found ["HP"; "Brother"] None) "Brother").
  - vm_compute. reflexivity.
  - apply list_elem_of_further, list_elem_of_here.
Defined.

(** ** The main block *)







(** [main], by what the choice of the printer and the prompts do. *)
Lemma main_run (sys : printing_system) (ws : list world) (folder : string)
    (lines : list string) :
  exists t0 f,
    list_printers sys lines = (lines, t0, Returned f) /\
    main sys ws folder lines =
      match choose_printer (printers f) (default_printer f) lines with
      | (l1, t1, Returned printer) =>
          match get_print_options l1 with
          | (l2, t2, Ok o) =>
              (l2,
               t0 ++ t1 ++ map Core t2
                  ++ map Core (trace_of (watch_folder ws folder printer o))
                  ++ [StartupLog INFO MsgStopping],
               Exited 0)
          | (l2, t2, Raise e) => (l2, t0 ++ t1 ++ map Core t2, Raised e)
          end
      | (l1, t1, Raised e) => (l1, t0 ++ t1, Raised e)
      | (l1, t1, Exited code) => (l1, t0 ++ t1, Exited code)
      end.
Proof.
  destruct (list_printers_run sys lines) as (f & Hrun & _).
  eexists. exists f. split; [exact Hrun|].
  unfold main. unfold p_bind at 1. rewrite Hrun.
  unfold p_bind at 1.
  destruct (choose_printer (printers f) (default_printer f) lines)
    as [[l1 t1] [printer|e|code]]; try reflexivity.
  unfold p_bind at 1. unfold from_core.
  destruct (get_print_options l1) as [[l2 t2] [o|e]];
    cbn [outcome_of_result]; [|reflexivity].
  destruct (watch_folder_state ws folder printer o) as (_ & _ & Hr).
  destruct (watch_folder ws folder printer o) as [[h3 t3] r3].
  unfold result_of, trace_of in *; cbn [fst snd] in *. subst r3.
  reflexivity.
Qed.

(** X14. When no printer is found, [main] stops with exit status 1 right
    after the error line: no line of input is read, no prompt is shown and
    no [lp] command is run. This is the case whenever [lpstat -p] fails. *)
Theorem main_exits_without_printers (sys : printing_system) (ws : list world)
    (folder : string) (lines : list string) :
  (forall t0 f,
     list_printers sys lines = (lines, t0, Returned f) ->
     printers f = [] ->
     main sys ws folder lines
       = (lines, t0 ++ [StartupLog ERROR MsgNoPrinters], Exited 1)) /\
  (forall e,
     check_output sys ["lpstat"; "-p"] = Raise e ->
     main sys ws folder lines =
       (lines,
        [Core (EvRun ["lpstat"; "-p"]); StartupLog ERROR (MsgListFailed e);
         Core (EvRun ["lpstat"; "-d"]); StartupLog ERROR MsgNoPrinters],
        Exited 1)).
Proof.
  destruct (main_run sys ws folder lines) as (t0 & f & Hrun & Hmain).
  split.
  - intros t0' f' Hrun' Hnil. rewrite Hrun in Hrun'.
    injection Hrun' as <- <-. rewrite Hmain, Hnil. reflexivity.
  - intros e He.
    destruct (list_printers_run sys lines) as (f' & Hrun' & Hfail & _).
    rewrite Hrun in Hrun'. rewrite He in Hrun'.
    injection Hrun' as -> <-.
    rewrite Hmain, (Hfail e He). reflexivity.
Qed.

Lemma main_exits_without_printers_witness :
  main (lpstat_answers (Raise (Exn "FileNotFoundError")) (Ok "x: HP"))
    [two_pdfs 10 Exit0] "/w" ["1"; ""; ""; ""; ""; ""] =
  (["1"; ""; ""; ""; ""; ""],
   [Core (EvRun ["lpstat"; "-p"]);
    StartupLog ERROR (MsgListFailed (Exn "FileNotFoundError"));
    Core (EvRun ["lpstat"; "-d"]); StartupLog ERROR MsgNoPrinters],
   Exited 1).
Proof.
  apply (proj2 (main_exits_without_printers
                  (lpstat_answers (Raise (Exn "FileNotFoundError"))
                     (Ok "x: HP"))
                  [two_pdfs 10 Exit0] "/w" ["1"; ""; ""; ""; ""; ""])
           (Exn "FileNotFoundError")).
  reflexivity.
Defined.


(** The four endings, one input each. *)
Example main_four_endings :
  let sys := lpstat_answers (Ok "printer HP is idle.") (Ok "x: HP") in
  p_outcome_of (main sys [two_pdfs 10 Exit0] "/w" ["1"; ""; ""; ""; ""; ""])
    = Exited 0 /\
  p_outcome_of (main (lpstat_answers (Ok "") (Ok "")) [two_pdfs 10 Exit0] "/w"
                  ["1"; ""; ""; ""; ""; ""]) = Exited 1 /\
  p_outcome_of (main sys [two_pdfs 10 Exit0] "/w" ["1"; ""; ""])
    = Raised (Exn "EOFError") /\
  p_outcome_of (main sys [two_pdfs 10 Exit0] "/w"
                  ["1"; ""; String "178" ""; ""; ""; ""])
    = Raised (Exn "ValueError").
Proof. repeat split; vm_compute; reflexivity. Qed.

(** ** Numbers and lines read back *)

Lemma int_digits_of_uint_acc (d : Decimal.uint) (acc : positive) :
  Py.int_digits (Z.pos acc) (NilEmpty.string_of_uint d)
    = Z.pos (Pos.of_uint_acc d acc).
Proof.
  revert acc; induction d as [|d IH|d IH|d IH|d IH|d IH|d IH|d IH|d IH|d IH|d IH];
    intros acc; [reflexivity|..];
    cbn [NilEmpty.string_of_uint Py.int_digits Pos.of_uint_acc];
    rewrite <- IH; f_equal;
    match goal with
    | |- context [Z.of_nat (nat_of_ascii ?c)] =>
        let v := eval vm_compute in (Z.of_nat (nat_of_ascii c)) in
        change (Z.of_nat (nat_of_ascii c)) with v
    end; lia.
Qed.

Lemma int_digits_of_uint (d : Decimal.uint) :
  Py.int_digits 0 (NilEmpty.string_of_uint d) = Z.of_N (Pos.of_uint d).
Proof.
  induction d as [|d IH|d IH|d IH|d IH|d IH|d IH|d IH|d IH|d IH|d IH];
    [reflexivity|..];
    cbn [NilEmpty.string_of_uint Py.int_digits Pos.of_uint]; [exact IH|..];
    apply (int_digits_of_uint_acc d).
Qed.

Lemma all_decimal_of_uint (d : Decimal.uint) :
  Py.all_decimal (NilEmpty.string_of_uint d) = true.
Proof.
  induction d as [|d IH|d IH|d IH|d IH|d IH|d IH|d IH|d IH|d IH|d IH];
    [reflexivity|..];
    cbn [NilEmpty.string_of_uint Py.all_decimal]; rewrite IH; reflexivity.
Qed.

Lemma all_decimal_digits (s : string) :
  Py.all_decimal s = true -> Py.all_digits s = true.
Proof.
  induction s as [|c r IH]; [reflexivity|].
  cbn [Py.all_decimal Py.all_digits]. intros [Hc Hr]%andb_true_iff.
  unfold Py.is_digit. cbv zeta. rewrite Hc, (IH Hr). reflexivity.
Qed.

Lemma all_digits_of_uint (d : Decimal.uint) :
  Py.all_digits (NilEmpty.string_of_uint d) = true.
Proof. apply all_decimal_digits, all_decimal_of_uint. Qed.

Lemma length_string_of_uint (d : Decimal.uint) :
  String.length (NilEmpty.string_of_uint d) = Decimal.nb_digits d.
Proof.
  induction d as [|d IH|d IH|d IH|d IH|d IH|d IH|d IH|d IH|d IH|d IH];
    [reflexivity|..];
    cbn [NilEmpty.string_of_uint String.length Decimal.nb_digits];
    now rewrite IH.
Qed.

(** A string of decimal digits is the text of a list of digits. *)
Lemma all_decimal_uint (s : string) :
  Py.all_decimal s = true -> exists d, s = NilEmpty.string_of_uint d.
Proof.
  induction s as [|c r IH]; [exists Decimal.Nil; reflexivity|].
  cbn [Py.all_decimal]. intros [Hc Hr]%andb_true_iff.
  destruct (IH Hr) as [d ->].
  destruct c as [[|] [|] [|] [|] [|] [|] [|] [|]];
    try (vm_compute in Hc; discriminate);
    first [ exists (Decimal.D0 d); reflexivity
          | exists (Decimal.D1 d); reflexivity
          | exists (Decimal.D2 d); reflexivity
          | exists (Decimal.D3 d); reflexivity
          | exists (Decimal.D4 d); reflexivity
          | exists (Decimal.D5 d); reflexivity
          | exists (Decimal.D6 d); reflexivity
          | exists (Decimal.D7 d); reflexivity
          | exists (Decimal.D8 d); reflexivity
          | exists (Decimal.D9 d); reflexivity ].
Qed.

Lemma str_of_positive (p : positive) :
  Py.str (Z.pos p) = NilEmpty.string_of_uint (Pos.to_uint p) /\
  Pos.to_uint p <> Decimal.Nil.
Proof.
  assert (Hne : Pos.to_uint p <> Decimal.Nil).
  { intros Hnil. pose proof (DecimalPos.Unsigned.of_to p) as H.
    rewrite Hnil in H. discriminate. }
  split; [|assumption].
  unfold Py.str. cbn [Z.to_int NilZero.string_of_int].
  unfold NilZero.string_of_uint. destruct (Pos.to_uint p); congruence.
Qed.

Lemma digit_is_not_space (c : ascii) :
  Py.is_digit c = true -> Py.isspace c = false.
Proof.
  destruct c as [[|] [|] [|] [|] [|] [|] [|] [|]]; vm_compute; congruence.
Qed.

Lemma rstrip_digits (s : string) : Py.all_digits s = true -> Py.rstrip s = s.
Proof.
  induction s as [|c r IH]; [reflexivity|]. cbn [Py.all_digits Py.rstrip].
  intros [Hc Hr]%andb_true_iff. rewrite (IH Hr).
  destruct r; [now rewrite (digit_is_not_space c Hc) | reflexivity].
Qed.

Lemma strip_digits (s : string) : Py.all_digits s = true -> Py.strip s = s.
Proof.
  intros Hs. unfold Py.strip.
  assert (Py.lstrip s = s) as ->; [|now apply rstrip_digits].
  destruct s as [|c r]; [reflexivity|]. cbn [Py.all_digits] in Hs.
  apply andb_true_iff in Hs as [Hc _]. cbn [Py.lstrip].
  now rewrite (digit_is_not_space c Hc).
Qed.

(** The text of a count that is not negative is a string of decimal digits
    that reads back as the count, and the copies prompt accepts it when the
    count is positive and within the digit limit. *)
Lemma count_reads_back (n : Z) :
  (0 <= n ->
   Py.all_decimal (Py.str n) = true /\ Py.isdigit (Py.str n) = true /\
   Py.int (Py.str n) = n) /\
  (0 < n -> (String.length (Py.str n) <= Py.max_str_digits)%nat ->
   copies_answer (Py.str n) = Accepted n).
Proof.
  assert (Hpos : forall p, Py.isdigit (Py.str (Z.pos p)) = true /\
                           Py.int (Py.str (Z.pos p)) = Z.pos p /\
                           Py.all_decimal (Py.str (Z.pos p)) = true).
  { intros p. destruct (str_of_positive p) as [-> Hne].
    pose proof (all_decimal_of_uint (Pos.to_uint p)) as Hall.
    split; [|split; [|assumption]].
    - unfold Py.isdigit.
      destruct (NilEmpty.string_of_uint (Pos.to_uint p)) eqn:Hs;
        [|now apply all_decimal_digits].
      destruct (Pos.to_uint p); try discriminate. congruence.
    - unfold Py.int. rewrite int_digits_of_uint.
      now rewrite DecimalPos.Unsigned.of_to. }
  split.
  - intros Hn. destruct n as [|p|p]; [repeat split | | lia].
    destruct (Hpos p) as (? & ? & ?). auto.
  - intros Hn Hlen. destruct n as [|p|p]; [lia | | lia].
    destruct (Hpos p) as (Hd & Hi & Hall).
    unfold copies_answer, Py.int_result. cbv zeta.
    rewrite (strip_digits _ (all_decimal_digits _ Hall)).
    rewrite Hd, Hall, Hi.
    apply Nat.leb_le in Hlen. rewrite Hlen.
    destruct (Py.str (Z.pos p)); [discriminate|].
    cbn [Py.truthy negb andb String.length Nat.leb]. reflexivity.
Qed.

(** The number a string of decimal digits denotes is written with no more
    digits than the string has. *)
Lemma str_of_int_is_shorter (s : string) :
  Py.all_decimal s = true -> 0 < Py.int s ->
  (String.length (Py.str (Py.int s)) <= String.length s)%nat.
Proof.
  intros [d ->]%all_decimal_uint. unfold Py.int.
  rewrite int_digits_of_uint, length_string_of_uint.
  pose proof (DecimalPos.Unsigned.to_of d) as Hto.
  destruct (Pos.of_uint d) as [|p] eqn:Hof; [cbn; lia|]. intros _.
  cbn [Z.of_N]. destruct (str_of_positive p) as [-> _].
  cbn [N.to_uint] in Hto. rewrite Hto, length_string_of_uint.
  apply DecimalFacts.nb_digits_unorm. intros ->. discriminate Hof.
Qed.

(** A count accepted at the copies prompt has at most 4300 digits. *)
Lemma accepted_count_is_short (l : string) (c : Z) :
  copies_answer l = Accepted c ->
  (String.length (Py.str c) <= Py.max_str_digits)%nat.
Proof.
  intros Hacc.
  destruct (copies_answer_positive l c Hacc) as (Hpos & Hblank & Hdig).
  destruct (Py.strip l) as [|a r] eqn:Hs.
  - rewrite (Hblank eq_refl). apply Nat.leb_le. vm_compute. reflexivity.
  - destruct Hdig as (_ & Hall & Hlen & ->); [discriminate|].
    etransitivity; [|exact Hlen].
    apply str_of_int_is_shorter; assumption.
Qed.

(** X16. A count accepted at the copies prompt is one [str()] can write:
    for options that [get_print_options] returned, [print_pdf] builds its
    command without raising, the limit of 4300 digits that let [int()] read
    the line letting [str()] write the count. And the text of the count,
    which is what follows [-n] in the command, is accepted by the copies
    loop and gives the same count again. *)
Theorem copy_count_reads_back (lines rest : list string) (t : list event)
    (opts : options) (path printer : string) (rest' : list string) :
  get_print_options lines = (rest, t, Ok opts) ->
  Py.str_result (copies opts) = Ok (Py.str (copies opts)) /\
  print_pdf_argv path printer opts = Ok (print_pdf_cmd path printer opts) /\
  copies_loop (Py.str (copies opts) :: rest')
    = (rest', [EvInput copies_prompt], Ok (copies opts)).
Proof.
  intros Hrun.
  apply get_print_options_inv in Hrun
    as (pg & badc & goodc & badd & goodd & ft & md &
        _ & _ & Hgc & _).
  pose proof (accepted_count_is_short goodc _ Hgc) as Hlen.
  destruct (copies_answer_positive goodc _ Hgc) as (Hpos & _ & _).
  assert (Hstr : Py.str_result (copies opts) = Ok (Py.str (copies opts))).
  { unfold Py.str_result. rewrite Z.abs_eq by lia.
    apply Nat.leb_le in Hlen. now rewrite Hlen. }
  split; [assumption|]. split.
  - unfold print_pdf_argv. rewrite Hstr.
    destruct (negb (copies opts =? 0) && negb (copies opts =? 1))%bool;
      reflexivity.
  - rewrite copies_loop_cons.
    now rewrite (proj2 (count_reads_back (copies opts)) Hpos Hlen).
Qed.

Lemma copy_count_reads_back_witness :
  Py.str_result 12 = Ok "12" /\
  print_pdf_argv "/w/a.pdf" "Office" (Options "" 12 None false None)
    = Ok ["lp"; "-d"; "Office"; "-n"; "12"; "/w/a.pdf"] /\
  copies_loop ["12"; "x"] = (["x"], [EvInput copies_prompt], Ok 12).
Proof.
  eapply (copy_count_reads_back [""; " 012 "; ""; "n"; ""] [] _
            (Options "" 12 None false None) "/w/a.pdf" "Office" ["x"]).
  vm_compute. reflexivity.
Defined.

Lemma lstrip_head (s : string) :
  match Py.lstrip s with
  | EmptyString => True
  | String c _ => Py.isspace c = false
  end.
Proof.
  induction s as [|c r IH]; [exact I|]. cbn [Py.lstrip].
  destruct (Py.isspace c) eqn:Hc; [exact IH | exact Hc].
Qed.

Lemma rstrip_cons (c : ascii) (r : string) :
  Py.rstrip (String c r) =
    match Py.rstrip r with
    | EmptyString => if Py.isspace c then EmptyString else String c EmptyString
    | String a r' => String c (String a r')
    end.
Proof. reflexivity. Qed.

Lemma rstrip_idempotent (s : string) : Py.rstrip (Py.rstrip s) = Py.rstrip s.
Proof.
  induction s as [|c r IH]; [reflexivity|]. rewrite rstrip_cons.
  destruct (Py.rstrip r) as [|a r'] eqn:Hr.
  - destruct (Py.isspace c) eqn:Hc; [reflexivity|].
    rewrite rstrip_cons. cbn [Py.rstrip]. now rewrite Hc.
  - rewrite rstrip_cons, IH. reflexivity.
Qed.

Lemma rstrip_keeps_head (c : ascii) (r : string) :
  Py.isspace c = false -> exists r', Py.rstrip (String c r) = String c r'.
Proof.
  intros Hc. cbn [Py.rstrip]. destruct (Py.rstrip r); [rewrite Hc|]; eauto.
Qed.

(** Stripping a stripped string changes nothing. *)
Lemma strip_idempotent (s : string) : Py.strip (Py.strip s) = Py.strip s.
Proof.
  unfold Py.strip. pose proof (lstrip_head s) as Hhead.
  destruct (Py.lstrip s) as [|c r]; [reflexivity|].
  destruct (rstrip_keeps_head c r Hhead) as [r' Hr].
  rewrite Hr. cbn [Py.lstrip]. rewrite Hhead. rewrite <- Hr.
  apply rstrip_idempotent.
Qed.

(** X17. Options can be replayed: typing the five lines that spell out the
    options [get_print_options] returned (the pages, [str] of the count, the
    number of the duplex mode or a blank line, [y] or a blank line, the
    media or a blank line) makes it return the same options, with no line
    rejected. *)
Theorem returned_options_can_be_replayed (lines rest : list string)
    (t : list event) (opts : options) (rest' : list string) :
  get_print_options lines = (rest, t, Ok opts) ->
  get_print_options (lines_for_options opts ++ rest') =
    (rest',
     [EvInput pages_prompt; EvInput copies_prompt]
       ++ duplex_menu
       ++ [EvInput duplex_prompt; EvInput fit_prompt; EvInput media_prompt],
     Ok opts).
Proof.
  intros Hrun.
  apply get_print_options_inv in Hrun
    as (pg & badc & goodc & badd & goodd & ft & md &
        _ & _ & Hgc & _ & Hgd & Hpg & _ & Hmd & _).
  destruct (copies_answer_positive goodc _ Hgc) as (Hpos & _ & _).
  pose proof (accepted_count_is_short goodc _ Hgc) as Hlen.
  destruct (duplex_answer_mode goodd _ Hgd) as (_ & Hmode).
  destruct opts as [pg' c d f m]; cbn [copies duplex media pages fit] in *.
  unfold lines_for_options; cbn [copies duplex media pages fit app].
  pose proof (get_print_options_accepts pg' [] (Py.str c) [] (duplex_line d)
                (if f then "y" else "")
                (match m with Some x => x | None => "" end) rest' c d)
    as Hacc.
  cbn [app] in Hacc. rewrite Hacc; clear Hacc.
  - assert (Hp1 : Py.strip pg' = pg').
    { subst pg'. apply strip_idempotent. }
    assert (Hf1 : String.eqb (Py.lower (Py.strip (if f then "y" else ""))) "y"
                  = f).
    { destruct f; reflexivity. }
    assert (Hm1 : (if Py.truthy
                        (Py.strip (match m with Some x => x | None => "" end))
                   then Some (Py.strip (match m with Some x => x | None => "" end))
                   else None) = m).
    { subst m. destruct (Py.truthy (Py.strip md)) eqn:Htr; [|reflexivity].
      now rewrite strip_idempotent, Htr. }
    rewrite Hp1, Hf1, Hm1. reflexivity.
  - constructor.
  - now apply (proj2 (count_reads_back c)).
  - constructor.
  - destruct Hmode as [->|(mode & Hin & ->)]; [reflexivity|].
    unfold duplex_modes in Hin.
    repeat (apply elem_of_cons in Hin as [->|Hin]; [reflexivity|]).
    now apply elem_of_nil in Hin.
Qed.

Lemma returned_options_can_be_replayed_witness :
  get_print_options
    (lines_for_options
       (Options "1-2" 3 (Some "two-sided-long-edge") true (Some "A4")) ++ []) =
    ([],
     [EvInput pages_prompt; EvInput copies_prompt]
       ++ duplex_menu
       ++ [EvInput duplex_prompt; EvInput fit_prompt; EvInput media_prompt],
     Ok (Options "1-2" 3 (Some "two-sided-long-edge") true (Some "A4"))).
Proof.
  eapply (returned_options_can_be_replayed
            [" 1-2 "; "x"; " 3 "; "9"; "2"; "Y"; " A4"] []).
  vm_compute. reflexivity.
Defined.

(** ** Rewrites that do not advance the modification time *)

(** X18. Change detection looks at the modification time only, and only
    forwards: once a file was submitted with [lp] succeeding at
    modification time [m], no later cycle that finds a modification time
    [m'] not greater than [m] submits it, whatever happened to the file and
    in the cycles in between. A rewrite that keeps or sets back the time is
    not noticed. *)
Theorem rewrite_without_newer_time_is_not_noticed (w1 w2 : world)
    (mid : list world) (folder printer : string) (o : options)
    (h0 : gmap string Z) (p : string) (m m' : Z) :
  getmtime w1 p = Ok m ->
  (0 < submissions p (trace_of (cycle w1 folder printer o h0)))%nat ->
  run w1 (print_pdf_cmd p printer o) = Exit0 ->
  getmtime w2 p = Ok m' ->
  m' <= m ->
  submissions p
    (trace_of
       (cycle w2 folder printer o
          (state_of
             (watch_loop mid folder printer o
                (state_of (cycle w1 folder printer o h0))))))
  = 0%nat.
Proof.
  intros Hg1 Hsub Hrun Hg2 Hle.
  destruct (cycle_submitted folder printer o w1 h0 p m Hg1 Hsub) as [_ Hrec].
  destruct Hrec as (t & Ht & Hmt); [now rewrite Hrun|].
  destruct (watch_loop_mono folder printer o mid _ p t Ht) as (t' & Ht' & Hle').
  apply (cycle_stale folder printer o w2 _ p t' Ht').
  intros m0 Hm0. assert (m0 = m') by congruence. lia.
Qed.

Lemma rewrite_without_newer_time_is_not_noticed_witness :
  submissions "/w/a.pdf"
    (trace_of
       (cycle (two_pdfs 4 Exit0) "/w" "Office" plain
          (state_of
             (watch_loop [] "/w" "Office" plain
                (state_of (cycle (two_pdfs 10 Exit0) "/w" "Office" plain ∅))))))
  = 0%nat.
Proof.
  apply (rewrite_without_newer_time_is_not_noticed (two_pdfs 10 Exit0)
           (two_pdfs 4 Exit0) [] "/w" "Office" plain ∅ "/w/a.pdf" 10 4).
  - reflexivity.
  - vm_compute. lia.
  - reflexivity.
  - reflexivity.
  - lia.
Defined.

(** ** The commands of a cycle, in order *)

Section Commands.

Variables (folder printer : string) (o : options).

Local Abbreviation path_of name := (Py.path_join folder name).

Lemma due_ext (w : world) (h h' : gmap string Z) (name : string) :
  h' !! path_of name = h !! path_of name ->
  due w folder h' name = due w folder h name.
Proof.
  intros Heq. unfold due.
  destruct (getmtime w (path_of name)) as [m|e]; [|reflexivity].
  now rewrite (should_print_ext h h' _ m Heq).
Qed.

Lemma reached_subset (w : world) (names : list string) (n : string) :
  n ∈ reached w folder names -> n ∈ names.
Proof.
  induction names as [|a names IH]; cbn [reached]; [auto|].
  destruct (stat_fails w (path_of a)).
  - intros ->%list_elem_of_singleton. apply list_elem_of_here.
  - intros [->|Hin]%elem_of_cons;
      [apply list_elem_of_here | apply list_elem_of_further; auto].
Qed.

(** What one entry runs, when [print_pdf] does not raise for it. *)
Lemma scan_entry_commands (w : world) (name : string) (h : gmap string Z) :
  print_raises w printer o (path_of name) = false ->
  List.filter is_run (trace_of (scan_entry w folder printer o name h)) =
    (if due w folder h name
     then [EvRun (print_pdf_cmd (path_of name) printer o)] else []) /\
  (stat_fails w (path_of name) = true ->
   exists e, result_of (scan_entry w folder printer o name h) = Raise e).
Proof.
  unfold print_raises. intros Hpr.
  rewrite scan_entry_run. cbv zeta. unfold due, stat_fails.
  unfold trace_of, result_of.
  destruct (isfile w (path_of name)); cbn [negb fst snd andb];
    [|split; [reflexivity | discriminate]].
  destruct (is_pdf_value w (path_of name)); cbn [negb fst snd andb].
  2: { unfold is_pdf_trace.
       destruct (Py.endswith _ _); (split; [reflexivity | discriminate]). }
  destruct (getmtime w (path_of name)) as [m|e]; cbn [fst snd].
  - destruct (should_print h (path_of name) m); cbn [fst snd];
      [|split; [reflexivity | discriminate]].
    destruct (pre_try w (path_of name) printer o); [|discriminate].
    cbn [fst snd]. unfold submit_trace.
    destruct (run w _); (split; [reflexivity | discriminate]).
  - split; [reflexivity | eauto].
Qed.

Lemma scan_commands (w : world) (names : list string) (h : gmap string Z) :
  NoDup (map (Py.path_join folder) names) ->
  Forall (fun n => print_raises w printer o (path_of n) = false) names ->
  List.filter is_run
    (trace_of (for_each names (scan_entry w folder printer o) h)) =
  map (fun n => EvRun (print_pdf_cmd (path_of n) printer o))
    (List.filter (due w folder h) (reached w folder names)).
Proof.
  revert h; induction names as [|n names IH]; intros h Hnd Hpr; [reflexivity|].
  simpl in Hnd. apply NoDup_cons in Hnd as [Hnot Hnd].
  apply Forall_cons in Hpr as [Hprn Hpr].
  cbn [reached]. rewrite for_each_cons.
  destruct (scan_entry_commands w n h Hprn) as [Hcmd Hraise].
  destruct (stat_fails w (path_of n)) eqn:Hsf.
  - destruct (Hraise eq_refl) as [e He].
    destruct (scan_entry w folder printer o n h) as [[h1 t1] r1];
      unfold trace_of, result_of in *; cbn [fst snd] in *. subst r1.
    cbn [fst snd]. rewrite Hcmd. cbn [List.filter].
    destruct (due w folder h n); reflexivity.
  - pose proof (scan_entry_ok folder printer o w n h (conj Hsf Hprn)) as Hr.
    assert (Hkeep : forall n', n' ∈ names ->
              state_of (scan_entry w folder printer o n h) !! path_of n'
              = h !! path_of n').
    { intros n' Hin. apply scan_entry_other. intros Heq. apply Hnot.
      rewrite Heq. now apply list_elem_of_fmap_2. }
    destruct (scan_entry w folder printer o n h) as [[h1 t1] r1];
      unfold trace_of, result_of, state_of in *; cbn [fst snd] in *.
    subst r1. specialize (IH h1 Hnd Hpr).
    destruct (for_each names _ h1) as [[h2 t2] r]; cbn [fst snd] in *.
    rewrite List.filter_app, Hcmd, IH. cbn [List.filter].
    assert (Hsame : List.filter (due w folder h1) (reached w folder names)
                    = List.filter (due w folder h) (reached w folder names)).
    { apply List.filter_ext_in. intros n' Hin.
      apply due_ext, Hkeep. apply reached_subset with w.
      now apply list_elem_of_In. }
    rewrite Hsame. destruct (due w folder h n); reflexivity.
Qed.

End Commands.

(** X19. In a cycle over distinct names (as [os.listdir] gives them) for
    none of which [print_pdf] would raise before it runs [lp], the commands
    run are exactly the [lp] commands of the due files, one each, in the
    order of the listing, up to the first entry whose [stat] raises. A file
    is due when it is a regular PDF file and its record, as it was when the
    cycle began, is missing or older than its modification time. *)
Theorem cycle_runs_due_files_in_order (w : world) (folder printer : string)
    (o : options) (names : list string) (h : gmap string Z) :
  listdir w folder = Ok names ->
  NoDup names ->
  Forall (fun n => Py.startswith n "/" = false) names ->
  Forall (fun n => print_raises w printer o (Py.path_join folder n) = false)
    names ->
  List.filter is_run (trace_of (cycle w folder printer o h)) =
  map (fun n => EvRun (print_pdf_cmd (Py.path_join folder n) printer o))
    (List.filter (due w folder h) (reached w folder names)).
Proof.
  intros Hl Hnd Hall Hpr. rewrite cycle_run, Hl.
  pose proof (scan_commands folder printer o w names h
                (joined_paths_distinct folder names Hnd Hall) Hpr) as Hscan.
  destruct (for_each names _ h) as [[h1 t1] [[]|e]];
    unfold trace_of in *; cbn [fst snd] in *;
    rewrite List.filter_app, Hscan; cbn [List.filter is_run];
    apply app_nil_r.
Qed.

Lemma cycle_runs_due_files_in_order_witness :
  List.filter is_run
    (trace_of (cycle (two_pdfs 10 Exit0) "/w" "Office" plain
                 {["/w/a.pdf" := 10]})) =
  [EvRun ["lp"; "-d"; "Office"; "/w/b.pdf"]].
Proof.
  rewrite (cycle_runs_due_files_in_order (two_pdfs 10 Exit0) "/w" "Office"
             plain ["a.pdf"; "b.pdf"] {["/w/a.pdf" := 10]}).
  - vm_compute. reflexivity.
  - reflexivity.
  - apply (bool_decide_unpack _). vm_compute. exact I.
  - repeat constructor.
  - repeat constructor.
Defined.

(** ** The digit limit and the terminal *)

(** A line of more than 4300 characters is refused by [int()]. *)
Lemma int_beyond_digit_limit (s : string) :
  (Py.max_str_digits < String.length s)%nat ->
  Py.int_result s = Raise (Exn "ValueError").
Proof.
  intros Hlen%Nat.leb_gt. unfold Py.int_result.
  now rewrite Hlen, andb_false_r.
Qed.

(** A count other than 0 and 1 whose text has more than 4300 digits makes
    [print_pdf] raise [ValueError] before it has logged or run anything. *)
Lemma print_pdf_beyond_digit_limit {S} (w : world) (path printer : string)
    (o : options) (s : S) :
  copies o <> 0 -> copies o <> 1 ->
  (Py.max_str_digits < String.length (Py.str (Z.abs (copies o))))%nat ->
  print_pdf w path printer o s = (s, [], Raise (Exn "ValueError")).
Proof.
  intros H0 H1 Hlen%Nat.leb_gt.
  assert (Hargv : print_pdf_argv path printer o = Raise (Exn "ValueError")).
  { apply print_pdf_argv_raises. repeat split; try assumption.
    unfold Py.str_result. now rewrite Hlen. }
  rewrite print_pdf_run. unfold pre_try. now rewrite Hargv.
Qed.

(** On a terminal that cannot show the line [print_pdf] logs, the scan is
    cut short at the first file that is due: nothing is run or recorded, and
    the later files are not looked at. *)
Example cycle_cut_short_by_print_pdf :
  cycle mute_terminal "/w" "Office" plain ∅ =
    (∅,
     [EvOpen "/w/a.pdf";
      EvLog WARNING (MsgScanError (Exn "UnicodeEncodeError")); EvSleep 5],
     Ok tt).
Proof. vm_compute. reflexivity. Qed.
